(** * ESG_parser: a shallow embedding of the news-archive crawlers

    The repository holds three crawlers (rambler_parser.py, ria_parser.py,
    rbc_parser.py) with the same three stages: [UrlsCollector] scrolls a page
    in a Selenium browser until a target date shows up in the body text and
    then collects the article links; [DataParser] fetches every link and
    extracts title, date and text; [CSVWriter] appends the records to a csv
    file.

    Python strings are lists of Unicode code points, a dict is a finite map,
    [None] is a constructor of the value type.  The browser and the HTTP
    server are the environment: the browser is an arbitrary timeline of
    pages, one per driver command, each page saying how the command issued
    against it turns out.  Loops that Python runs without a bound take a
    fuel argument and report [Running] when the fuel is gone. *)

From stdpp Require Import gmap list fin_maps strings.
From Stdlib Require Import NArith Ascii String.

Local Open Scope N_scope.
Local Open Scope nat_scope.
Local Open Scope list_scope.

(** ** Python values *)

(** A [str]: the sequence of its code points. *)
Abbreviation pystr := (list N).

(** An ASCII literal as a [str]. *)
Definition py (s : string) : pystr :=
  List.map N_of_ascii (list_ascii_of_string s).

(** A value stored in a record or returned by a field parser: [None] or a
    [str]. *)
Inductive pyval :=
  | VNone
  | VStr (s : pystr).

Global Instance pyval_eq_dec : EqDecision pyval.
Proof. solve_decision. Defined.

Definition is_None (v : pyval) : bool :=
  match v with VNone => true | VStr _ => false end.

(** [p in s] for strings. *)
Fixpoint startswith (p s : pystr) : bool :=
  match p, s with
  | [], _ => true
  | _ :: _, [] => false
  | c :: p', c' :: s' => (c =? c')%N && startswith p' s'
  end.

Fixpoint contains (p s : pystr) : bool :=
  startswith p s ||
  match s with
  | [] => false
  | _ :: s' => contains p s'
  end.

(** [str.isspace] of one character, which is also what [\s] matches in a
    [str] pattern. *)
Definition isspace (c : N) : bool :=
  ((9 <=? c) && (c <=? 13) || (28 <=? c) && (c <=? 32)
   || (c =? 133) || (c =? 160) || (c =? 5760)
   || (8192 <=? c) && (c <=? 8202)
   || (c =? 8232) || (c =? 8233) || (c =? 8239) || (c =? 8287)
   || (c =? 12288))%N.

Fixpoint lstrip (s : pystr) : pystr :=
  match s with
  | [] => []
  | c :: s' => if isspace c then lstrip s' else s
  end.

Definition rstrip (s : pystr) : pystr := rev (lstrip (rev s)).

(** [s.strip()] *)
Definition strip (s : pystr) : pystr := rstrip (lstrip s).

(** [s.replace(old, new)] for one-character [old] and [new]. *)
Definition replace (old new : N) (s : pystr) : pystr :=
  List.map (fun c => if (c =? old)%N then new else c) s.

(** [re.sub(r"\s+|\xa0|\n|\u200b", " ", s)]: every maximal run of
    whitespace (which covers the second and third alternatives) and every
    zero-width space U+200B becomes one blank.  [in_run] says that the
    previous character belonged to a run already replaced. *)
Fixpoint re_sub_from (in_run : bool) (s : pystr) : pystr :=
  match s with
  | [] => []
  | c :: s' =>
      if isspace c then
        if in_run then re_sub_from true s' else 32%N :: re_sub_from true s'
      else if (c =? 8203)%N then 32%N :: re_sub_from false s'
      else c :: re_sub_from false s'
  end.

Definition re_sub (s : pystr) : pystr := re_sub_from false s.

(** [s.split(sep, maxsplit=1)] for a one-character [sep]. *)
Fixpoint split_once (sep : N) (s : pystr) : list pystr :=
  match s with
  | [] => [[]]
  | c :: s' =>
      if (c =? sep)%N then [[]; s']
      else
        match split_once sep s' with
        | first :: others => (c :: first) :: others
        | [] => [[c]]
        end
  end.

(** The one-character string holding a double quote. *)
Definition quote : string := String (ascii_of_nat 34) EmptyString.

(** ** Exceptions *)

(** The exception classes the code names or can meet.  [WebDriverException]
    stands for every Selenium error that is none of the three listed before
    it (a dead session, an intercepted click, ...). *)
Inductive exn :=
  | TimeoutException
  | StaleElementReferenceException
  | NoSuchElementException
  | WebDriverException
  | KeyboardInterrupt
  | AttributeError
  | TypeError
  | ValueError
  | IndexError
  | ClientError
  | AsyncTimeoutError.

Global Instance exn_eq_dec : EqDecision exn.
Proof. solve_decision. Defined.

(** selenium.common.exceptions: every Selenium exception derives from
    [WebDriverException]. *)
Definition isinstance_WebDriverException (e : exn) : bool :=
  match e with
  | TimeoutException | StaleElementReferenceException
  | NoSuchElementException | WebDriverException => true
  | _ => false
  end.

(** [except Exception] catches everything but the [BaseException]-only
    classes, here [KeyboardInterrupt]. *)
Definition isinstance_Exception (e : exn) : bool :=
  match e with
  | KeyboardInterrupt => false
  | _ => true
  end.

Definition isinstance_TimeoutException (e : exn) : bool :=
  match e with
  | TimeoutException => true
  | _ => false
  end.

Definition isinstance_StaleElementReferenceException (e : exn) : bool :=
  match e with
  | StaleElementReferenceException => true
  | _ => false
  end.

Definition isinstance_KeyboardInterrupt (e : exn) : bool :=
  match e with
  | KeyboardInterrupt => true
  | _ => false
  end.

Inductive result (A : Type) :=
  | Returns (a : A)
  | Raises (e : exn).
Arguments Returns {A} a.
Arguments Raises {A} e.

Global Instance result_eq_dec `{EqDecision A} : EqDecision (result A).
Proof. solve_decision. Defined.

(** ** Statements with effects *)

(** A statement run in a state [S]: a value or an exception, and the state
    afterwards.  What was done before an exception stays done. *)
Definition St (S A : Type) : Type := S -> result A * S.

Definition ret {S A} (a : A) : St S A := fun s => (Returns a, s).

Definition raise {S A} (e : exn) : St S A := fun s => (Raises e, s).

Definition bind {S A B} (c : St S A) (k : A -> St S B) : St S B := fun s =>
  match c s with
  | (Returns a, s') => k a s'
  | (Raises e, s') => (Raises e, s')
  end.

Notation "x <- c ;; k" := (bind c (fun x => k))
  (at level 100, c at next level, right associativity).
Notation "c ;; k" := (bind c (fun _ => k))
  (at level 100, right associativity).

(** [try: body except <class> as e: handler e] *)
Definition try_except {S A} (body : St S A) (class : exn -> bool)
    (handler : exn -> St S A) : St S A := fun s =>
  match body s with
  | (Raises e, s') => if class e then handler e s' else (Raises e, s')
  | returned => returned
  end.

Definition of_outcome {S} (o : option exn) : St S unit :=
  match o with
  | None => ret tt
  | Some e => raise e
  end.

Definition of_result {S A} (r : result A) : St S A := fun s => (r, s).

(** ** The browser *)

(** What a page answers to each kind of driver command. *)
Record Page := {
  nav_outcome : option exn;
    (* driver.get(url), driver.maximize_window(): the exception, if any *)
  script_outcome : option exn;
    (* driver.execute_script(...) *)
  body_outcome : result pystr;
    (* driver.find_element(By.CSS_SELECTOR, "body").text *)
  button_outcome : result bool;
    (* driver.find_element(By.XPATH, BUTTON), then is_displayed() *)
  click_outcome : option exn;
    (* more_button.click() *)
  links_outcome : result (list (result pyval))
    (* driver.find_elements(...), then the href of each element found *)
}.

(** What a collector has done so far, oldest first: the driver commands it
    issued and the errors it logged. *)
Inductive event :=
  | EvGet (url : pystr)
  | EvMaximize
  | EvExecuteScript (script : string)
  | EvBodyText (r : result pystr)
  | EvFindButton (r : result bool)
  | EvClick
  | EvFindElements (selector : string)
  | EvQuit
  | EvLoggerError (e : exn).

Record Driver := {
  timeline : nat -> Page;
  clock : nat;
  log : list event
}.

Definition new_driver (tl : nat -> Page) : Driver :=
  {| timeline := tl; clock := 0; log := [] |}.

(** The page the next command will meet. *)
Definition current (d : Driver) : Page := timeline d (clock d).

(** Write [e] to the log without issuing a command. *)
Definition record (e : event) (d : Driver) : Driver :=
  {| timeline := timeline d; clock := clock d; log := log d ++ [e] |}.

(** Issue a command: it is logged and the page moves on. *)
Definition tick (e : event) (d : Driver) : Driver :=
  {| timeline := timeline d; clock := S (clock d); log := log d ++ [e] |}.

Abbreviation Cmd := (St Driver).

Definition get (url : pystr) : Cmd unit := fun d =>
  of_outcome (nav_outcome (current d)) (tick (EvGet url) d).

Definition maximize_window : Cmd unit := fun d =>
  of_outcome (nav_outcome (current d)) (tick EvMaximize d).

Definition execute_script (script : string) : Cmd unit := fun d =>
  of_outcome (script_outcome (current d)) (tick (EvExecuteScript script) d).

Definition find_body_text : Cmd pystr := fun d =>
  (body_outcome (current d), tick (EvBodyText (body_outcome (current d))) d).

Definition find_button_displayed : Cmd bool := fun d =>
  (button_outcome (current d), tick (EvFindButton (button_outcome (current d))) d).

Definition click : Cmd unit := fun d =>
  of_outcome (click_outcome (current d)) (tick EvClick d).

Definition find_elements (selector : string) : Cmd (list (result pyval)) := fun d =>
  (links_outcome (current d), tick (EvFindElements selector) d).

(** [WebDriver.__exit__]: the driver quits on every way out of the [with].
    The quit itself is taken to succeed. *)
Definition quit (d : Driver) : Driver := record EvQuit d.

(** [logger.error(...)] inside a collector. *)
Definition logger_error (e : exn) : Cmd unit := fun d =>
  (Returns tt, record (EvLoggerError e) d).

(** How a loop body leaves: it runs to its end, hits [continue], hits
    [break], or lets an exception out. *)
Inductive flow (S : Type) :=
  | Next (st : S)
  | Continue (st : S)
  | Break (st : S)
  | Propagate (e : exn) (st : S).
Arguments Next {S} st.
Arguments Continue {S} st.
Arguments Break {S} st.
Arguments Propagate {S} e st.

(** How far a loop got with the fuel it was given. *)
Inductive run (A : Type) :=
  | Finished (r : result A) (d : Driver)
  | Running (d : Driver).
Arguments Finished {A} r d.
Arguments Running {A} d.

Definition run_driver {A} (r : run A) : Driver :=
  match r with
  | Finished _ d => d
  | Running d => d
  end.

Definition finished {A} (r : run A) : bool :=
  match r with
  | Finished _ _ => true
  | Running _ => false
  end.

(** ** Selenium's waits, as the crawlers use them *)

Module Selenium.

(** [WebDriverWait(driver, 0).until(method)]: with a timeout of zero the
    method is tried once; a truthy value is returned, a falsy one or an
    ignored [NoSuchElementException] ends in [TimeoutException], any other
    exception passes through. *)
Definition until {A} (method : Cmd (option A)) : Cmd A := fun d =>
  match method d with
  | (Returns (Some v), d') => (Returns v, d')
  | (Returns None, d') => (Raises TimeoutException, d')
  | (Raises NoSuchElementException, d') => (Raises TimeoutException, d')
  | (Raises e, d') => (Raises e, d')
  end.

(** [EC.text_to_be_present_in_element((By.CSS_SELECTOR, "body"), text_)]:
    [text_ in element.text], and [False] on a stale element. *)
Definition text_to_be_present_in_element (text_ : pystr) : Cmd (option bool) :=
  try_except
    (element_text <- find_body_text ;;
     ret (if contains text_ element_text then Some true else None))
    isinstance_StaleElementReferenceException
    (fun _ => ret None).

(** [EC.visibility_of_element_located((By.XPATH, BUTTON))]: the element if
    it is displayed, [False] if it is not or went stale. *)
Definition visibility_of_element_located : Cmd (option unit) :=
  try_except
    (displayed <- find_button_displayed ;;
     ret (if (displayed : bool) then Some tt else None))
    isinstance_StaleElementReferenceException
    (fun _ => ret None).

End Selenium.

(** [for link in links: urls.append(link.get_attribute("href"))]: the hrefs
    appended before the first failing element, and that failure. *)
Fixpoint append_hrefs (urls : list pyval) (links : list (result pyval))
  : list pyval * option exn :=
  match links with
  | [] => (urls, None)
  | Returns href :: links' => append_hrefs (urls ++ [href]) links'
  | Raises e :: _ => (urls, Some e)
  end.

(** ** Pages, records and the csv file *)

(** A node of a parsed page (selectolax): its text, its attributes, and the
    nodes a css selector matches below it, in document order. *)
#[local] Unset Elimination Schemes.
Inductive Node :=
  | MkNode (text : pystr) (attributes : gmap string pyval) (css : string -> list Node).
#[local] Set Elimination Schemes.

Definition node_text (n : Node) : pystr :=
  match n with MkNode text _ _ => text end.

(** [node.attributes.get(name)] *)
Definition attributes_get (n : Node) (name : string) : pyval :=
  match n with MkNode _ attributes _ => default VNone (attributes !! name) end.

Definition css (n : Node) (selector : string) : list Node :=
  match n with MkNode _ _ css => css selector end.

(** [node.css_first(selector)]: the first match or [None]. *)
Definition css_first (n : Node) (selector : string) : option Node :=
  head (css n selector).

(** What [session.get(url)] gives: the status and, from
    [await response.text()] and [HTMLParser], the parsed page. *)
Record Response := {
  status : N;
  text : result Node
}.

(** The server: an answer or an exception for every address. *)
Abbreviation Http := (pyval -> result Response).

(** What [_parse_page] returns: [None] or a dict. *)
Inductive pyrow :=
  | RowNone
  | RowDict (fields : gmap pystr pyval).

Global Instance pyrow_eq_dec : EqDecision pyrow.
Proof. solve_decision. Defined.

(** What is printed or logged. *)
Inductive diag :=
  | DiagError (e : exn)
  | DiagRemaining (pages : nat)
  | DiagSkipped (row : pyrow).

(** The csv file, row by row, and the messages put out so far. *)
Record IO := {
  csv_file : list (list pystr);
  console : list diag
}.

Definition print (msg : diag) : St IO unit := fun io =>
  (Returns tt, {| csv_file := csv_file io; console := console io ++ [msg] |}).

Definition write_line (row : list pystr) : St IO unit := fun io =>
  (Returns tt, {| csv_file := csv_file io ++ [row]; console := console io |}).

(** "Заголовок" *)
Definition str_title : pystr :=
  [1047; 1072; 1075; 1086; 1083; 1086; 1074; 1086; 1082]%N.
(** "Компания" *)
Definition str_company : pystr :=
  [1050; 1086; 1084; 1087; 1072; 1085; 1080; 1103]%N.
(** "Дата публикации" *)
Definition str_date : pystr :=
  [1044; 1072; 1090; 1072; 32; 1087; 1091; 1073; 1083; 1080; 1082; 1072; 1094; 1080; 1080]%N.
(** "Текст" *)
Definition str_text : pystr := [1058; 1077; 1082; 1089; 1090]%N.
(** "Сбербанк" *)
Definition str_sberbank : pystr :=
  [1057; 1073; 1077; 1088; 1073; 1072; 1085; 1082]%N.

(** The dict literal of [_parse_page]. *)
Definition record_of (title publication_date article_text : pyval) : pyrow :=
  RowDict (<[str_title := title]>
          (<[str_company := VStr str_sberbank]>
          (<[str_date := publication_date]>
          (<[str_text := article_text]> ∅)))).

(** [row.values()] *)
Definition values (fields : gmap pystr pyval) : list pyval :=
  (map_to_list fields).*2.

(** [csv.DictWriter] over a file opened for appending. *)
Module DictWriter.

(** A value as the writer puts it in a cell: [None] becomes the empty
    string. *)
Definition cell (v : pyval) : pystr :=
  match v with
  | VNone => []
  | VStr s => s
  end.

Definition writeheader (fieldnames : list pystr) : St IO unit :=
  write_line fieldnames.

(** [writerow(rowdict)]: [ValueError] on a key that is no field name; a
    missing key gives the empty [restval]. *)
Definition writerow (fieldnames : list pystr) (rowdict : gmap pystr pyval) : St IO unit :=
  if forallb (fun key => bool_decide (key ∈ fieldnames)) (map_to_list rowdict).*1
  then write_line (List.map (fun key => cell (default (VStr []) (rowdict !! key))) fieldnames)
  else raise ValueError.

End DictWriter.

(** [datetime.fromisoformat(parsed_date).strftime("%d.%m.%Y")], the
    conversion of a well-formed string being [iso_to_dmy]. *)
Definition fromisoformat_strftime {S} (iso_to_dmy : pystr -> option pystr)
    (parsed_date : pyval) : St S pystr :=
  match parsed_date with
  | VNone => raise TypeError
  | VStr s =>
      match iso_to_dmy s with
      | Some formatted => ret formatted
      | None => raise ValueError
      end
  end.

(** [content_block.css(selector)] where [content_block] may be [None]. *)
Definition css_of {S} (n : option Node) (selector : string) : St S (list Node) :=
  match n with
  | Some n => ret (css n selector)
  | None => raise AttributeError
  end.

(** [n.text()] where [n] may be [None]. *)
Definition text_of {S} (n : option Node) : St S pystr :=
  match n with
  | Some n => ret (node_text n)
  | None => raise AttributeError
  end.

(** [l[i]] *)
Definition index {S A} (l : list A) (i : nat) : St S A :=
  match l !! i with
  | Some a => ret a
  | None => raise IndexError
  end.

(** [session.get(url)] and [response.text()]. *)
Definition session_get {S} (http : Http) (url : pyval) : St S Response :=
  of_result (http url).

Definition response_text {S} (response : Response) : St S Node :=
  of_result (text response).

(** A [for] loop over [l] whose body may raise. *)
Fixpoint for_each {S A} (l : list A) (body : A -> St S unit) : St S unit :=
  match l with
  | [] => ret tt
  | a :: l' => body a ;; for_each l' body
  end.

(** [[f(x) for x in l]] where [f] may raise; also the results of
    [asyncio.gather] over the tasks [f(x)], which come in task order. *)
Fixpoint gather {S A B} (f : A -> St S B) (l : list A) : St S (list B) :=
  match l with
  | [] => ret []
  | a :: l' =>
      b <- f a ;;
      bs <- gather f l' ;;
      ret (b :: bs)
  end.

(** ** rambler_parser.py *)

Module Rambler.

Definition CSV_HEADERS : list pystr := [str_title; str_company; str_date; str_text].

Definition RAMBLER_URL : pystr :=
  py "https://finance.rambler.ru/organization/sberbank-rossii/".

(** "3 декабря 2020" *)
Definition TARGET_DATE : pystr :=
  [51; 32; 1076; 1077; 1082; 1072; 1073; 1088; 1103; 32; 50; 48; 50; 48]%N.

(** *** UrlsCollector *)

Definition CSS_SELECTOR : string := "a._1uRkW".

Definition _scroll_to_top : Cmd unit :=
  execute_script "window.scrollTo(0, -0.05);".

Definition _scroll_to_bottom : Cmd unit :=
  execute_script "window.scrollTo(0, document.body.scrollHeight);".

(** [time.sleep(1)] *)
Definition _wait_for_load : Cmd unit := ret tt.

Definition _is_target_article_present : Cmd bool :=
  try_except
    (Selenium.until (Selenium.text_to_be_present_in_element TARGET_DATE) ;;
     ret true)
    isinstance_TimeoutException
    (fun _ => ret false).

(** [while not self._is_target_article_present(driver): ...] *)
Fixpoint scroll_loop (fuel : nat) (d : Driver) : run unit :=
  match fuel with
  | 0 => Running d
  | S fuel' =>
      match _is_target_article_present d with
      | (Raises e, d1) => Finished (Raises e) d1
      | (Returns true, d1) => Finished (Returns tt) d1
      | (Returns false, d1) =>
          match (_scroll_to_bottom ;; _wait_for_load ;; _scroll_to_top) d1 with
          | (Raises e, d2) => Finished (Raises e) d2
          | (Returns _, d2) => scroll_loop fuel' d2
          end
      end
  end.

(** The list comprehension over [find_elements]. *)
Definition read_links : Cmd (list pyval) :=
  links <- find_elements CSS_SELECTOR ;;
  match append_hrefs [] links with
  | (urls, None) => ret urls
  | (_, Some e) => raise e
  end.

Definition collect_urls (fuel : nat) (tl : nat -> Page) : run (list pyval) :=
  match (get RAMBLER_URL ;; maximize_window) (new_driver tl) with
  | (Raises e, d) => Finished (Raises e) (quit d)
  | (Returns _, d) =>
      match scroll_loop fuel d with
      | Running d1 => Running d1
      | Finished (Raises e) d1 => Finished (Raises e) (quit d1)
      | Finished (Returns _) d1 =>
          let '(r, d2) := read_links d1 in Finished r (quit d2)
      end
  end.

(** *** DataParser *)

Section DataParser.

Variable iso_to_dmy : pystr -> option pystr.

Definition _parse_title (html : Node) : St IO pyval :=
  try_except
    (let title_element := css_first html "h1#headline" in
     match title_element with
     | Some element => ret (VStr (replace 160 32 (node_text element)))
     | None => ret VNone
     end)
    isinstance_Exception
    (fun e => print (DiagError e) ;; ret (VStr [])).

Definition _parse_date (html : Node) : St IO pyval :=
  try_except
    (let date_element := css_first html "time" in
     match date_element with
     | Some element =>
         let parsed_date := attributes_get element "datetime" in
         formatted <- fromisoformat_strftime iso_to_dmy parsed_date ;;
         ret (VStr formatted)
     | None => ret VNone
     end)
    isinstance_Exception
    (fun e => print (DiagError e) ;; ret (VStr [])).

(** The loop over the paragraphs: [article_text] after it. *)
Definition join_paragraphs (paragraphs : list Node) : pystr :=
  fold_left
    (fun article_text paragraph =>
       if 0 <? List.length (node_text paragraph)
       then article_text ++ re_sub (strip (node_text paragraph))
       else article_text)
    paragraphs [].

Definition _parse_text (html : Node) : St IO pyval :=
  try_except
    (let content_block := css_first html "._2mfTS" in
     paragraphs <- css_of content_block "p" ;;
     ret (VStr (join_paragraphs paragraphs)))
    isinstance_Exception
    (fun e => print (DiagError e) ;; ret (VStr [])).

Definition _parse_page (http : Http) (url : pyval) : St IO pyrow :=
  try_except
    (response <- session_get http url ;;
     html <- response_text response ;;
     title <- _parse_title html ;;
     publication_date <- _parse_date html ;;
     article_text <- _parse_text html ;;
     ret (record_of title publication_date article_text))
    isinstance_Exception
    (fun e => print (DiagError e) ;; ret (RowDict ∅)).

(** [asyncio.gather] over one task per address; the messages are in the
    order of a run that takes the tasks one after the other. *)
Definition parse_data (http : Http) (urls : list pyval) : St IO (list pyrow) :=
  gather (_parse_page http) urls.

End DataParser.

(** *** CSVWriter *)

(** [all(value is not None for value in row.values())] *)
Definition all_not_None (fields : gmap pystr pyval) : bool :=
  forallb (fun value => negb (is_None value)) (values fields).

(** The body of the loop over [data]; a row that is [None] has no
    [values]. *)
Definition write_row (fieldnames : list pystr) (row : pyrow) : St IO unit :=
  match row with
  | RowNone => raise AttributeError
  | RowDict fields =>
      if all_not_None fields then DictWriter.writerow fieldnames fields
      else print (DiagSkipped row)
  end.

Definition write_data (fieldnames : list pystr) (data : list pyrow) : St IO unit :=
  DictWriter.writeheader fieldnames ;;
  for_each data (write_row fieldnames).

(** [main]: collect, parse, write.  [logger.info] and the closing of the
    sessions are left out. *)
Definition main (iso_to_dmy : pystr -> option pystr) (fuel : nat)
    (tl : nat -> Page) (http : Http) (io : IO) : option (result unit * IO) :=
  match collect_urls fuel tl with
  | Running _ => None
  | Finished (Raises e) _ => Some (Raises e, io)
  | Finished (Returns urls) _ =>
      Some ((parsed_data <- parse_data iso_to_dmy http urls ;;
             write_data CSV_HEADERS parsed_data) io)
  end.

End Rambler.

(** ** ria_parser.py *)

Module Ria.

Definition CSV_HEADERS : list pystr := [str_title; str_company; str_date; str_text].

Definition RIA_URL : pystr := py "https://ria.ru/organization_Sberbank_Rossii/".

(** "3 января 2019" *)
Definition TARGET_DATE : pystr :=
  [51; 32; 1103; 1085; 1074; 1072; 1088; 1103; 32; 50; 48; 49; 57]%N.

(** *** UrlsCollector *)

(** The local variables of [collect_urls]. *)
Record LoaderState := {
  scroll_complete : bool;
  button_clicked : bool;
  urls : list pyval
}.

Definition initial : LoaderState :=
  {| scroll_complete := false; button_clicked := false; urls := [] |}.

Definition _scroll_to_bottom : Cmd unit :=
  execute_script "window.scrollTo(0, document.body.scrollHeight);".

Definition _click_more_button : Cmd unit :=
  try_except
    (Selenium.until Selenium.visibility_of_element_located ;;
     click)
    isinstance_WebDriverException
    (fun e => logger_error e).

(** [if not button_clicked: try: ... except TimeoutException: continue] *)
Definition click_step (st : LoaderState) (d : Driver) : flow LoaderState * Driver :=
  if button_clicked st then (Next st, d)
  else
    match _click_more_button d with
    | (Returns _, d') =>
        (Next {| scroll_complete := scroll_complete st;
                 button_clicked := true;
                 urls := urls st |}, d')
    | (Raises e, d') =>
        if isinstance_TimeoutException e then (Continue st, d')
        else (Propagate e st, d')
    end.

(** The wait for the target date and, under [if target_article:], the
    collection of the links and the [break]. *)
Definition poll_step (st : LoaderState) (d : Driver) : flow LoaderState * Driver :=
  match Selenium.until (Selenium.text_to_be_present_in_element TARGET_DATE) d with
  | (Raises e, d') =>
      if isinstance_TimeoutException e then (Continue st, d')
      else (Propagate e st, d')
  | (Returns target_article, d') =>
      let st1 := {| scroll_complete := true;
                    button_clicked := button_clicked st;
                    urls := urls st |} in
      if (target_article : bool) then
        match find_elements "a.list-item__image" d' with
        | (Raises e, d'') => (Propagate e st1, d'')
        | (Returns links, d'') =>
            let '(urls', failure) := append_hrefs (urls st1) links in
            let st2 := {| scroll_complete := true;
                          button_clicked := button_clicked st;
                          urls := urls' |} in
            match failure with
            | None => (Break st2, d'')
            | Some e => (Propagate e st2, d'')
            end
        end
      else (Next st1, d')
  end.

Definition loop_body (st : LoaderState) (d : Driver) : flow LoaderState * Driver :=
  match _scroll_to_bottom d with
  | (Raises e, d1) => (Propagate e st, d1)
  | (Returns _, d1) =>
      match click_step st d1 with
      | (Next st1, d2) => poll_step st1 d2
      | other => other
      end
  end.

(** [try: while not scroll_complete: ... except KeyboardInterrupt: pass],
    giving the [urls] gathered when the statement is left. *)
Fixpoint scroll_loop (fuel : nat) (st : LoaderState) (d : Driver) : run (list pyval) :=
  match fuel with
  | 0 => Running d
  | S fuel' =>
      if scroll_complete st then Finished (Returns (urls st)) d
      else
        match loop_body st d with
        | (Next st', d') | (Continue st', d') => scroll_loop fuel' st' d'
        | (Break st', d') => Finished (Returns (urls st')) d'
        | (Propagate e st', d') =>
            if isinstance_KeyboardInterrupt e then Finished (Returns (urls st')) d'
            else Finished (Raises e) d'
        end
  end.

Definition collect_urls (fuel : nat) (tl : nat -> Page) : run (list pyval) :=
  match (get RIA_URL ;; maximize_window) (new_driver tl) with
  | (Raises e, d) => Finished (Raises e) (quit d)
  | (Returns _, d) =>
      match scroll_loop fuel initial d with
      | Running d1 => Running d1
      | Finished r d1 => Finished r (quit d1)
      end
  end.

(** *** DataParser *)

Section DataParser.

(** [re.findall(r"\d{2}.\d{2}.\d{4}", s)] *)
Variable findall_date : pystr -> list pystr.

Definition _parse_title (html : Node) : St IO pyval :=
  try_except
    (let title_element := css_first html ".article__title" in
     match title_element with
     | Some element => ret (VStr (replace 160 32 (node_text element)))
     | None => ret VNone
     end)
    isinstance_Exception
    (fun e => print (DiagError e) ;; ret (VStr [])).

Definition _parse_date (html : Node) : St IO pyval :=
  try_except
    (element_text <- text_of (css_first html ".article__info-valign") ;;
     let date_element := strip element_text in
     if 0 <? List.length date_element then
       let parsed_date := findall_date date_element in
       first <- index parsed_date 0 ;;
       ret (VStr first)
     else ret VNone)
    isinstance_Exception
    (fun e => print (DiagError e) ;; ret (VStr [])).

(** The loop over the paragraphs: [article_text] after it. *)
Definition join_paragraphs (paragraphs : list Node) : pystr :=
  fold_left
    (fun article_text paragraph =>
       if 0 <? List.length (node_text paragraph)
       then article_text ++ re_sub (node_text paragraph)
       else article_text)
    paragraphs [].

Definition _parse_text (html : Node) : St IO pyval :=
  try_except
    (let content_block := css_first html ".layout-article__main-over" in
     paragraphs <- css_of content_block ".article__text" ;;
     let article_text := join_paragraphs paragraphs in
     rest <- index (split_once 46 article_text) 1 ;;
     ret (VStr (strip rest)))
    isinstance_Exception
    (fun e => print (DiagError e) ;; ret (VStr [])).

Definition _parse_page (http : Http) (url : pyval) : St IO pyrow :=
  try_except
    (response <- session_get http url ;;
     html <- response_text response ;;
     title <- _parse_title html ;;
     publication_date <- _parse_date html ;;
     article_text <- _parse_text html ;;
     ret (record_of title publication_date article_text))
    isinstance_Exception
    (fun e => print (DiagError e) ;; ret (RowDict ∅)).

(** The body of [parse_data]'s loop, run over [urls]; [asyncio.sleep(3)]
    leaves no trace. *)
Fixpoint parse_loop (http : Http) (urls : list pyval) (parsed_data : list pyrow)
    (last : nat) : St IO (list pyrow) :=
  match urls with
  | [] => ret parsed_data
  | url :: urls' =>
      data <- _parse_page http url ;;
      print (DiagRemaining (last - 1)) ;;
      parse_loop http urls' (parsed_data ++ [data]) (last - 1)
  end.

Definition parse_data (http : Http) (urls : list pyval) : St IO (list pyrow) :=
  parse_loop http urls [] (List.length urls).

End DataParser.

(** *** CSVWriter *)

(** [all(value is not None for value in row.values())] *)
Definition all_not_None (fields : gmap pystr pyval) : bool :=
  forallb (fun value => negb (is_None value)) (values fields).

Definition write_row (fieldnames : list pystr) (row : pyrow) : St IO unit :=
  match row with
  | RowNone => raise AttributeError
  | RowDict fields =>
      if all_not_None fields then DictWriter.writerow fieldnames fields
      else print (DiagSkipped row)
  end.

Definition write_data (fieldnames : list pystr) (data : list pyrow) : St IO unit :=
  DictWriter.writeheader fieldnames ;;
  for_each data (write_row fieldnames).

(** [main]: collect, parse, write.  [logger.info] and the closing of the
    session are left out. *)
Definition main (findall_date : pystr -> list pystr) (fuel : nat)
    (tl : nat -> Page) (http : Http) (io : IO) : option (result unit * IO) :=
  match collect_urls fuel tl with
  | Running _ => None
  | Finished (Raises e) _ => Some (Raises e, io)
  | Finished (Returns urls) _ =>
      Some ((parsed_data <- parse_data findall_date http urls ;;
             write_data CSV_HEADERS parsed_data) io)
  end.

End Ria.

(** ** rbc_parser.py *)

Module Rbc.

Definition CSV_HEADERS : list pystr := [str_title; str_company; str_date; str_text].

Definition RBC_URL : pystr :=
  py "https://www.rbc.ru/tags/?tag=%D0%A1%D0%B1%D0%B5%D1%80%D0%B1%D0%B0%D0%BD%D0%BA&dateFrom=01.03.2012&dateTo=01.11.2015&project=rbcnews".

(** "20 мар 2012," *)
Definition TARGET_DATE : pystr :=
  [50; 48; 32; 1084; 1072; 1088; 32; 50; 48; 49; 50; 44]%N.

(** *** UrlsCollector *)

Record LoaderState := {
  scroll_complete : bool;
  article_urls : list pyval
}.

Definition initial : LoaderState :=
  {| scroll_complete := false; article_urls := [] |}.

Definition _scroll_to_bottom : Cmd unit :=
  execute_script "window.scrollTo(0, document.body.scrollHeight);".

Definition poll_step (st : LoaderState) (d : Driver) : flow LoaderState * Driver :=
  match Selenium.until (Selenium.text_to_be_present_in_element TARGET_DATE) d with
  | (Raises e, d') =>
      if isinstance_TimeoutException e then (Continue st, d')
      else (Propagate e st, d')
  | (Returns target_article, d') =>
      let st1 := {| scroll_complete := true; article_urls := article_urls st |} in
      if (target_article : bool) then
        match find_elements "search-item.js-search-item" d' with
        | (Raises e, d'') => (Propagate e st1, d'')
        | (Returns elements, d'') =>
            let '(urls', failure) := append_hrefs (article_urls st1) elements in
            let st2 := {| scroll_complete := true; article_urls := urls' |} in
            match failure with
            | None => (Break st2, d'')
            | Some e => (Propagate e st2, d'')
            end
        end
      else (Next st1, d')
  end.

Definition loop_body (st : LoaderState) (d : Driver) : flow LoaderState * Driver :=
  match _scroll_to_bottom d with
  | (Raises e, d1) => (Propagate e st, d1)
  | (Returns _, d1) => poll_step st d1
  end.

Fixpoint scroll_loop (fuel : nat) (st : LoaderState) (d : Driver) : run (list pyval) :=
  match fuel with
  | 0 => Running d
  | S fuel' =>
      if scroll_complete st then Finished (Returns (article_urls st)) d
      else
        match loop_body st d with
        | (Next st', d') | (Continue st', d') => scroll_loop fuel' st' d'
        | (Break st', d') => Finished (Returns (article_urls st')) d'
        | (Propagate e st', d') =>
            if isinstance_KeyboardInterrupt e then Finished (Returns (article_urls st')) d'
            else Finished (Raises e) d'
        end
  end.

Definition collect_urls (fuel : nat) (tl : nat -> Page) : run (list pyval) :=
  match (get RBC_URL ;; maximize_window) (new_driver tl) with
  | (Raises e, d) => Finished (Raises e) (quit d)
  | (Returns _, d) =>
      match scroll_loop fuel initial d with
      | Running d1 => Running d1
      | Finished r d1 => Finished r (quit d1)
      end
  end.

(** *** DataParser *)

(** The selector [[itemprop="headline"]]. *)
Definition HEADLINE_SELECTOR : string :=
  String.append "[itemprop=" (String.append quote (String.append "headline" (String.append quote "]"))).

(** The selector [div.article__text.article__text_free[itemprop="articleBody"]]. *)
Definition ARTICLE_BODY_SELECTOR : string :=
  String.append "div.article__text.article__text_free[itemprop="
    (String.append quote (String.append "articleBody" (String.append quote "]"))).

Section DataParser.

Variable iso_to_dmy : pystr -> option pystr.

Definition _parse_title (html : Node) : St IO pyval :=
  try_except
    (let title_element := css_first html HEADLINE_SELECTOR in
     match title_element with
     | Some element => ret (VStr (strip (node_text element)))
     | None => ret VNone
     end)
    isinstance_Exception
    (fun e => print (DiagError e) ;; ret (VStr [])).

Definition _parse_date (html : Node) : St IO pyval :=
  try_except
    (let date_element := css_first html "time" in
     match date_element with
     | Some element =>
         let datetime_obj := attributes_get element "datetime" in
         parsed_date <- fromisoformat_strftime iso_to_dmy datetime_obj ;;
         ret (VStr parsed_date)
     | None => ret VNone
     end)
    isinstance_Exception
    (fun e => print (DiagError e) ;; ret (VStr [])).

Definition join_paragraphs (paragraphs : list Node) : pystr :=
  fold_left
    (fun article_text paragraph =>
       article_text ++ re_sub (strip (node_text paragraph)))
    paragraphs [].

Definition _parse_text (html : Node) : St IO pyval :=
  try_except
    (let article_body := css_first html ARTICLE_BODY_SELECTOR in
     match article_body with
     | Some body => ret (VStr (join_paragraphs (css body "p")))
     | None => ret (VStr [])
     end)
    isinstance_Exception
    (fun e => print (DiagError e) ;; ret (VStr [])).

Definition _parse_page (http : Http) (url : pyval) : St IO pyrow :=
  try_except
    (response <- session_get http url ;;
     html <- response_text response ;;
     title <- _parse_title html ;;
     publication_date <- _parse_date html ;;
     article_text <- _parse_text html ;;
     if bool_decide (article_text = VStr []) then ret RowNone
     else ret (record_of title publication_date article_text))
    isinstance_Exception
    (fun e => print (DiagError e) ;; ret (RowDict ∅)).

Fixpoint parse_loop (http : Http) (urls : list pyval) (parsed_data : list pyrow)
    (last : nat) : St IO (list pyrow) :=
  match urls with
  | [] => ret parsed_data
  | url :: urls' =>
      data <- _parse_page http url ;;
      print (DiagRemaining (last - 1)) ;;
      parse_loop http urls' (parsed_data ++ [data]) (last - 1)
  end.

Definition parse_data (http : Http) (urls : list pyval) : St IO (list pyrow) :=
  parse_loop http urls [] (List.length urls).

End DataParser.

(** *** CSVWriter *)

(** [if row != None: writer.writerow(row) else: logger.warning(...)] *)
Definition write_row (fieldnames : list pystr) (row : pyrow) : St IO unit :=
  match row with
  | RowDict fields => DictWriter.writerow fieldnames fields
  | RowNone => print (DiagSkipped row)
  end.

Definition write_data (fieldnames : list pystr) (data : list pyrow) : St IO unit :=
  DictWriter.writeheader fieldnames ;;
  for_each data (write_row fieldnames).

(** [main]: collect, parse, write.  [logger.info] and the closing of the
    sessions are left out. *)
Definition main (iso_to_dmy : pystr -> option pystr) (fuel : nat)
    (tl : nat -> Page) (http : Http) (io : IO) : option (result unit * IO) :=
  match collect_urls fuel tl with
  | Running _ => None
  | Finished (Raises e) _ => Some (Raises e, io)
  | Finished (Returns urls) _ =>
      Some ((parsed_data <- parse_data iso_to_dmy http urls ;;
             write_data CSV_HEADERS parsed_data) io)
  end.

End Rbc.

(** ** Vocabulary of the properties *)

(** The read failures that a wait turns into "not there yet". *)
Definition transient (e : exn) : bool :=
  match e with
  | TimeoutException | StaleElementReferenceException | NoSuchElementException => true
  | _ => false
  end.

(** What one look at page [p] for [marker] comes to. *)
Definition poll (marker : pystr) (p : Page) : result bool :=
  match body_outcome p with
  | Returns body => Returns (contains marker body)
  | Raises e => if transient e then Returns false else Raises e
  end.

(** The look finds the marker. *)
Definition seen (marker : pystr) (p : Page) : bool :=
  bool_decide (poll marker p = Returns true).

(** The look finds no marker and raises nothing. *)
Definition quiet (marker : pystr) (p : Page) : bool :=
  bool_decide (poll marker p = Returns false).

(** A script run against [p] succeeds. *)
Definition scrolls (p : Page) : bool :=
  bool_decide (script_outcome p = None).

(** Round [i] of rambler's loop, entered at time [c + 3 * i], goes by
    without the marker and without an exception. *)
Definition rambler_idle_round (tl : nat -> Page) (c i : nat) : bool :=
  quiet Rambler.TARGET_DATE (tl (c + 3 * i))
  && scrolls (tl (c + 3 * i + 1))
  && scrolls (tl (c + 3 * i + 2)).

(** Round [i] of rbc's loop, entered at time [c + 2 * i], likewise. *)
Definition rbc_idle_round (tl : nat -> Page) (c i : nat) : bool :=
  scrolls (tl (c + 2 * i))
  && quiet Rbc.TARGET_DATE (tl (c + 2 * i + 1)).

Definition is_scroll (e : event) : bool :=
  match e with
  | EvExecuteScript _ => true
  | _ => false
  end.

(** A page on which nothing ever happens: every command succeeds, the body
    is empty, there is no button and no link. *)
Definition blank_page : Page :=
  {| nav_outcome := None;
     script_outcome := None;
     body_outcome := Returns [];
     button_outcome := Raises NoSuchElementException;
     click_outcome := None;
     links_outcome := Returns [] |}.

(** A page whose body shows [body] and that lists the links [hrefs]. *)
Definition page_with (body : pystr) (hrefs : list pyval) : Page :=
  {| nav_outcome := None;
     script_outcome := None;
     body_outcome := Returns body;
     button_outcome := Raises NoSuchElementException;
     click_outcome := None;
     links_outcome := Returns (List.map Returns hrefs) |}.

(** A page of a browser whose session has died: every command raises. *)
Definition dead_page : Page :=
  {| nav_outcome := Some WebDriverException;
     script_outcome := Some WebDriverException;
     body_outcome := Raises WebDriverException;
     button_outcome := Raises WebDriverException;
     click_outcome := Some WebDriverException;
     links_outcome := Raises WebDriverException |}.

(** The archive never shows the target date. *)
Definition endless_archive : nat -> Page := fun _ => blank_page.

(** The target date of rambler shows up from time [t] on. *)
Definition rambler_archive (t : nat) : nat -> Page := fun n =>
  if t <=? n then page_with Rambler.TARGET_DATE [VStr (py "https://a/1")]
  else blank_page.

(** The target date of rbc shows up from time [t] on. *)
Definition rbc_archive (t : nat) : nat -> Page := fun n =>
  if t <=? n then page_with Rbc.TARGET_DATE [VStr (py "https://b/1")]
  else blank_page.

(** The look recorded by [e] found [marker]. *)
Definition completes (marker : pystr) (e : event) : bool :=
  match e with
  | EvBodyText (Returns body) => contains marker body
  | _ => false
  end.

(** No look recorded in [tr] found [marker]. *)
Definition incomplete (marker : pystr) (tr : list event) : bool :=
  forallb (fun e => negb (completes marker e)) tr.

(** In [tr] no scroll comes after the first look that found [marker]. *)
Fixpoint no_scroll_after_complete (marker : pystr) (tr : list event) : bool :=
  match tr with
  | [] => true
  | e :: tr' =>
      if completes marker e then forallb (fun e' => negb (is_scroll e')) tr'
      else no_scroll_after_complete marker tr'
  end.

(** The state a loop body leaves behind. *)
Definition flow_state {S} (f : flow S) : S :=
  match f with
  | Next st | Continue st | Break st | Propagate _ st => st
  end.

(** An attempt on the "load more" button: locating it or clicking it. *)
Definition is_trigger (e : event) : bool :=
  match e with
  | EvFindButton _ | EvClick => true
  | _ => false
  end.

(** Every attempt on the button in [tr] is made in the first round, that is
    after exactly one scroll, [n] scrolls having gone before [tr]. *)
Fixpoint trigger_in_first_round (n : nat) (tr : list event) : bool :=
  match tr with
  | [] => true
  | e :: tr' =>
      if is_scroll e then trigger_in_first_round (S n) tr'
      else (negb (is_trigger e) || (n =? 1)) && trigger_in_first_round n tr'
  end.

Definition count_scrolls (tr : list event) : nat :=
  List.length (List.filter is_scroll tr).

(** [tr] holds nothing but attempts on the button and logged errors. *)
Definition button_trace (tr : list event) : bool :=
  forallb (fun e => match e with
                    | EvFindButton _ | EvClick | EvLoggerError _ => true
                    | _ => false
                    end) tr.

(** [tr] holds neither a scroll nor an attempt on the button. *)
Definition passive (tr : list event) : bool :=
  forallb (fun e => negb (is_scroll e) && negb (is_trigger e)) tr.

(** ria's loop state once the date has been seen. *)
Definition loaded_state : Ria.LoaderState :=
  {| Ria.scroll_complete := true; Ria.button_clicked := true; Ria.urls := [] |}.

(** ria's loop state after the first round, the date not yet seen. *)
Definition clicked_state : Ria.LoaderState :=
  {| Ria.scroll_complete := false; Ria.button_clicked := true; Ria.urls := [] |}.

(** [io] after the rows [rows] went to the file and the messages [msgs]
    to the console. *)
Definition wrote (rows : list (list pystr)) (msgs : list diag) (io : IO) : IO :=
  {| csv_file := csv_file io ++ rows; console := console io ++ msgs |}.

Definition empty_io : IO := {| csv_file := []; console := [] |}.

(** A record [DictWriter] accepts: a dict all of whose keys are field
    names. *)
Definition fits (fieldnames : list pystr) (row : pyrow) : bool :=
  match row with
  | RowDict fields => bool_decide (map_Forall (fun key _ => key ∈ fieldnames) fields)
  | RowNone => false
  end.

(** Some value of the record is [None]. *)
Definition holds_None (row : pyrow) : bool :=
  match row with
  | RowDict fields =>
      negb (bool_decide (map_Forall (fun _ value => value <> VNone) fields))
  | RowNone => false
  end.

(** The line of a record: its values in the order of [fieldnames], empty
    where the value is [None] or missing. *)
Definition cells (fieldnames : list pystr) (row : pyrow) : list pystr :=
  match row with
  | RowDict fields =>
      List.map (fun key => match fields !! key with
                           | Some (VStr s) => s
                           | _ => []
                           end) fieldnames
  | RowNone => []
  end.

Definition is_RowNone (row : pyrow) : bool :=
  match row with
  | RowNone => true
  | RowDict _ => false
  end.

(** A record with every field filled in. *)
Definition full_record : pyrow :=
  record_of (VStr (py "Title")) (VStr (py "01.02.2020")) (VStr (py "Body.")).

(** A record whose text is the empty string. *)
Definition empty_text_record : pyrow :=
  record_of (VStr (py "Title")) (VStr (py "01.02.2020")) (VStr []).

(** A record whose title is [None]. *)
Definition no_title_record : pyrow :=
  record_of VNone (VStr (py "01.02.2020")) (VStr (py "Body.")).

(** The field parser [f] always returns, touching nothing but the
    console. *)
Definition never_raises (f : Node -> St IO pyval) : Prop :=
  forall html io, exists value msgs, f html io = (Returns value, wrote [] msgs io).

(** A page without any of the elements the parsers look for. *)
Definition blank_node : Node := MkNode [] ∅ (fun _ => []).

(** A node with text [text] and nothing below it. *)
Definition leaf (text : pystr) : Node := MkNode text ∅ (fun _ => []).

(** A date conversion that accepts nothing. *)
Definition no_date : pystr -> option pystr := fun _ => None.

(** A ria article page whose paragraphs have the texts [paragraphs]. *)
Definition ria_article (paragraphs : list pystr) : Node :=
  MkNode [] ∅ (fun selector =>
    if String.eqb selector ".layout-article__main-over" then
      [MkNode [] ∅ (fun selector' =>
         if String.eqb selector' ".article__text" then List.map leaf paragraphs
         else [])]
    else []).

(** The exception the fetch of [url] ends in, if it does: raised by
    [session.get] or by [response.text]. *)
Definition fetch_failure (http : Http) (url : pyval) : option exn :=
  match http url with
  | Raises e => Some e
  | Returns response =>
      match text response with
      | Raises e => Some e
      | Returns _ => None
      end
  end.

(** The fetch of [url] succeeds or fails with an [Exception]. *)
Definition catchable (http : Http) (url : pyval) : bool :=
  match fetch_failure http url with
  | Some e => isinstance_Exception e
  | None => true
  end.

(** What [_parse_page] makes of [url]: the empty dict and a logged error
    when the fetch fails, a record with the four fields when it succeeds. *)
Definition page_row (http : Http) (url : pyval) (row : pyrow) (msgs : list diag) : Prop :=
  match fetch_failure http url with
  | Some e => row = RowDict ∅ /\ DiagError e ∈ msgs
  | None => exists title publication_date article_text,
      row = record_of title publication_date article_text
  end.

(** A server that is down: every request fails. *)
Definition http_down : Http := fun _ => Raises ClientError.

(** A server that answers every request with status 500 and an error page. *)
Definition http_500 : Http := fun _ =>
  Returns {| status := 500; text := Returns blank_node |}.

(** A [findall] that finds nothing. *)
Definition no_match : pystr -> list pystr := fun _ => [].

(** An address. *)
Definition some_url : pyval := VStr (py "https://a/1").

(** A page on which ria's loop just goes on: scripts run, the look for the
    date finds nothing and raises nothing, and whatever goes wrong with the
    button is a Selenium error. *)
Definition ria_calm (p : Page) : bool :=
  scrolls p
  && quiet Ria.TARGET_DATE p
  && match button_outcome p with
     | Returns _ => true
     | Raises e => isinstance_WebDriverException e
     end
  && match click_outcome p with
     | None => true
     | Some e => isinstance_WebDriverException e
     end.

(** rbc's loop state before the date has been seen, [hrefs] gathered. *)
Definition rbc_state (hrefs : list pyval) : Rbc.LoaderState :=
  {| Rbc.scroll_complete := false; Rbc.article_urls := hrefs |}.

(** A page that shows rbc's date, whose second link cannot be read because
    the user interrupts. *)
Definition interrupted_page : Page :=
  {| nav_outcome := None;
     script_outcome := None;
     body_outcome := Returns Rbc.TARGET_DATE;
     button_outcome := Raises NoSuchElementException;
     click_outcome := None;
     links_outcome := Returns [Returns some_url; Raises KeyboardInterrupt;
                               Returns some_url] |}.


(** The article text of an rbc page: the cleaned texts of the paragraphs
    of the article body, put together; nothing without an article body. *)
Definition rbc_article_text (html : Node) : pystr :=
  match css_first html Rbc.ARTICLE_BODY_SELECTOR with
  | Some body =>
      List.concat (List.map (fun paragraph => re_sub (strip (node_text paragraph)))
                     (css body "p"))
  | None => []
  end.

(** What rbc's [_parse_page] makes of [url]: the empty dict and a logged
    error when the fetch fails, [None] or a record with a text that is not
    empty when it succeeds. *)
Definition rbc_page_row (http : Http) (url : pyval) (row : pyrow) (msgs : list diag) : Prop :=
  match fetch_failure http url with
  | Some e => row = RowDict ∅ /\ DiagError e ∈ msgs
  | None =>
      row = RowNone
      \/ exists title publication_date article_text,
           row = record_of title publication_date article_text
  end.

(** A rambler article page with a headline, a time element and one
    paragraph. *)
Definition rambler_article (headline datetime paragraph : pystr) : Node :=
  MkNode [] ∅ (fun selector =>
    if String.eqb selector "h1#headline" then [leaf headline]
    else if String.eqb selector "time"
      then [MkNode [] {[ "datetime"%string := VStr datetime ]} (fun _ => [])]
    else if String.eqb selector "._2mfTS"
      then [MkNode [] ∅ (fun selector' =>
              if String.eqb selector' "p" then [leaf paragraph] else [])]
    else []).

(** A server that answers every request with the page [html]. *)
Definition http_serving (html : Node) : Http := fun _ =>
  Returns {| status := 200; text := Returns html |}.

(** A date conversion that returns its argument. *)
Definition same_date : pystr -> option pystr := fun s => Some s.

(** The fields of a record with a key that is no field name. *)
Definition stray_fields : gmap pystr pyval := {[ py "url" := VStr (py "https://a/1") ]}.

(** The lines and the messages that rambler's [write_data] makes of
    well-formed records. *)
Definition rambler_lines (fieldnames : list pystr) (data : list pyrow) : list (list pystr) :=
  flat_map (fun row => if holds_None row then [] else [cells fieldnames row]) data.

Definition rambler_skips (data : list pyrow) : list diag :=
  flat_map (fun row => if holds_None row then [DiagSkipped row] else []) data.

(** A page whose only element is a [time] element with the attributes
    [attributes]. *)
Definition page_with_time (attributes : gmap string pyval) : Node :=
  MkNode [] ∅ (fun selector =>
    if String.eqb selector "time" then [MkNode [] attributes (fun _ => [])]
    else []).

(** A ria page whose date line reads [line]. *)
Definition page_with_date_line (line : pystr) : Node :=
  MkNode [] ∅ (fun selector =>
    if String.eqb selector ".article__info-valign" then [leaf line] else []).

(** A character that [re.sub] with the crawlers' pattern leaves alone. *)
Definition plain (c : N) : bool := negb (isspace c) && negb (c =? 8203)%N.

(** The numbers of the "pages left" messages among [msgs], in order. *)
Definition remaining_counts (msgs : list diag) : list nat :=
  flat_map (fun msg => match msg with
                       | DiagRemaining pages => [pages]
                       | _ => []
                       end) msgs.

(** [last - 1], [last - 2], ..., [k] numbers in all. *)
Fixpoint countdown (last k : nat) : list nat :=
  match k with
  | 0 => []
  | S k' => (last - 1) :: countdown (last - 1) k'
  end.

(** The field parser [f] always returns, and puts nothing but errors on
    the console. *)
Definition logs_errors_only (f : Node -> St IO pyval) : Prop :=
  forall html io, exists value msgs,
    f html io = (Returns value, wrote [] msgs io) /\ remaining_counts msgs = [].

(** A ria article page with a title, a date line and one paragraph. *)
Definition ria_full_article (title line paragraph : pystr) : Node :=
  MkNode [] ∅ (fun selector =>
    if String.eqb selector ".article__title" then [leaf title]
    else if String.eqb selector ".article__info-valign" then [leaf line]
    else if String.eqb selector ".layout-article__main-over"
      then [MkNode [] ∅ (fun selector' =>
              if String.eqb selector' ".article__text" then [leaf paragraph]
              else [])]
    else []).

(** A [findall] that finds its whole argument. *)
Definition whole_match : pystr -> list pystr := fun s => [s].

(** An archive that never shows the date and always shows the "load more"
    button. *)
Definition button_archive : nat -> Page := fun _ =>
  {| nav_outcome := None;
     script_outcome := None;
     body_outcome := Returns [];
     button_outcome := Returns true;
     click_outcome := None;
     links_outcome := Returns [] |}.

(** * Properties *)

(** ** The completion oracle *)

Lemma wait_for_text_spec (marker : pystr) (d : Driver) :
  Selenium.until (Selenium.text_to_be_present_in_element marker) d
  = (match poll marker (current d) with
     | Returns true => Returns true
     | Returns false => Raises TimeoutException
     | Raises e => Raises e
     end,
     tick (EvBodyText (body_outcome (current d))) d).
Proof.
  unfold Selenium.until, Selenium.text_to_be_present_in_element, try_except,
    bind, find_body_text, ret, poll.
  destruct (body_outcome (current d)) as [body|e]; simpl.
  - destruct (contains marker body); reflexivity.
  - destruct e; reflexivity.
Qed.

Lemma poll_never_timeout (marker : pystr) (p : Page) :
  poll marker p <> Raises TimeoutException.
Proof.
  unfold poll. destruct (body_outcome p) as [body|e]; [discriminate|].
  destruct e; simpl; discriminate.
Qed.

Lemma rambler_oracle_spec (d : Driver) :
  Rambler._is_target_article_present d
  = (poll Rambler.TARGET_DATE (current d),
     tick (EvBodyText (body_outcome (current d))) d).
Proof.
  unfold Rambler._is_target_article_present, try_except, bind.
  rewrite wait_for_text_spec.
  pose proof (poll_never_timeout Rambler.TARGET_DATE (current d)) as Hnt.
  destruct (poll Rambler.TARGET_DATE (current d)) as [[|]|e]; try reflexivity.
  destruct e; try reflexivity. congruence.
Qed.

(** C3, as amended: one call of [_is_target_article_present] issues exactly
    one driver command, the read of the body text.  It returns whether the
    target date is in the text read; it returns [False] when the read fails
    with a timeout, a stale element or a missing element; every other
    exception of the read goes on to the caller.  It never lets a
    [TimeoutException] out. *)
Theorem oracle_checks_once_and_passes_on_other_errors (d : Driver) :
  snd (Rambler._is_target_article_present d)
    = tick (EvBodyText (body_outcome (current d))) d
  /\ (forall body, body_outcome (current d) = Returns body ->
        fst (Rambler._is_target_article_present d)
          = Returns (contains Rambler.TARGET_DATE body))
  /\ (forall e, body_outcome (current d) = Raises e ->
        fst (Rambler._is_target_article_present d)
          = if transient e then Returns false else Raises e)
  /\ fst (Rambler._is_target_article_present d) <> Raises TimeoutException.
Proof.
  rewrite rambler_oracle_spec. simpl. unfold poll.
  repeat split.
  - intros body ->. reflexivity.
  - intros e ->. reflexivity.
  - apply (poll_never_timeout Rambler.TARGET_DATE (current d)).
Qed.

Lemma oracle_checks_once_witness :
  fst (Rambler._is_target_article_present (new_driver endless_archive))
    = Returns false.
Proof.
  exact (proj1 (proj2 (oracle_checks_once_and_passes_on_other_errors
                         (new_driver endless_archive))) [] eq_refl).
Defined.

(** C3, as stated, fails: when the browser session is dead the read of the
    body raises a [WebDriverException], and the oracle lets it out instead
    of returning [False]. *)
Lemma oracle_propagates_session_error :
  fst (Rambler._is_target_article_present (new_driver (fun _ => dead_page)))
    = Raises WebDriverException
  /\ ~ (exists b : bool,
          fst (Rambler._is_target_article_present (new_driver (fun _ => dead_page)))
            = Returns b).
Proof.
  split; [reflexivity|]. intros [b Hb]. discriminate Hb.
Qed.

(** C9: two calls of [_is_target_article_present] in a row give the same
    answer when the page the second call meets is the page the first one
    met. *)
Theorem oracle_idempotent (d : Driver) :
  current (snd (Rambler._is_target_article_present d)) = current d ->
  fst (Rambler._is_target_article_present
         (snd (Rambler._is_target_article_present d)))
    = fst (Rambler._is_target_article_present d).
Proof.
  intros Hsame. rewrite !rambler_oracle_spec in *. simpl in *.
  rewrite Hsame. reflexivity.
Qed.

Lemma oracle_idempotent_witness :
  fst (Rambler._is_target_article_present
         (snd (Rambler._is_target_article_present (new_driver endless_archive))))
    = fst (Rambler._is_target_article_present (new_driver endless_archive)).
Proof.
  apply (oracle_idempotent (new_driver endless_archive)). reflexivity.
Defined.

(** ** The scroll loops have no ceiling *)

Lemma seen_poll (marker : pystr) (p : Page) :
  seen marker p = true -> poll marker p = Returns true.
Proof. unfold seen. intros H. apply bool_decide_eq_true in H. exact H. Qed.

Lemma quiet_poll (marker : pystr) (p : Page) :
  quiet marker p = true -> poll marker p = Returns false.
Proof. unfold quiet. intros H. apply bool_decide_eq_true in H. exact H. Qed.

Lemma scrolls_outcome (p : Page) :
  scrolls p = true -> script_outcome p = None.
Proof. unfold scrolls. intros H. apply bool_decide_eq_true in H. exact H. Qed.

(** An idle round of rambler's loop costs one unit of fuel and three
    commands. *)
Lemma rambler_idle_step (d : Driver) (fuel : nat) :
  rambler_idle_round (timeline d) (clock d) 0 = true ->
  exists d',
    Rambler.scroll_loop (S fuel) d = Rambler.scroll_loop fuel d'
    /\ timeline d' = timeline d /\ clock d' = clock d + 3.
Proof.
  unfold rambler_idle_round. rewrite !andb_true_iff.
  replace (clock d + 3 * 0) with (clock d) by lia.
  intros [[Hq Hb] Ht].
  apply quiet_poll in Hq. apply scrolls_outcome in Hb, Ht.
  cbn [Rambler.scroll_loop]. rewrite rambler_oracle_spec.
  unfold current at 1. rewrite Hq.
  unfold bind, Rambler._scroll_to_bottom, Rambler._wait_for_load,
    Rambler._scroll_to_top, execute_script, ret, current; cbn.
  replace (clock d + 1) with (S (clock d)) in Hb by lia.
  replace (clock d + 2) with (S (S (clock d))) in Ht by lia.
  rewrite Hb. cbn. rewrite Ht. cbn.
  eexists. split; [reflexivity|]. cbn. split; [reflexivity|lia].
Qed.

Lemma rambler_idle_shift (tl : nat -> Page) (c i : nat) :
  rambler_idle_round tl (c + 3) i = rambler_idle_round tl c (S i).
Proof.
  unfold rambler_idle_round.
  replace (c + 3 + 3 * i) with (c + 3 * S i) by lia. reflexivity.
Qed.

Lemma rambler_loop_exit (j : nat) : forall (d : Driver) (fuel : nat),
  (forall i, i < j -> rambler_idle_round (timeline d) (clock d) i = true) ->
  seen Rambler.TARGET_DATE (timeline d (clock d + 3 * j)) = true ->
  finished (Rambler.scroll_loop fuel d) = (j <? fuel).
Proof.
  induction j as [|j IH]; intros d fuel Hidle Hseen.
  - destruct fuel as [|fuel]; [reflexivity|].
    replace (clock d + 3 * 0) with (clock d) in Hseen by lia.
    apply seen_poll in Hseen.
    cbn [Rambler.scroll_loop]. rewrite rambler_oracle_spec.
    unfold current. rewrite Hseen. reflexivity.
  - destruct fuel as [|fuel]; [reflexivity|].
    destruct (rambler_idle_step d fuel) as (d' & -> & Htl & Hck).
    { apply Hidle. lia. }
    rewrite IH.
    + reflexivity.
    + intros i Hi. rewrite Htl, Hck, rambler_idle_shift. apply Hidle. lia.
    + rewrite Htl, Hck.
      replace (clock d + 3 + 3 * j) with (clock d + 3 * S j) by lia. exact Hseen.
Qed.

Lemma rambler_loop_never (fuel : nat) : forall (d : Driver),
  (forall i, rambler_idle_round (timeline d) (clock d) i = true) ->
  finished (Rambler.scroll_loop fuel d) = false.
Proof.
  induction fuel as [|fuel IH]; intros d Hidle; [reflexivity|].
  destruct (rambler_idle_step d fuel) as (d' & -> & Htl & Hck).
  { apply Hidle. }
  apply IH. intros i. rewrite Htl, Hck, rambler_idle_shift. apply Hidle.
Qed.

(** An idle round of rbc's loop costs one unit of fuel and two commands. *)
Lemma rbc_idle_step (st : Rbc.LoaderState) (d : Driver) (fuel : nat) :
  Rbc.scroll_complete st = false ->
  rbc_idle_round (timeline d) (clock d) 0 = true ->
  exists d',
    Rbc.scroll_loop (S fuel) st d = Rbc.scroll_loop fuel st d'
    /\ timeline d' = timeline d /\ clock d' = clock d + 2.
Proof.
  unfold rbc_idle_round. rewrite andb_true_iff.
  replace (clock d + 2 * 0) with (clock d) by lia.
  replace (clock d + 1) with (S (clock d)) by lia.
  intros Hflag [Hs Hq].
  apply quiet_poll in Hq. apply scrolls_outcome in Hs.
  cbn [Rbc.scroll_loop]. rewrite Hflag.
  unfold Rbc.loop_body, Rbc._scroll_to_bottom, execute_script, current.
  rewrite Hs. cbn [of_outcome ret].
  unfold Rbc.poll_step. rewrite wait_for_text_spec.
  unfold current at 1. cbn [tick timeline clock]. rewrite Hq.
  cbn [isinstance_TimeoutException].
  eexists. split; [reflexivity|]. cbn. split; [reflexivity|lia].
Qed.

Lemma rbc_idle_shift (tl : nat -> Page) (c i : nat) :
  rbc_idle_round tl (c + 2) i = rbc_idle_round tl c (S i).
Proof.
  unfold rbc_idle_round.
  replace (c + 2 + 2 * i) with (c + 2 * S i) by lia. reflexivity.
Qed.

(** The round in which rbc's wait finds the date is the last one, however
    the collection of the links turns out. *)
Lemma rbc_last_step (st : Rbc.LoaderState) (d : Driver) (fuel : nat) :
  Rbc.scroll_complete st = false ->
  scrolls (timeline d (clock d)) = true ->
  seen Rbc.TARGET_DATE (timeline d (clock d + 1)) = true ->
  finished (Rbc.scroll_loop (S fuel) st d) = true.
Proof.
  replace (clock d + 1) with (S (clock d)) by lia.
  intros Hflag Hs Hseen.
  apply seen_poll in Hseen. apply scrolls_outcome in Hs.
  cbn [Rbc.scroll_loop]. rewrite Hflag.
  unfold Rbc.loop_body, Rbc._scroll_to_bottom, execute_script, current.
  rewrite Hs. cbn [of_outcome ret].
  unfold Rbc.poll_step. rewrite wait_for_text_spec.
  unfold current at 1. cbn [tick timeline clock]. rewrite Hseen.
  destruct (find_elements _ _) as [[elements|e] d''].
  - destruct (append_hrefs _ elements) as [urls' [e|]]; [|reflexivity].
    destruct e; reflexivity.
  - destruct e; reflexivity.
Qed.

Lemma rbc_loop_exit (j : nat) : forall (st : Rbc.LoaderState) (d : Driver) (fuel : nat),
  Rbc.scroll_complete st = false ->
  (forall i, i < j -> rbc_idle_round (timeline d) (clock d) i = true) ->
  scrolls (timeline d (clock d + 2 * j)) = true ->
  seen Rbc.TARGET_DATE (timeline d (clock d + 2 * j + 1)) = true ->
  finished (Rbc.scroll_loop fuel st d) = (j <? fuel).
Proof.
  induction j as [|j IH]; intros st d fuel Hflag Hidle Hs Hseen.
  - destruct fuel as [|fuel]; [reflexivity|].
    replace (clock d + 2 * 0) with (clock d) in Hs, Hseen by lia.
    apply rbc_last_step; assumption.
  - destruct fuel as [|fuel]; [reflexivity|].
    destruct (rbc_idle_step st d fuel Hflag) as (d' & -> & Htl & Hck).
    { apply Hidle. lia. }
    rewrite IH; try assumption.
    + reflexivity.
    + intros i Hi. rewrite Htl, Hck, rbc_idle_shift. apply Hidle. lia.
    + rewrite Htl, Hck.
      replace (clock d + 2 + 2 * j) with (clock d + 2 * S j) by lia. exact Hs.
    + rewrite Htl, Hck.
      replace (clock d + 2 + 2 * j + 1) with (clock d + 2 * S j + 1) by lia.
      exact Hseen.
Qed.

Lemma rbc_loop_never (fuel : nat) : forall (st : Rbc.LoaderState) (d : Driver),
  Rbc.scroll_complete st = false ->
  (forall i, rbc_idle_round (timeline d) (clock d) i = true) ->
  finished (Rbc.scroll_loop fuel st d) = false.
Proof.
  induction fuel as [|fuel IH]; intros st d Hflag Hidle; [reflexivity|].
  destruct (rbc_idle_step st d fuel Hflag) as (d' & -> & Htl & Hck).
  { apply Hidle. }
  apply IH; [assumption|].
  intros i. rewrite Htl, Hck, rbc_idle_shift. apply Hidle.
Qed.

(** [collect_urls] is done exactly when its loop is. *)
Lemma rambler_collect_finished (fuel : nat) (tl : nat -> Page) :
  nav_outcome (tl 0) = None -> nav_outcome (tl 1) = None ->
  finished (Rambler.collect_urls fuel tl)
  = finished (Rambler.scroll_loop fuel
      (tick EvMaximize (tick (EvGet Rambler.RAMBLER_URL) (new_driver tl)))).
Proof.
  intros H0 H1. unfold Rambler.collect_urls, bind, get, maximize_window, current.
  cbn [new_driver timeline clock]. rewrite H0.
  cbn [of_outcome ret tick new_driver timeline clock]. rewrite H1. cbn [of_outcome ret].
  destruct (Rambler.scroll_loop _ _) as [[u|e] d1|d1]; try reflexivity.
  destruct (Rambler.read_links d1). reflexivity.
Qed.

Lemma rbc_collect_finished (fuel : nat) (tl : nat -> Page) :
  nav_outcome (tl 0) = None -> nav_outcome (tl 1) = None ->
  finished (Rbc.collect_urls fuel tl)
  = finished (Rbc.scroll_loop fuel Rbc.initial
      (tick EvMaximize (tick (EvGet Rbc.RBC_URL) (new_driver tl)))).
Proof.
  intros H0 H1. unfold Rbc.collect_urls, bind, get, maximize_window, current.
  cbn [new_driver timeline clock]. rewrite H0.
  cbn [of_outcome ret tick new_driver timeline clock]. rewrite H1. cbn [of_outcome ret].
  destruct (Rbc.scroll_loop _ _ _) as [r d1|d1]; reflexivity.
Qed.

(** C1, as amended: the scroll loops of rambler's and rbc's [collect_urls]
    have no iteration ceiling.  While no driver command raises, the loop is
    left exactly in the round whose look at the body finds the target date:
    if [j] rounds go by without it and the next look finds it, the loop has
    ended after [fuel] rounds if and only if [j < fuel]; and if every round
    goes by without the date, the loop has not ended after any number of
    rounds. *)
Theorem scroll_loop_ends_exactly_when_date_seen :
  (forall (d : Driver) (j fuel : nat),
     (forall i, i < j -> rambler_idle_round (timeline d) (clock d) i = true) ->
     seen Rambler.TARGET_DATE (timeline d (clock d + 3 * j)) = true ->
     finished (Rambler.scroll_loop fuel d) = (j <? fuel))
  /\ (forall (d : Driver) (fuel : nat),
     (forall i, rambler_idle_round (timeline d) (clock d) i = true) ->
     finished (Rambler.scroll_loop fuel d) = false)
  /\ (forall (d : Driver) (j fuel : nat),
     (forall i, i < j -> rbc_idle_round (timeline d) (clock d) i = true) ->
     scrolls (timeline d (clock d + 2 * j)) = true ->
     seen Rbc.TARGET_DATE (timeline d (clock d + 2 * j + 1)) = true ->
     finished (Rbc.scroll_loop fuel Rbc.initial d) = (j <? fuel))
  /\ (forall (d : Driver) (fuel : nat),
     (forall i, rbc_idle_round (timeline d) (clock d) i = true) ->
     finished (Rbc.scroll_loop fuel Rbc.initial d) = false).
Proof.
  repeat split.
  - intros d j fuel. apply rambler_loop_exit.
  - intros d fuel. apply rambler_loop_never.
  - intros d j fuel. apply rbc_loop_exit. reflexivity.
  - intros d fuel. apply rbc_loop_never. reflexivity.
Qed.

Lemma scroll_loop_ends_witness :
  finished (Rambler.scroll_loop 2 (new_driver (rambler_archive 3))) = true
  /\ finished (Rambler.scroll_loop 1 (new_driver (rambler_archive 3))) = false
  /\ finished (Rbc.scroll_loop 2 Rbc.initial (new_driver (rbc_archive 3))) = true
  /\ finished (Rbc.scroll_loop 7 Rbc.initial (new_driver endless_archive)) = false.
Proof.
  destruct scroll_loop_ends_exactly_when_date_seen as (Hexit & _ & Hrbc & Hnever).
  split; [|split; [|split]].
  - apply (Hexit (new_driver (rambler_archive 3)) 1 2).
    + intros i Hi. assert (i = 0) as -> by lia. reflexivity.
    + reflexivity.
  - apply (Hexit (new_driver (rambler_archive 3)) 1 1).
    + intros i Hi. assert (i = 0) as -> by lia. reflexivity.
    + reflexivity.
  - apply (Hrbc (new_driver (rbc_archive 3)) 1 2).
    + intros i Hi. assert (i = 0) as -> by lia. reflexivity.
    + reflexivity.
    + reflexivity.
  - apply (Hnever (new_driver endless_archive) 7). intros i. reflexivity.
Defined.

(** C1, as stated, fails: on an archive that never shows the target date no
    number of rounds is enough for [collect_urls] to come back, for rambler
    and for rbc. *)
Lemma collect_urls_never_returns_without_date :
  ~ (exists N, finished (Rambler.collect_urls N endless_archive) = true)
  /\ ~ (exists N, finished (Rbc.collect_urls N endless_archive) = true).
Proof.
  split; intros [N HN].
  - rewrite rambler_collect_finished in HN by reflexivity.
    rewrite rambler_loop_never in HN; [discriminate|].
    intros i. reflexivity.
  - rewrite rbc_collect_finished in HN by reflexivity.
    rewrite rbc_loop_never in HN; [discriminate|reflexivity|].
    intros i. reflexivity.
Qed.

(** ** No scroll once the date has been seen *)

Lemma incomplete_app (marker : pystr) (l l' : list event) :
  incomplete marker (l ++ l') = incomplete marker l && incomplete marker l'.
Proof. unfold incomplete. apply forallb_app. Qed.

Lemma no_scroll_after_incomplete (marker : pystr) (l l' : list event) :
  incomplete marker l = true ->
  no_scroll_after_complete marker (l ++ l') = no_scroll_after_complete marker l'.
Proof.
  induction l as [|e l IH]; [reflexivity|].
  cbn. destruct (completes marker e); cbn; [discriminate|exact IH].
Qed.

Lemma no_scroll_after_snoc (marker : pystr) (l : list event) (e : event) :
  is_scroll e = false ->
  no_scroll_after_complete marker l = true ->
  no_scroll_after_complete marker (l ++ [e]) = true.
Proof.
  intros He. induction l as [|e' l IH]; cbn.
  - intros _. destruct (completes marker e); reflexivity.
  - destruct (completes marker e').
    + rewrite forallb_app. intros ->. cbn. rewrite He. reflexivity.
    + exact IH.
Qed.

Lemma incomplete_no_scroll_after (marker : pystr) (l : list event) :
  incomplete marker l = true -> no_scroll_after_complete marker l = true.
Proof.
  intros H. rewrite <- (app_nil_r l).
  rewrite no_scroll_after_incomplete by exact H. reflexivity.
Qed.

(** Brings the log of a driver that has run some commands into the form
    [log d ++ [e1; ...; en]] and drops [log d] from the goal when it is known
    to hold no completing look. *)
Ltac settle_log marker Hinc :=
  cbn [run_driver log tick record quit];
  rewrite <- ?app_assoc; cbn [app];
  try (rewrite (no_scroll_after_incomplete marker) by exact Hinc);
  try (rewrite (incomplete_app marker), Hinc);
  cbn [no_scroll_after_complete incomplete forallb completes is_scroll negb andb].

Lemma no_scrolls_no_scroll_after (marker : pystr) (tr : list event) :
  forallb (fun e => negb (is_scroll e)) tr = true ->
  no_scroll_after_complete marker tr = true.
Proof.
  induction tr as [|e tr IH]; [reflexivity|].
  cbn. rewrite andb_true_iff. intros [_ Htr].
  destruct (completes marker e); [exact Htr|exact (IH Htr)].
Qed.

Lemma rambler_loop_no_scroll_after (fuel : nat) : forall (d : Driver) (tr : list event),
  incomplete Rambler.TARGET_DATE (log d) = true ->
  forallb (fun e => negb (is_scroll e)) tr = true ->
  no_scroll_after_complete Rambler.TARGET_DATE
    (log (run_driver (Rambler.scroll_loop fuel d)) ++ tr) = true.
Proof.
  induction fuel as [|fuel IH]; intros d tr Hinc Htr.
  - settle_log Rambler.TARGET_DATE Hinc.
    apply no_scrolls_no_scroll_after. exact Htr.
  - cbn [Rambler.scroll_loop]. rewrite rambler_oracle_spec.
    unfold poll, current.
    destruct (body_outcome (timeline d (clock d))) as [body|e] eqn:Hbody.
    + destruct (contains Rambler.TARGET_DATE body) eqn:Hin.
      * settle_log Rambler.TARGET_DATE Hinc. rewrite Hin. exact Htr.
      * unfold bind, Rambler._scroll_to_bottom, Rambler._wait_for_load,
          Rambler._scroll_to_top, execute_script, ret, current.
        cbn [tick timeline clock].
        destruct (script_outcome _) as [e1|]; cbn [of_outcome raise ret].
        { settle_log Rambler.TARGET_DATE Hinc. rewrite Hin.
          apply no_scrolls_no_scroll_after. exact Htr. }
        destruct (script_outcome _) as [e2|]; cbn [of_outcome raise ret].
        { settle_log Rambler.TARGET_DATE Hinc. rewrite Hin.
          apply no_scrolls_no_scroll_after. exact Htr. }
        apply IH; [|exact Htr].
        settle_log Rambler.TARGET_DATE Hinc. rewrite Hin. reflexivity.
    + destruct (transient e) eqn:Htrans.
      * unfold bind, Rambler._scroll_to_bottom, Rambler._wait_for_load,
          Rambler._scroll_to_top, execute_script, ret, current.
        cbn [tick timeline clock].
        destruct (script_outcome _) as [e1|]; cbn [of_outcome raise ret].
        { settle_log Rambler.TARGET_DATE Hinc.
          apply no_scrolls_no_scroll_after. exact Htr. }
        destruct (script_outcome _) as [e2|]; cbn [of_outcome raise ret].
        { settle_log Rambler.TARGET_DATE Hinc.
          apply no_scrolls_no_scroll_after. exact Htr. }
        apply IH; [|exact Htr].
        settle_log Rambler.TARGET_DATE Hinc. reflexivity.
      * settle_log Rambler.TARGET_DATE Hinc.
        apply no_scrolls_no_scroll_after. exact Htr.
Qed.

(** *** ria: what one round of the loop does *)

Ltac split_log :=
  cbn [fst snd log tick record quit];
  rewrite <- ?app_assoc; cbn [app];
  eexists; split; [reflexivity|].

(** [_click_more_button] tries the button, logs what goes wrong with the
    driver, and lets no Selenium exception out. *)
Lemma ria_click_more_button_spec (d : Driver) :
  exists tr,
    log (snd (Ria._click_more_button d)) = log d ++ tr
    /\ button_trace tr = true
    /\ match fst (Ria._click_more_button d) with
       | Returns _ => True
       | Raises e => isinstance_WebDriverException e = false
       end.
Proof.
  unfold Ria._click_more_button, try_except, bind, Selenium.until,
    Selenium.visibility_of_element_located, try_except, bind,
    find_button_displayed, click, logger_error, ret.
  destruct (button_outcome (current d)) as [[|]|[]]; cbn;
    try (destruct (click_outcome _) as [[]|]; cbn);
    split_log; split; reflexivity.
Qed.

Lemma not_webdriver_not_timeout (e : exn) :
  isinstance_WebDriverException e = false -> isinstance_TimeoutException e = false.
Proof. destruct e; simpl; congruence. Qed.

Lemma ria_click_step_spec (st : Ria.LoaderState) (d : Driver) :
  exists tr,
    log (snd (Ria.click_step st d)) = log d ++ tr
    /\ button_trace tr = true
    /\ (Ria.button_clicked st = true -> tr = [])
    /\ match fst (Ria.click_step st d) with
       | Next st' =>
           Ria.button_clicked st' = true
           /\ Ria.scroll_complete st' = Ria.scroll_complete st
       | Propagate _ st' => st' = st
       | Continue _ | Break _ => False
       end.
Proof.
  unfold Ria.click_step.
  destruct (Ria.button_clicked st) eqn:Hclicked.
  - exists []. cbn. rewrite app_nil_r. auto.
  - destruct (ria_click_more_button_spec d) as (tr & Hlog & Htr & Hres).
    destruct (Ria._click_more_button d) as [[u|e] d']; cbn in *.
    + exists tr. repeat split; try assumption. discriminate.
    + rewrite (not_webdriver_not_timeout e Hres). cbn.
      exists tr. repeat split; try assumption. discriminate.
Qed.

Lemma ria_poll_step_spec (st : Ria.LoaderState) (d : Driver) :
  exists tr,
    log (snd (Ria.poll_step st d)) = log d ++ tr
    /\ passive tr = true
    /\ match fst (Ria.poll_step st d) with
       | Continue st' => st' = st /\ incomplete Ria.TARGET_DATE tr = true
       | Next _ => False
       | Break st' | Propagate _ st' =>
           Ria.button_clicked st' = Ria.button_clicked st
           /\ (Ria.scroll_complete st = true -> Ria.scroll_complete st' = true)
       end.
Proof.
  unfold Ria.poll_step. rewrite wait_for_text_spec. unfold poll.
  destruct (body_outcome (current d)) as [body|e].
  - destruct (contains Ria.TARGET_DATE body) eqn:Hin; cbn.
    + unfold find_elements.
      destruct (links_outcome _) as [links|e]; cbn.
      * destruct (append_hrefs _ links) as [urls' [e|]]; cbn;
          split_log; repeat split; auto.
      * split_log. repeat split; auto.
    + split_log. cbn. rewrite Hin. repeat split; auto.
  - destruct e; cbn; split_log; repeat split; auto.
Qed.

Lemma forallb_weaken {A} (f g : A -> bool) (l : list A) :
  (forall a, f a = true -> g a = true) ->
  forallb f l = true -> forallb g l = true.
Proof.
  intros Hfg. induction l as [|a l IH]; [reflexivity|].
  cbn. rewrite !andb_true_iff. intros [Ha Hl]. auto.
Qed.

Lemma button_trace_no_scroll (tr : list event) :
  button_trace tr = true -> forallb (fun e => negb (is_scroll e)) tr = true.
Proof. apply forallb_weaken. intros []; simpl; congruence. Qed.

Lemma button_trace_incomplete (marker : pystr) (tr : list event) :
  button_trace tr = true -> incomplete marker tr = true.
Proof. apply forallb_weaken. intros []; simpl; congruence. Qed.

Lemma passive_no_scroll (tr : list event) :
  passive tr = true -> forallb (fun e => negb (is_scroll e)) tr = true.
Proof.
  apply forallb_weaken. intros a. rewrite andb_true_iff. intros [H _]. exact H.
Qed.

(** One round of ria's loop: a scroll, then nothing that scrolls again. *)
Lemma ria_loop_body_spec (st : Ria.LoaderState) (d : Driver) :
  exists script rest,
    log (snd (Ria.loop_body st d)) = log d ++ EvExecuteScript script :: rest
    /\ forallb (fun e => negb (is_scroll e)) rest = true
    /\ (Ria.button_clicked st = true -> passive rest = true)
    /\ match fst (Ria.loop_body st d) with
       | Continue st' =>
           Ria.button_clicked st' = true
           /\ Ria.scroll_complete st' = Ria.scroll_complete st
           /\ incomplete Ria.TARGET_DATE rest = true
       | Next _ => False
       | Break st' => Ria.button_clicked st' = true
       | Propagate _ st' =>
           Ria.button_clicked st = true -> Ria.button_clicked st' = true
       end.
Proof.
  unfold Ria.loop_body, Ria._scroll_to_bottom, execute_script.
  destruct (script_outcome (current d)) as [e|]; cbn [of_outcome raise ret].
  { eexists _, []. cbn. auto. }
  set (d1 := tick _ d).
  destruct (ria_click_step_spec st d1) as (trc & Hlogc & Hbt & Hnil & Hres).
  destruct (Ria.click_step st d1) as [f d2]. cbn [fst snd] in *.
  destruct f as [st1|st1|st1|e st1]; try (exfalso; exact Hres).
  - destruct Hres as [Hclicked Hflag].
    destruct (ria_poll_step_spec st1 d2) as (trp & Hlogp & Hpass & Hresp).
    destruct (Ria.poll_step st1 d2) as [f' d3]. cbn [fst snd] in *.
    exists "window.scrollTo(0, document.body.scrollHeight);"%string, (trc ++ trp).
    split; [|split; [|split]].
    + rewrite Hlogp, Hlogc. subst d1. cbn [log tick].
      rewrite <- !app_assoc. reflexivity.
    + rewrite forallb_app, (button_trace_no_scroll trc Hbt),
        (passive_no_scroll trp Hpass). reflexivity.
    + intros Hst. rewrite (Hnil Hst). exact Hpass.
    + destruct f' as [st'|st'|st'|e st']; try (exfalso; exact Hresp).
      * destruct Hresp as [-> Hinc]. repeat split; try assumption.
        rewrite incomplete_app, (button_trace_incomplete _ trc Hbt), Hinc.
        reflexivity.
      * destruct Hresp as [Hsame _]. congruence.
      * destruct Hresp as [Hsame _]. intros _. congruence.
  - subst st1.
    exists "window.scrollTo(0, document.body.scrollHeight);"%string, trc.
    split; [|split; [|split]].
    + cbn [fst snd]. rewrite Hlogc. subst d1. cbn [log tick].
      rewrite <- !app_assoc. reflexivity.
    + exact (button_trace_no_scroll trc Hbt).
    + intros Hst. rewrite (Hnil Hst). reflexivity.
    + cbn. auto.
Qed.

(** Neither flag of ria's loop is ever taken back. *)
Lemma ria_loop_body_flags (st : Ria.LoaderState) (d : Driver) :
  (Ria.scroll_complete st = true ->
   Ria.scroll_complete (flow_state (fst (Ria.loop_body st d))) = true)
  /\ (Ria.button_clicked st = true ->
   Ria.button_clicked (flow_state (fst (Ria.loop_body st d))) = true).
Proof.
  unfold Ria.loop_body, Ria._scroll_to_bottom, execute_script.
  destruct (script_outcome (current d)) as [e|]; cbn [of_outcome raise ret].
  { cbn. auto. }
  set (d1 := tick _ d).
  destruct (ria_click_step_spec st d1) as (trc & _ & _ & _ & Hres).
  destruct (Ria.click_step st d1) as [f d2]. cbn [fst snd] in *.
  destruct f as [st1|st1|st1|e st1]; try (exfalso; exact Hres).
  - destruct Hres as [Hclicked Hflag].
    destruct (ria_poll_step_spec st1 d2) as (trp & _ & _ & Hresp).
    destruct (Ria.poll_step st1 d2) as [f' d3]. cbn [fst snd] in *.
    destruct f' as [st'|st'|st'|e st']; try (exfalso; exact Hresp); cbn.
    + destruct Hresp as [-> _]. split; congruence.
    + destruct Hresp as [Hsame Hmono]. split; intros H.
      * apply Hmono. congruence.
      * congruence.
    + destruct Hresp as [Hsame Hmono]. split; intros H.
      * apply Hmono. congruence.
      * congruence.
  - subst st1. cbn. auto.
Qed.

Lemma ria_loop_no_scroll_after (fuel : nat) :
  forall (st : Ria.LoaderState) (d : Driver) (tr : list event),
  incomplete Ria.TARGET_DATE (log d) = true ->
  forallb (fun e => negb (is_scroll e)) tr = true ->
  no_scroll_after_complete Ria.TARGET_DATE
    (log (run_driver (Ria.scroll_loop fuel st d)) ++ tr) = true.
Proof.
  induction fuel as [|fuel IH]; intros st d tr Hinc Htr.
  - settle_log Ria.TARGET_DATE Hinc.
    apply no_scrolls_no_scroll_after. exact Htr.
  - cbn [Ria.scroll_loop].
    destruct (Ria.scroll_complete st).
    { settle_log Ria.TARGET_DATE Hinc.
      apply no_scrolls_no_scroll_after. exact Htr. }
    destruct (ria_loop_body_spec st d) as (script & rest & Hlog & Hns & _ & Hres).
    destruct (Ria.loop_body st d) as [f d']. cbn [fst snd] in *.
    assert (Hdone : no_scroll_after_complete Ria.TARGET_DATE (log d' ++ tr) = true).
    { rewrite Hlog, <- app_assoc.
      rewrite no_scroll_after_incomplete by exact Hinc.
      cbn. apply no_scrolls_no_scroll_after.
      rewrite forallb_app, Hns, Htr. reflexivity. }
    destruct f as [st'|st'|st'|e st']; try (exfalso; exact Hres).
    + destruct Hres as (_ & _ & Hrest).
      apply IH; [|exact Htr].
      rewrite Hlog, incomplete_app, Hinc. cbn. exact Hrest.
    + exact Hdone.
    + destruct (isinstance_KeyboardInterrupt e); exact Hdone.
Qed.

Lemma ria_loop_idle_when_complete (fuel : nat) (st : Ria.LoaderState) (d : Driver) :
  Ria.scroll_complete st = true ->
  log (run_driver (Ria.scroll_loop fuel st d)) = log d.
Proof.
  intros Hflag. destruct fuel as [|fuel]; cbn; [reflexivity|].
  rewrite Hflag. reflexivity.
Qed.

Lemma rambler_collect_no_scroll_after (fuel : nat) (tl : nat -> Page) :
  no_scroll_after_complete Rambler.TARGET_DATE
    (log (run_driver (Rambler.collect_urls fuel tl))) = true.
Proof.
  unfold Rambler.collect_urls, bind, get, maximize_window, current.
  cbn [new_driver timeline clock].
  destruct (nav_outcome (tl 0)) as [e|]; cbn [of_outcome raise ret]; [reflexivity|].
  cbn [tick new_driver timeline clock].
  destruct (nav_outcome (tl 1)) as [e|]; cbn [of_outcome raise ret]; [reflexivity|].
  set (d := tick EvMaximize _).
  assert (Hinc : incomplete Rambler.TARGET_DATE (log d) = true) by reflexivity.
  pose proof (rambler_loop_no_scroll_after fuel d) as Hloop.
  destruct (Rambler.scroll_loop fuel d) as [[u|e] d1|d1]; cbn [run_driver] in *.
  - unfold Rambler.read_links, bind, find_elements.
    destruct (links_outcome (current d1)) as [links|e]; cbn [raise ret].
    + destruct (append_hrefs [] links) as [urls [e|]]; cbn [raise ret];
        cbn [run_driver log tick record quit]; rewrite <- app_assoc;
        apply Hloop; [exact Hinc|reflexivity|exact Hinc|reflexivity].
    + cbn [run_driver log tick record quit]. rewrite <- app_assoc.
      apply Hloop; [exact Hinc|reflexivity].
  - cbn [log quit record]. apply Hloop; [exact Hinc|reflexivity].
  - rewrite <- (app_nil_r (log d1)). apply Hloop; [exact Hinc|reflexivity].
Qed.

Lemma ria_collect_no_scroll_after (fuel : nat) (tl : nat -> Page) :
  no_scroll_after_complete Ria.TARGET_DATE
    (log (run_driver (Ria.collect_urls fuel tl))) = true.
Proof.
  unfold Ria.collect_urls, bind, get, maximize_window, current.
  cbn [new_driver timeline clock].
  destruct (nav_outcome (tl 0)) as [e|]; cbn [of_outcome raise ret]; [reflexivity|].
  cbn [tick new_driver timeline clock].
  destruct (nav_outcome (tl 1)) as [e|]; cbn [of_outcome raise ret]; [reflexivity|].
  set (d := tick EvMaximize _).
  assert (Hinc : incomplete Ria.TARGET_DATE (log d) = true) by reflexivity.
  pose proof (ria_loop_no_scroll_after fuel Ria.initial d) as Hloop.
  destruct (Ria.scroll_loop fuel Ria.initial d) as [r d1|d1]; cbn [run_driver] in *.
  - cbn [log quit record]. apply Hloop; [exact Hinc|reflexivity].
  - rewrite <- (app_nil_r (log d1)). apply Hloop; [exact Hinc|reflexivity].
Qed.

(** C6: once a look at the body has found the target date no scroll is
    issued any more, in every run of rambler's and of ria's [collect_urls],
    finished or not; ria's loop does nothing at all when entered with
    [scroll_complete] set, and a round of it never resets the flag. *)
Theorem no_scroll_once_loaded :
  (forall fuel tl,
     no_scroll_after_complete Rambler.TARGET_DATE
       (log (run_driver (Rambler.collect_urls fuel tl))) = true)
  /\ (forall fuel tl,
     no_scroll_after_complete Ria.TARGET_DATE
       (log (run_driver (Ria.collect_urls fuel tl))) = true)
  /\ (forall fuel st d,
     Ria.scroll_complete st = true ->
     log (run_driver (Ria.scroll_loop fuel st d)) = log d)
  /\ (forall st d,
     Ria.scroll_complete st = true ->
     Ria.scroll_complete (flow_state (fst (Ria.loop_body st d))) = true).
Proof.
  split; [|split; [|split]].
  - apply rambler_collect_no_scroll_after.
  - apply ria_collect_no_scroll_after.
  - apply ria_loop_idle_when_complete.
  - intros st d. apply (ria_loop_body_flags st d).
Qed.

Lemma no_scroll_once_loaded_witness :
  log (run_driver (Ria.scroll_loop 5 loaded_state (new_driver endless_archive))) = []
  /\ Ria.scroll_complete
       (flow_state (fst (Ria.loop_body loaded_state (new_driver endless_archive))))
     = true.
Proof.
  destruct no_scroll_once_loaded as (_ & _ & Hidle & Hmono).
  split.
  - apply (Hidle 5 loaded_state (new_driver endless_archive)). reflexivity.
  - apply (Hmono loaded_state (new_driver endless_archive)). reflexivity.
Defined.

(** ** The button is tried in the first round only *)

Lemma trigger_in_first_round_app (l l' : list event) : forall n,
  trigger_in_first_round n (l ++ l')
  = trigger_in_first_round n l && trigger_in_first_round (n + count_scrolls l) l'.
Proof.
  unfold count_scrolls.
  induction l as [|e l IH]; intros n; cbn.
  - rewrite Nat.add_0_r. reflexivity.
  - destruct (is_scroll e); cbn.
    + rewrite IH. replace (S n + _) with (n + S (List.length (List.filter is_scroll l))) by lia.
      reflexivity.
    + rewrite IH, andb_assoc. reflexivity.
Qed.

Lemma trigger_first_round_no_scroll (l : list event) :
  forallb (fun e => negb (is_scroll e)) l = true ->
  trigger_in_first_round 1 l = true.
Proof.
  induction l as [|e l IH]; [reflexivity|].
  cbn. rewrite andb_true_iff. intros [He Hl].
  apply negb_true_iff in He. rewrite He, orb_true_r. cbn. exact (IH Hl).
Qed.

Lemma trigger_passive (l : list event) : forall n,
  passive l = true -> trigger_in_first_round n l = true.
Proof.
  induction l as [|e l IH]; intros n; [reflexivity|].
  cbn. rewrite !andb_true_iff. intros [[Hs Ht] Hl].
  apply negb_true_iff in Hs. rewrite Hs, Ht. cbn. exact (IH n Hl).
Qed.

Lemma passive_app (l l' : list event) :
  passive (l ++ l') = passive l && passive l'.
Proof. unfold passive. apply forallb_app. Qed.

Lemma ria_loop_trigger (fuel : nat) :
  forall (st : Ria.LoaderState) (d : Driver) (tr : list event),
  trigger_in_first_round 0 (log d) = true ->
  (Ria.button_clicked st = false -> count_scrolls (log d) = 0) ->
  passive tr = true ->
  trigger_in_first_round 0 (log (run_driver (Ria.scroll_loop fuel st d)) ++ tr) = true.
Proof.
  induction fuel as [|fuel IH]; intros st d tr Hlogd Hfirst Htr.
  - cbn [Ria.scroll_loop run_driver].
    rewrite trigger_in_first_round_app, Hlogd. cbn.
    apply trigger_passive. exact Htr.
  - cbn [Ria.scroll_loop].
    destruct (Ria.scroll_complete st).
    { cbn [run_driver]. rewrite trigger_in_first_round_app, Hlogd. cbn.
      apply trigger_passive. exact Htr. }
    destruct (ria_loop_body_spec st d) as (script & rest & Hlog & Hns & Hpass & Hres).
    assert (Hround : forall tr', passive tr' = true ->
              trigger_in_first_round 0
                ((log d ++ EvExecuteScript script :: rest) ++ tr') = true).
    { intros tr' Htr'. rewrite <- app_assoc.
      rewrite trigger_in_first_round_app, Hlogd. cbn.
      destruct (Ria.button_clicked st) eqn:Hclicked.
      - apply trigger_passive. rewrite passive_app, (Hpass eq_refl), Htr'.
        reflexivity.
      - rewrite (Hfirst eq_refl). apply trigger_first_round_no_scroll.
        rewrite forallb_app, Hns, (passive_no_scroll tr' Htr'). reflexivity. }
    destruct (Ria.loop_body st d) as [f d']. cbn [fst snd] in *.
    destruct f as [st'|st'|st'|e st']; try (exfalso; exact Hres).
    + destruct Hres as (Hclicked & _ & _).
      apply IH; [| |exact Htr].
      * rewrite Hlog, <- (app_nil_r (_ ++ _ :: _)). apply Hround. reflexivity.
      * rewrite Hclicked. discriminate.
    + cbn [run_driver]. rewrite Hlog. apply Hround. exact Htr.
    + destruct (isinstance_KeyboardInterrupt e); cbn [run_driver];
        rewrite Hlog; apply Hround; exact Htr.
Qed.

Lemma ria_collect_trigger (fuel : nat) (tl : nat -> Page) :
  trigger_in_first_round 0 (log (run_driver (Ria.collect_urls fuel tl))) = true.
Proof.
  unfold Ria.collect_urls, bind, get, maximize_window, current.
  cbn [new_driver timeline clock].
  destruct (nav_outcome (tl 0)) as [e|]; cbn [of_outcome raise ret]; [reflexivity|].
  cbn [tick new_driver timeline clock].
  destruct (nav_outcome (tl 1)) as [e|]; cbn [of_outcome raise ret]; [reflexivity|].
  set (d := tick EvMaximize _).
  pose proof (ria_loop_trigger fuel Ria.initial d) as Hloop.
  destruct (Ria.scroll_loop fuel Ria.initial d) as [r d1|d1]; cbn [run_driver] in *.
  - cbn [log quit record]. apply Hloop; reflexivity.
  - rewrite <- (app_nil_r (log d1)). apply Hloop; reflexivity.
Qed.

Lemma ria_round_sets_button_clicked (st : Ria.LoaderState) (d : Driver) :
  match fst (Ria.loop_body st d) with
  | Propagate _ _ => True
  | f => Ria.button_clicked (flow_state f) = true
  end.
Proof.
  destruct (ria_loop_body_spec st d) as (script & rest & _ & _ & _ & Hres).
  destruct (fst (Ria.loop_body st d)) as [st'|st'|st'|e st']; cbn.
  - contradiction.
  - apply Hres.
  - exact Hres.
  - exact I.
Qed.

Lemma ria_round_passive_when_clicked (st : Ria.LoaderState) (d : Driver) :
  Ria.button_clicked st = true ->
  exists script rest,
    log (snd (Ria.loop_body st d)) = log d ++ EvExecuteScript script :: rest
    /\ passive rest = true.
Proof.
  intros Hclicked.
  destruct (ria_loop_body_spec st d) as (script & rest & Hlog & _ & Hpass & _).
  exists script, rest. auto.
Qed.

(** In a round entered with [button_clicked] unset the button is looked for
    before anything else, and clicked when it is found displayed. *)
Lemma ria_click_step_looks_for_button (st : Ria.LoaderState) (d : Driver) :
  Ria.button_clicked st = false ->
  exists tail,
    log (snd (Ria.click_step st d))
    = log d ++ EvFindButton (button_outcome (current d)) :: tail
    /\ (button_outcome (current d) = Returns true ->
        exists tail', tail = EvClick :: tail').
Proof.
  intros Hclicked. unfold Ria.click_step. rewrite Hclicked.
  unfold Ria._click_more_button, try_except, bind, Selenium.until,
    Selenium.visibility_of_element_located, try_except, bind,
    find_button_displayed, click, logger_error, ret.
  destruct (button_outcome (current d)) as [[|]|[]]; cbn;
    try (destruct (click_outcome _) as [[]|]; cbn);
    split_log; intros Hfound; try discriminate Hfound;
    eexists; reflexivity.
Qed.

Lemma ria_round_looks_for_button (st : Ria.LoaderState) (d : Driver) :
  Ria.button_clicked st = false ->
  script_outcome (current d) = None ->
  exists rest,
    log (snd (Ria.loop_body st d))
    = log d
      ++ EvExecuteScript "window.scrollTo(0, document.body.scrollHeight);"
      :: EvFindButton (button_outcome (timeline d (S (clock d)))) :: rest
    /\ (button_outcome (timeline d (S (clock d))) = Returns true ->
        exists rest', rest = EvClick :: rest').
Proof.
  intros Hclicked Hscript.
  unfold Ria.loop_body, Ria._scroll_to_bottom, execute_script.
  rewrite Hscript. cbn [of_outcome ret].
  set (d1 := tick _ d).
  destruct (ria_click_step_looks_for_button st d1 Hclicked) as (tail & Hlog & Hclick).
  change (current d1) with (timeline d (S (clock d))) in Hlog, Hclick.
  destruct (Ria.click_step st d1) as [f d2]. cbn [fst snd] in Hlog.
  assert (Hd1 : log d1
                = log d ++ [EvExecuteScript
                              "window.scrollTo(0, document.body.scrollHeight);"])
    by reflexivity.
  destruct f as [st1|st1|st1|e st1]; cbn [fst snd].
  - destruct (ria_poll_step_spec st1 d2) as (trp & Hlogp & _).
    exists (tail ++ trp). split.
    + rewrite Hlogp, Hlog, Hd1, <- !app_assoc. reflexivity.
    + intros Hfound. destruct (Hclick Hfound) as (tail' & ->).
      eexists. reflexivity.
  - exists tail. split; [|exact Hclick].
    rewrite Hlog, Hd1, <- !app_assoc. reflexivity.
  - exists tail. split; [|exact Hclick].
    rewrite Hlog, Hd1, <- !app_assoc. reflexivity.
  - exists tail. split; [|exact Hclick].
    rewrite Hlog, Hd1, <- !app_assoc. reflexivity.
Qed.

(** What ria's loop has logged stays logged. *)
Lemma ria_loop_log_extends (fuel : nat) :
  forall (st : Ria.LoaderState) (d : Driver),
  exists tr, log (run_driver (Ria.scroll_loop fuel st d)) = log d ++ tr.
Proof.
  induction fuel as [|fuel IH]; intros st d; cbn [Ria.scroll_loop].
  - exists []. cbn. rewrite app_nil_r. reflexivity.
  - destruct (Ria.scroll_complete st).
    { exists []. cbn. rewrite app_nil_r. reflexivity. }
    destruct (ria_loop_body_spec st d) as (script & rest & Hlog & _).
    destruct (Ria.loop_body st d) as [f d']. cbn [fst snd] in Hlog.
    destruct f as [st'|st'|st'|e st'].
    + destruct (IH st' d') as (tr & ->). rewrite Hlog, <- app_assoc. eauto.
    + destruct (IH st' d') as (tr & ->). rewrite Hlog, <- app_assoc. eauto.
    + cbn [run_driver]. rewrite Hlog. eauto.
    + destruct (isinstance_KeyboardInterrupt e); cbn [run_driver];
        rewrite Hlog; eauto.
Qed.

(** The first thing ria's [collect_urls] does after its first scroll is to
    look for the button. *)
Lemma ria_collect_looks_for_button (fuel : nat) (tl : nat -> Page) :
  nav_outcome (tl 0) = None ->
  nav_outcome (tl 1) = None ->
  script_outcome (tl 2) = None ->
  exists rest,
    log (run_driver (Ria.collect_urls (S fuel) tl))
    = EvGet Ria.RIA_URL :: EvMaximize
      :: EvExecuteScript "window.scrollTo(0, document.body.scrollHeight);"
      :: EvFindButton (button_outcome (tl 3)) :: rest
    /\ (button_outcome (tl 3) = Returns true -> exists rest', rest = EvClick :: rest').
Proof.
  intros H0 H1 H2.
  unfold Ria.collect_urls, bind, get, maximize_window, current.
  cbn [new_driver timeline clock]. rewrite H0.
  cbn [of_outcome ret tick new_driver timeline clock]. rewrite H1.
  cbn [of_outcome ret].
  set (d0 := tick EvMaximize _).
  destruct (ria_round_looks_for_button Ria.initial d0 eq_refl H2)
    as (rest & Hlog & Hclick).
  change (timeline d0 (S (clock d0))) with (tl 3) in Hlog, Hclick.
  change (log d0) with [EvGet Ria.RIA_URL; EvMaximize] in Hlog.
  cbn [app] in Hlog.
  cbn [Ria.scroll_loop Ria.initial Ria.scroll_complete].
  destruct (Ria.loop_body Ria.initial d0) as [f d1]. cbn [fst snd] in Hlog.
  assert (Hgoal : forall tr,
            exists rest0,
              log d1 ++ tr
              = EvGet Ria.RIA_URL :: EvMaximize
                :: EvExecuteScript "window.scrollTo(0, document.body.scrollHeight);"
                :: EvFindButton (button_outcome (tl 3)) :: rest0
              /\ (button_outcome (tl 3) = Returns true ->
                  exists rest', rest0 = EvClick :: rest')).
  { intros tr. rewrite Hlog. exists (rest ++ tr). split; [reflexivity|].
    intros Hfound. destruct (Hclick Hfound) as (rest' & ->).
    eexists. reflexivity. }
  assert (Hloop : forall st', exists rest0,
            log (run_driver
                   match Ria.scroll_loop fuel st' d1 with
                   | Running d2 => Running d2
                   | Finished r d2 => Finished r (quit d2)
                   end)
            = EvGet Ria.RIA_URL :: EvMaximize
              :: EvExecuteScript "window.scrollTo(0, document.body.scrollHeight);"
              :: EvFindButton (button_outcome (tl 3)) :: rest0
            /\ (button_outcome (tl 3) = Returns true ->
                exists rest', rest0 = EvClick :: rest')).
  { intros st'. destruct (ria_loop_log_extends fuel st' d1) as (tr & Htr).
    destruct (Ria.scroll_loop fuel st' d1) as [r d2|d2]; cbn [run_driver] in *.
    - cbn [log quit record]. rewrite Htr, <- app_assoc. apply Hgoal.
    - rewrite Htr. apply Hgoal. }
  destruct f as [st'|st'|st'|e st'].
  - apply Hloop.
  - apply Hloop.
  - cbn [run_driver log quit record]. apply Hgoal.
  - destruct (isinstance_KeyboardInterrupt e);
      cbn [run_driver log quit record]; apply Hgoal.
Qed.

(** C5: in every run of ria's [collect_urls], finished or not, the "load
    more" button is looked for and clicked in the first round of the loop
    only, that is after exactly one scroll.  A round that does not end in an
    exception leaves [button_clicked] set; a round never resets it; and a
    round entered with [button_clicked] set issues its scroll and then
    neither scrolls nor touches the button.  And the attempt is made: in a
    round entered with [button_clicked] unset whose scroll succeeds, the
    command right after the scroll is the look for the button, followed by
    the click when the button is found displayed; so the log of every run
    of [collect_urls] that gets past its first scroll has the look for the
    button as its fourth entry. *)
Theorem trigger_tried_in_first_round_only :
  (forall fuel tl,
     trigger_in_first_round 0 (log (run_driver (Ria.collect_urls fuel tl))) = true)
  /\ (forall st d,
     match fst (Ria.loop_body st d) with
     | Propagate _ _ => True
     | f => Ria.button_clicked (flow_state f) = true
     end)
  /\ (forall st d,
     Ria.button_clicked st = true ->
     Ria.button_clicked (flow_state (fst (Ria.loop_body st d))) = true)
  /\ (forall st d,
     Ria.button_clicked st = true ->
     exists script rest,
       log (snd (Ria.loop_body st d)) = log d ++ EvExecuteScript script :: rest
       /\ passive rest = true)
  /\ (forall st d,
     Ria.button_clicked st = false ->
     script_outcome (current d) = None ->
     exists rest,
       log (snd (Ria.loop_body st d))
       = log d
         ++ EvExecuteScript "window.scrollTo(0, document.body.scrollHeight);"
         :: EvFindButton (button_outcome (timeline d (S (clock d)))) :: rest
       /\ (button_outcome (timeline d (S (clock d))) = Returns true ->
           exists rest', rest = EvClick :: rest'))
  /\ (forall fuel tl,
     nav_outcome (tl 0) = None ->
     nav_outcome (tl 1) = None ->
     script_outcome (tl 2) = None ->
     exists rest,
       log (run_driver (Ria.collect_urls (S fuel) tl))
       = EvGet Ria.RIA_URL :: EvMaximize
         :: EvExecuteScript "window.scrollTo(0, document.body.scrollHeight);"
         :: EvFindButton (button_outcome (tl 3)) :: rest
       /\ (button_outcome (tl 3) = Returns true ->
           exists rest', rest = EvClick :: rest')).
Proof.
  split; [|split; [|split; [|split; [|split]]]].
  - apply ria_collect_trigger.
  - apply ria_round_sets_button_clicked.
  - intros st d. apply (ria_loop_body_flags st d).
  - apply ria_round_passive_when_clicked.
  - apply ria_round_looks_for_button.
  - apply ria_collect_looks_for_button.
Qed.

Lemma trigger_tried_in_first_round_only_witness :
  Ria.button_clicked
    (flow_state (fst (Ria.loop_body clicked_state (new_driver endless_archive))))
  = true
  /\ (exists script rest,
       log (snd (Ria.loop_body clicked_state (new_driver endless_archive)))
       = log (new_driver endless_archive) ++ EvExecuteScript script :: rest
       /\ passive rest = true)
  /\ (exists rest,
       log (run_driver (Ria.collect_urls 2 button_archive))
       = EvGet Ria.RIA_URL :: EvMaximize
         :: EvExecuteScript "window.scrollTo(0, document.body.scrollHeight);"
         :: EvFindButton (button_outcome (button_archive 3)) :: rest
       /\ (button_outcome (button_archive 3) = Returns true ->
           exists rest', rest = EvClick :: rest')).
Proof.
  destruct trigger_tried_in_first_round_only
    as (_ & _ & Hmono & Hpassive & _ & Hlooks).
  split; [|split].
  - apply (Hmono clicked_state (new_driver endless_archive)). reflexivity.
  - apply (Hpassive clicked_state (new_driver endless_archive)). reflexivity.
  - apply (Hlooks 1 button_archive); reflexivity.
Defined.

(** ** The csv writer *)

Lemma wrote_nothing (io : IO) : wrote [] [] io = io.
Proof. destruct io. unfold wrote. cbn. rewrite !app_nil_r. reflexivity. Qed.

Lemma wrote_wrote (r1 r2 : list (list pystr)) (m1 m2 : list diag) (io : IO) :
  wrote r2 m2 (wrote r1 m1 io) = wrote (r1 ++ r2) (m1 ++ m2) io.
Proof. unfold wrote. cbn. rewrite !app_assoc. reflexivity. Qed.

Lemma print_wrote (msg : diag) (io : IO) :
  print msg io = (Returns tt, wrote [] [msg] io).
Proof. unfold print, wrote. rewrite app_nil_r. reflexivity. Qed.

Lemma write_line_wrote (row : list pystr) (io : IO) :
  write_line row io = (Returns tt, wrote [row] [] io).
Proof. unfold write_line, wrote. rewrite app_nil_r. reflexivity. Qed.

(** Whatever it is given, [writerow] leaves the file as it was or one line
    longer, and the console as it was. *)
Lemma writerow_grows (fieldnames : list pystr) (fields : gmap pystr pyval) (io : IO) :
  exists rows, snd (DictWriter.writerow fieldnames fields io) = wrote rows [] io.
Proof.
  unfold DictWriter.writerow. destruct (forallb _ _).
  - rewrite write_line_wrote. eexists. reflexivity.
  - exists []. cbn. rewrite wrote_nothing. reflexivity.
Qed.

Lemma for_each_grows (write_row : pyrow -> St IO unit) (data : list pyrow) :
  (forall row io, exists rows msgs, snd (write_row row io) = wrote rows msgs io) ->
  forall io, exists rows msgs, snd (for_each data write_row io) = wrote rows msgs io.
Proof.
  intros Hrow. induction data as [|row data IH]; intros io.
  - exists [], []. cbn. rewrite wrote_nothing. reflexivity.
  - cbn [for_each]. unfold bind.
    destruct (Hrow row io) as (rows & msgs & Hio).
    destruct (write_row row io) as [[u|e] io1]; cbn [snd] in *; subst io1.
    + destruct (IH (wrote rows msgs io)) as (rows' & msgs' & ->).
      rewrite wrote_wrote. eauto.
    + eauto.
Qed.

Lemma rambler_write_row_grows (fieldnames : list pystr) (row : pyrow) (io : IO) :
  exists rows msgs, snd (Rambler.write_row fieldnames row io) = wrote rows msgs io.
Proof.
  destruct row as [|fields]; cbn.
  - exists [], []. rewrite wrote_nothing. reflexivity.
  - destruct (Rambler.all_not_None fields).
    + destruct (writerow_grows fieldnames fields io) as (rows & ->). eauto.
    + rewrite print_wrote. eauto.
Qed.

Lemma rambler_write_data_grows (fieldnames : list pystr) (data : list pyrow) (io : IO) :
  exists rows msgs,
    snd (Rambler.write_data fieldnames data io) = wrote (fieldnames :: rows) msgs io.
Proof.
  unfold Rambler.write_data, DictWriter.writeheader, bind.
  rewrite write_line_wrote.
  destruct (for_each_grows (Rambler.write_row fieldnames) data
              (rambler_write_row_grows fieldnames) (wrote [fieldnames] [] io))
    as (rows & msgs & ->).
  rewrite wrote_wrote. eauto.
Qed.

Lemma ria_write_data_rambler :
  Ria.write_data = Rambler.write_data.
Proof. reflexivity. Qed.

(** C8: every call of [write_data] (rambler, ria) leaves what the file held
    in place, appends the header row first and the rows of the call after
    it, whatever the records are and even if the call ends in an exception;
    so two calls in a row leave two header rows in the file. *)
Theorem write_data_appends_header_each_call :
  (forall fieldnames data io,
     exists rows,
       csv_file (snd (Rambler.write_data fieldnames data io))
       = csv_file io ++ fieldnames :: rows)
  /\ (forall fieldnames data io,
     exists rows,
       csv_file (snd (Ria.write_data fieldnames data io))
       = csv_file io ++ fieldnames :: rows)
  /\ (forall fieldnames data1 data2 io,
     exists rows1 rows2,
       csv_file (snd (Rambler.write_data fieldnames data2
                        (snd (Rambler.write_data fieldnames data1 io))))
       = csv_file io ++ fieldnames :: rows1 ++ fieldnames :: rows2)
  /\ (forall fieldnames data1 data2 io,
     exists rows1 rows2,
       csv_file (snd (Ria.write_data fieldnames data2
                        (snd (Ria.write_data fieldnames data1 io))))
       = csv_file io ++ fieldnames :: rows1 ++ fieldnames :: rows2).
Proof.
  rewrite ria_write_data_rambler.
  assert (Hone : forall fieldnames data io, exists rows,
            csv_file (snd (Rambler.write_data fieldnames data io))
            = csv_file io ++ fieldnames :: rows).
  { intros fieldnames data io.
    destruct (rambler_write_data_grows fieldnames data io) as (rows & msgs & ->).
    exists rows. reflexivity. }
  assert (Htwo : forall fieldnames data1 data2 io, exists rows1 rows2,
            csv_file (snd (Rambler.write_data fieldnames data2
                             (snd (Rambler.write_data fieldnames data1 io))))
            = csv_file io ++ fieldnames :: rows1 ++ fieldnames :: rows2).
  { intros fieldnames data1 data2 io.
    destruct (Hone fieldnames data1 io) as (rows1 & H1).
    destruct (Hone fieldnames data2 (snd (Rambler.write_data fieldnames data1 io)))
      as (rows2 & H2).
    exists rows1, rows2. rewrite H2, H1, <- app_assoc. reflexivity. }
  auto.
Qed.

Lemma forallb_fmap {A B} (f : B -> bool) (g : A -> B) (l : list A) :
  forallb f (g <$> l) = forallb (fun a => f (g a)) l.
Proof. induction l as [|a l IH]; cbn; [reflexivity|]. rewrite IH. reflexivity. Qed.

Lemma forallb_map_Forall {A} (f : pystr -> A -> bool) (P : pystr -> A -> Prop)
    `{!forall key value, Decision (P key value)} (m : gmap pystr A) :
  (forall key value, f key value = true <-> P key value) ->
  forallb (fun kv => f kv.1 kv.2) (map_to_list m) = bool_decide (map_Forall P m).
Proof.
  intros Hf. apply Bool.eq_iff_eq_true.
  rewrite bool_decide_eq_true, map_Forall_to_list, Forall_forall, forallb_forall.
  split.
  - intros Hall [key value] Hin. apply Hf. apply (Hall (key, value)).
    apply list_elem_of_In. exact Hin.
  - intros Hall [key value] Hin. apply Hf. apply (Hall (key, value)).
    apply list_elem_of_In. exact Hin.
Qed.

Lemma keys_check_fits (fieldnames : list pystr) (fields : gmap pystr pyval) :
  forallb (fun key => bool_decide (key ∈ fieldnames)) (map_to_list fields).*1
  = fits fieldnames (RowDict fields).
Proof.
  rewrite forallb_fmap. cbn [fits].
  pose (f := fun (key : pystr) (_ : pyval) => bool_decide (key ∈ fieldnames)).
  apply (forallb_map_Forall f (fun key (_ : pyval) => key ∈ fieldnames)).
  intros key value. apply bool_decide_eq_true.
Qed.

Lemma all_not_None_holds_None (fields : gmap pystr pyval) :
  Rambler.all_not_None fields = negb (holds_None (RowDict fields)).
Proof.
  unfold Rambler.all_not_None, values. rewrite forallb_fmap. cbn [holds_None].
  rewrite negb_involutive.
  apply (forallb_map_Forall (fun _ value => negb (is_None value))
           (fun (_ : pystr) value => value <> VNone)).
  intros key [|s]; cbn; split; congruence.
Qed.

Lemma writerow_cells (fieldnames : list pystr) (fields : gmap pystr pyval) (io : IO) :
  fits fieldnames (RowDict fields) = true ->
  DictWriter.writerow fieldnames fields io
  = (Returns tt, wrote [cells fieldnames (RowDict fields)] [] io).
Proof.
  intros Hfits. unfold DictWriter.writerow.
  rewrite keys_check_fits, Hfits, write_line_wrote.
  do 3 f_equal. cbn [cells]. apply map_ext. intros key.
  destruct (fields !! key) as [[|s]|]; reflexivity.
Qed.

Lemma rambler_for_each_rows (fieldnames : list pystr) (data : list pyrow) : forall io,
  forallb (fits fieldnames) data = true ->
  for_each data (Rambler.write_row fieldnames) io
  = (Returns tt,
     wrote (flat_map (fun row => if holds_None row then []
                                 else [cells fieldnames row]) data)
           (flat_map (fun row => if holds_None row then [DiagSkipped row]
                                 else []) data) io).
Proof.
  induction data as [|row data IH]; intros io Hfits.
  - cbn. rewrite wrote_nothing. reflexivity.
  - cbn [forallb] in Hfits. apply andb_true_iff in Hfits as [Hrow Hdata].
    cbn [for_each flat_map]. unfold bind.
    destruct row as [|fields]; [discriminate|].
    cbn [Rambler.write_row]. rewrite all_not_None_holds_None.
    destruct (holds_None (RowDict fields)); cbn [negb].
    + rewrite print_wrote, IH by exact Hdata. rewrite wrote_wrote. reflexivity.
    + rewrite writerow_cells by exact Hrow.
      rewrite IH by exact Hdata. rewrite wrote_wrote. reflexivity.
Qed.

Lemma rbc_for_each_rows (fieldnames : list pystr) (data : list pyrow) : forall io,
  forallb (fun row => is_RowNone row || fits fieldnames row) data = true ->
  for_each data (Rbc.write_row fieldnames) io
  = (Returns tt,
     wrote (flat_map (fun row => if is_RowNone row then []
                                 else [cells fieldnames row]) data)
           (flat_map (fun row => if is_RowNone row then [DiagSkipped row]
                                 else []) data) io).
Proof.
  induction data as [|row data IH]; intros io Hfits.
  - cbn. rewrite wrote_nothing. reflexivity.
  - cbn [forallb] in Hfits. apply andb_true_iff in Hfits as [Hrow Hdata].
    cbn [for_each flat_map]. unfold bind.
    destruct row as [|fields]; cbn [Rbc.write_row is_RowNone orb] in *.
    + rewrite print_wrote, IH by exact Hdata. rewrite wrote_wrote. reflexivity.
    + rewrite writerow_cells by exact Hrow.
      rewrite IH by exact Hdata. rewrite wrote_wrote. reflexivity.
Qed.

(** C2, as amended: given records that are dicts with field names as keys,
    rambler's and ria's [write_data] writes the header and then, in order,
    one line for every record none of whose values is [None], a record with
    an empty string for a value included; a record with a [None] value gets
    no line and one "skipped" message.  rbc's [write_data] skips, with the
    message, exactly the records that are [None] themselves and writes one
    line for every dict, whatever its values. *)
Theorem write_data_skips_None_not_empty :
  (forall fieldnames data io,
     forallb (fits fieldnames) data = true ->
     Rambler.write_data fieldnames data io
     = (Returns tt,
        wrote (fieldnames ::
                 flat_map (fun row => if holds_None row then []
                                      else [cells fieldnames row]) data)
              (flat_map (fun row => if holds_None row then [DiagSkipped row]
                                    else []) data) io))
  /\ (forall fieldnames data io,
     forallb (fits fieldnames) data = true ->
     Ria.write_data fieldnames data io
     = (Returns tt,
        wrote (fieldnames ::
                 flat_map (fun row => if holds_None row then []
                                      else [cells fieldnames row]) data)
              (flat_map (fun row => if holds_None row then [DiagSkipped row]
                                    else []) data) io))
  /\ (forall fieldnames data io,
     forallb (fun row => is_RowNone row || fits fieldnames row) data = true ->
     Rbc.write_data fieldnames data io
     = (Returns tt,
        wrote (fieldnames ::
                 flat_map (fun row => if is_RowNone row then []
                                      else [cells fieldnames row]) data)
              (flat_map (fun row => if is_RowNone row then [DiagSkipped row]
                                    else []) data) io)).
Proof.
  rewrite ria_write_data_rambler.
  assert (Hrambler : forall fieldnames data io,
     forallb (fits fieldnames) data = true ->
     Rambler.write_data fieldnames data io
     = (Returns tt,
        wrote (fieldnames ::
                 flat_map (fun row => if holds_None row then []
                                      else [cells fieldnames row]) data)
              (flat_map (fun row => if holds_None row then [DiagSkipped row]
                                    else []) data) io)).
  { intros fieldnames data io Hfits.
    unfold Rambler.write_data, DictWriter.writeheader, bind.
    rewrite write_line_wrote, rambler_for_each_rows by exact Hfits.
    rewrite wrote_wrote. reflexivity. }
  split; [exact Hrambler|split; [exact Hrambler|]].
  intros fieldnames data io Hfits.
  unfold Rbc.write_data, DictWriter.writeheader, bind.
  rewrite write_line_wrote, rbc_for_each_rows by exact Hfits.
  rewrite wrote_wrote. reflexivity.
Qed.

Lemma write_data_skips_None_witness :
  Rambler.write_data Rambler.CSV_HEADERS
    [full_record; no_title_record; empty_text_record] empty_io
  = (Returns tt,
     {| csv_file :=
          [Rambler.CSV_HEADERS;
           [py "Title"; str_sberbank; py "01.02.2020"; py "Body."];
           [py "Title"; str_sberbank; py "01.02.2020"; []]];
        console := [DiagSkipped no_title_record] |}).
Proof.
  rewrite (proj1 write_data_skips_None_not_empty Rambler.CSV_HEADERS
             [full_record; no_title_record; empty_text_record] empty_io)
    by (vm_compute; reflexivity).
  vm_compute. reflexivity.
Defined.

(** C2, as stated, fails: rambler's [write_data] writes a record whose text
    is the empty string, without a message; rbc's writes a record whose
    title is [None]. *)
Lemma write_data_writes_empty_field :
  Rambler.write_data Rambler.CSV_HEADERS [empty_text_record] empty_io
  = (Returns tt,
     {| csv_file :=
          [Rambler.CSV_HEADERS;
           [py "Title"; str_sberbank; py "01.02.2020"; []]];
        console := [] |})
  /\ Rbc.write_data Rbc.CSV_HEADERS [no_title_record] empty_io
  = (Returns tt,
     {| csv_file :=
          [Rbc.CSV_HEADERS;
           [[]; str_sberbank; py "01.02.2020"; py "Body."]];
        console := [] |}).
Proof. split; vm_compute; reflexivity. Qed.

(** ** The field parsers *)

Lemma returns_unchanged (value : pyval) (io : IO) :
  exists value' msgs, (Returns value, io) = (Returns value', wrote [] msgs io).
Proof. exists value, []. rewrite wrote_nothing. reflexivity. Qed.

Lemma returns_logged (value : pyval) (msg : diag) (io : IO) :
  exists value' msgs,
    (Returns value, {| csv_file := csv_file io; console := console io ++ [msg] |})
    = (Returns value', wrote [] msgs io).
Proof. exists value, [msg]. unfold wrote. rewrite app_nil_r. reflexivity. Qed.

Lemma rambler_parse_title_total : never_raises Rambler._parse_title.
Proof.
  intros html io. unfold Rambler._parse_title, try_except.
  destruct (css_first html "h1#headline"); cbn; apply returns_unchanged.
Qed.

Lemma rambler_parse_date_total (iso_to_dmy : pystr -> option pystr) :
  never_raises (Rambler._parse_date iso_to_dmy).
Proof.
  intros html io.
  unfold Rambler._parse_date, try_except, bind, fromisoformat_strftime.
  destruct (css_first html "time") as [element|]; cbn; [|apply returns_unchanged].
  destruct (attributes_get element "datetime") as [|s]; cbn; [apply returns_logged|].
  destruct (iso_to_dmy s); cbn; [apply returns_unchanged|apply returns_logged].
Qed.

Lemma rambler_parse_text_total : never_raises Rambler._parse_text.
Proof.
  intros html io. unfold Rambler._parse_text, try_except, bind, css_of.
  destruct (css_first html "._2mfTS"); cbn;
    [apply returns_unchanged|apply returns_logged].
Qed.

Lemma ria_parse_title_total : never_raises Ria._parse_title.
Proof.
  intros html io. unfold Ria._parse_title, try_except.
  destruct (css_first html ".article__title"); cbn; apply returns_unchanged.
Qed.

Lemma ria_parse_date_total (findall_date : pystr -> list pystr) :
  never_raises (Ria._parse_date findall_date).
Proof.
  intros html io.
  unfold Ria._parse_date, try_except, bind, text_of, index.
  destruct (css_first html ".article__info-valign") as [element|]; cbn;
    [|apply returns_logged].
  destruct (List.length (strip (node_text element))); cbn;
    [apply returns_unchanged|].
  destruct (findall_date (strip (node_text element)) !! 0); cbn;
    [apply returns_unchanged|apply returns_logged].
Qed.

Lemma ria_parse_text_total : never_raises Ria._parse_text.
Proof.
  intros html io. unfold Ria._parse_text, try_except, bind, css_of, index.
  destruct (css_first html ".layout-article__main-over") as [block|]; cbn;
    [|apply returns_logged].
  destruct (split_once 46 _ !! 1); cbn;
    [apply returns_unchanged|apply returns_logged].
Qed.

Lemma rbc_parse_title_total : never_raises Rbc._parse_title.
Proof.
  intros html io. unfold Rbc._parse_title, try_except.
  destruct (css_first html Rbc.HEADLINE_SELECTOR); cbn; apply returns_unchanged.
Qed.

Lemma rbc_parse_date_total (iso_to_dmy : pystr -> option pystr) :
  never_raises (Rbc._parse_date iso_to_dmy).
Proof.
  intros html io.
  unfold Rbc._parse_date, try_except, bind, fromisoformat_strftime.
  destruct (css_first html "time") as [element|]; cbn; [|apply returns_unchanged].
  destruct (attributes_get element "datetime") as [|s]; cbn; [apply returns_logged|].
  destruct (iso_to_dmy s); cbn; [apply returns_unchanged|apply returns_logged].
Qed.

Lemma rbc_parse_text_total : never_raises Rbc._parse_text.
Proof.
  intros html io. unfold Rbc._parse_text, try_except.
  destruct (css_first html Rbc.ARTICLE_BODY_SELECTOR); cbn; apply returns_unchanged.
Qed.

(** C7, as amended: none of the nine field parsers ever raises.  When the
    element it looks for is missing from the page, [_parse_text] returns the
    empty string and so does ria's [_parse_date]; [_parse_title], and
    rambler's and rbc's [_parse_date], return [None]. *)
Theorem field_parsers_never_raise_and_absent_fields :
  (forall iso_to_dmy findall_date,
     never_raises Rambler._parse_title
     /\ never_raises (Rambler._parse_date iso_to_dmy)
     /\ never_raises Rambler._parse_text
     /\ never_raises Ria._parse_title
     /\ never_raises (Ria._parse_date findall_date)
     /\ never_raises Ria._parse_text
     /\ never_raises Rbc._parse_title
     /\ never_raises (Rbc._parse_date iso_to_dmy)
     /\ never_raises Rbc._parse_text)
  /\ (forall html io,
     css_first html "._2mfTS" = None ->
     fst (Rambler._parse_text html io) = Returns (VStr []))
  /\ (forall html io,
     css_first html ".layout-article__main-over" = None ->
     fst (Ria._parse_text html io) = Returns (VStr []))
  /\ (forall html io,
     css_first html Rbc.ARTICLE_BODY_SELECTOR = None ->
     fst (Rbc._parse_text html io) = Returns (VStr []))
  /\ (forall findall_date html io,
     css_first html ".article__info-valign" = None ->
     fst (Ria._parse_date findall_date html io) = Returns (VStr []))
  /\ (forall html io,
     css_first html "h1#headline" = None ->
     fst (Rambler._parse_title html io) = Returns VNone)
  /\ (forall html io,
     css_first html ".article__title" = None ->
     fst (Ria._parse_title html io) = Returns VNone)
  /\ (forall html io,
     css_first html Rbc.HEADLINE_SELECTOR = None ->
     fst (Rbc._parse_title html io) = Returns VNone)
  /\ (forall iso_to_dmy html io,
     css_first html "time" = None ->
     fst (Rambler._parse_date iso_to_dmy html io) = Returns VNone)
  /\ (forall iso_to_dmy html io,
     css_first html "time" = None ->
     fst (Rbc._parse_date iso_to_dmy html io) = Returns VNone).
Proof.
  split.
  { intros iso_to_dmy findall_date.
    repeat split;
      auto using rambler_parse_title_total, rambler_parse_date_total,
        rambler_parse_text_total, ria_parse_title_total, ria_parse_date_total,
        ria_parse_text_total, rbc_parse_title_total, rbc_parse_date_total,
        rbc_parse_text_total. }
  repeat split; intros.
  - unfold Rambler._parse_text. rewrite H. reflexivity.
  - unfold Ria._parse_text. rewrite H. reflexivity.
  - unfold Rbc._parse_text. rewrite H. reflexivity.
  - unfold Ria._parse_date. rewrite H. reflexivity.
  - unfold Rambler._parse_title. rewrite H. reflexivity.
  - unfold Ria._parse_title. rewrite H. reflexivity.
  - unfold Rbc._parse_title. rewrite H. reflexivity.
  - unfold Rambler._parse_date. rewrite H. reflexivity.
  - unfold Rbc._parse_date. rewrite H. reflexivity.
Qed.

Lemma field_parsers_absent_witness :
  fst (Rambler._parse_text blank_node empty_io) = Returns (VStr [])
  /\ fst (Rambler._parse_title blank_node empty_io) = Returns VNone
  /\ fst (Rbc._parse_date no_date blank_node empty_io) = Returns VNone.
Proof.
  destruct field_parsers_never_raise_and_absent_fields
    as (_ & Htext & _ & _ & _ & Htitle & _ & _ & _ & Hdate).
  split; [|split].
  - apply (Htext blank_node empty_io). reflexivity.
  - apply (Htitle blank_node empty_io). reflexivity.
  - apply (Hdate no_date blank_node empty_io). reflexivity.
Defined.

(** C7, as stated, fails: on a page without a headline rambler's
    [_parse_title] returns [None], not the empty string, and on a page
    without a [time] element rbc's [_parse_date] does the same. *)
Lemma parse_title_returns_None_when_absent :
  fst (Rambler._parse_title blank_node empty_io) = Returns VNone
  /\ fst (Rambler._parse_title blank_node empty_io) <> Returns (VStr [])
  /\ fst (Rbc._parse_date no_date blank_node empty_io) = Returns VNone
  /\ fst (Rbc._parse_date no_date blank_node empty_io) <> Returns (VStr []).
Proof. repeat split; discriminate. Qed.

(** ** ria's text: the first sentence goes, the rest is stripped *)

Lemma split_once_at_first (sep : N) (pre rest : pystr) :
  sep ∉ pre -> split_once sep (pre ++ sep :: rest) = [pre; rest].
Proof.
  induction pre as [|c pre IH]; intros Hpre; cbn.
  - rewrite N.eqb_refl. reflexivity.
  - apply not_elem_of_cons in Hpre as [Hc Hpre].
    destruct (N.eqb_spec c sep) as [->|_]; [contradiction|].
    rewrite IH by exact Hpre. reflexivity.
Qed.

Lemma split_once_without (sep : N) (s : pystr) :
  sep ∉ s -> split_once sep s = [s].
Proof.
  induction s as [|c s IH]; intros Hs; cbn; [reflexivity|].
  apply not_elem_of_cons in Hs as [Hc Hs].
  destruct (N.eqb_spec c sep) as [->|_]; [contradiction|].
  rewrite IH by exact Hs. reflexivity.
Qed.

Lemma lstrip_spec (s : pystr) :
  exists l,
    s = l ++ lstrip s
    /\ forallb isspace l = true
    /\ (forall c, head (lstrip s) = Some c -> isspace c = false).
Proof.
  induction s as [|c s (l & Hs & Hl & Hhead)].
  - exists []. cbn. repeat split. discriminate.
  - cbn [lstrip]. destruct (isspace c) eqn:Hc.
    + exists (c :: l). cbn. rewrite Hc, Hl, <- Hs. repeat split. exact Hhead.
    + exists []. cbn. repeat split. intros c' [= <-]. exact Hc.
Qed.

Lemma last_rev_head {A} (l : list A) : last (rev l) = head l.
Proof.
  destruct l as [|a l]; [reflexivity|].
  cbn [rev]. apply last_snoc.
Qed.

Lemma forallb_rev {A} (f : A -> bool) (l : list A) :
  forallb f (rev l) = forallb f l.
Proof.
  induction l as [|a l IH]; [reflexivity|].
  cbn. rewrite forallb_app, IH. cbn. rewrite andb_true_r. apply andb_comm.
Qed.

Lemma strip_spec (s : pystr) :
  exists l r,
    s = l ++ strip s ++ r
    /\ forallb isspace l = true
    /\ forallb isspace r = true
    /\ (forall c, head (strip s) = Some c -> isspace c = false)
    /\ (forall c, last (strip s) = Some c -> isspace c = false).
Proof.
  unfold strip, rstrip.
  destruct (lstrip_spec s) as (l & Hs & Hl & Hhead).
  destruct (lstrip_spec (rev (lstrip s))) as (r & Hrev & Hr & Hlast).
  assert (Hmid : lstrip s = rev (lstrip (rev (lstrip s))) ++ rev r).
  { rewrite <- rev_app_distr, <- Hrev, rev_involutive. reflexivity. }
  exists l, (rev r). split; [|split; [|split; [|split]]].
  - rewrite <- Hmid. exact Hs.
  - exact Hl.
  - rewrite forallb_rev. exact Hr.
  - intros c Hc. apply Hhead. rewrite Hmid.
    destruct (rev (lstrip (rev (lstrip s)))); [discriminate|exact Hc].
  - intros c Hc. apply Hlast. rewrite <- last_rev_head. exact Hc.
Qed.

Lemma ria_join_paragraphs_from (paragraphs : list Node) : forall acc,
  fold_left
    (fun article_text paragraph =>
       if 0 <? List.length (node_text paragraph)
       then article_text ++ re_sub (node_text paragraph)
       else article_text)
    paragraphs acc
  = acc ++ List.concat (List.map (fun paragraph => re_sub (node_text paragraph)) paragraphs).
Proof.
  induction paragraphs as [|paragraph paragraphs IH]; intros acc; cbn [fold_left].
  - cbn [List.map List.concat]. rewrite app_nil_r. reflexivity.
  - rewrite IH. cbn [List.map List.concat].
    destruct (node_text paragraph) as [|c text].
    + change (re_sub []) with (@nil N). rewrite app_nil_l. reflexivity.
    + change (0 <? List.length (c :: text)) with true. cbv iota.
      rewrite app_assoc. reflexivity.
Qed.

Lemma ria_join_paragraphs_concat (paragraphs : list Node) :
  Ria.join_paragraphs paragraphs
  = List.concat (List.map (fun paragraph => re_sub (node_text paragraph)) paragraphs).
Proof. unfold Ria.join_paragraphs. apply ria_join_paragraphs_from. Qed.

(** C10, as amended: ria's [_parse_text] never raises.  With the texts of
    the paragraphs of the content block put together, whitespace runs
    replaced by blanks, it returns what follows the first full stop,
    stripped of the whitespace at both ends; without a full stop, or
    without a content block, it returns the empty string. *)
Theorem ria_parse_text_drops_first_sentence_and_strips :
  (forall html io block pre rest,
     css_first html ".layout-article__main-over" = Some block ->
     Ria.join_paragraphs (css block ".article__text") = pre ++ 46%N :: rest ->
     46%N ∉ pre ->
     fst (Ria._parse_text html io) = Returns (VStr (strip rest)))
  /\ (forall html io block,
     css_first html ".layout-article__main-over" = Some block ->
     46%N ∉ Ria.join_paragraphs (css block ".article__text") ->
     fst (Ria._parse_text html io) = Returns (VStr []))
  /\ (forall html io,
     css_first html ".layout-article__main-over" = None ->
     fst (Ria._parse_text html io) = Returns (VStr []))
  /\ (forall paragraphs,
     Ria.join_paragraphs paragraphs
     = List.concat (List.map (fun paragraph => re_sub (node_text paragraph)) paragraphs))
  /\ (forall s, exists l r,
     s = l ++ strip s ++ r
     /\ forallb isspace l = true
     /\ forallb isspace r = true
     /\ (forall c, head (strip s) = Some c -> isspace c = false)
     /\ (forall c, last (strip s) = Some c -> isspace c = false)).
Proof.
  split; [|split; [|split; [|split]]].
  - intros html io block pre rest Hblock Htext Hpre.
    unfold Ria._parse_text, try_except, bind, css_of, index.
    rewrite Hblock. cbn [ret]. rewrite Htext, split_once_at_first by exact Hpre.
    reflexivity.
  - intros html io block Hblock Htext.
    unfold Ria._parse_text, try_except, bind, css_of, index.
    rewrite Hblock. cbn [ret]. rewrite split_once_without by exact Htext.
    reflexivity.
  - intros html io Hblock.
    unfold Ria._parse_text. rewrite Hblock. reflexivity.
  - apply ria_join_paragraphs_concat.
  - apply strip_spec.
Qed.

Lemma ria_parse_text_witness :
  fst (Ria._parse_text (ria_article [py "Intro. Body "; py "more."]) empty_io)
  = Returns (VStr (strip (py " Body more."))).
Proof.
  apply (proj1 ria_parse_text_drops_first_sentence_and_strips
           (ria_article [py "Intro. Body "; py "more."]) empty_io
           (MkNode [] ∅ (fun selector' =>
              if String.eqb selector' ".article__text"
              then List.map leaf [py "Intro. Body "; py "more."] else []))
           (py "Intro") (py " Body more.")).
  - reflexivity.
  - reflexivity.
  - vm_compute. intros Hin. repeat (apply elem_of_cons in Hin as [Hin|Hin];
      [discriminate Hin|]). apply elem_of_nil in Hin. exact Hin.
Defined.

(** C10, as stated, fails: of a text "Intro. Body" the function returns
    "Body", not " Body", which is what is left when everything up to and
    including the first full stop is removed. *)
Lemma ria_parse_text_also_strips :
  Ria.join_paragraphs (List.map leaf [py "Intro. Body"])
  = py "Intro" ++ 46%N :: py " Body"
  /\ fst (Ria._parse_text (ria_article [py "Intro. Body"]) empty_io)
     = Returns (VStr (py "Body"))
  /\ fst (Ria._parse_text (ria_article [py "Intro. Body"]) empty_io)
     <> Returns (VStr (py " Body")).
Proof. repeat split. discriminate. Qed.

(** ** Fetch failures do not stop the batch, and leave an empty record *)

Lemma page_row_more (http : Http) (url : pyval) (row : pyrow)
    (before msgs after : list diag) :
  page_row http url row msgs -> page_row http url row (before ++ msgs ++ after).
Proof.
  unfold page_row. destruct (fetch_failure http url) as [e|]; [|auto].
  intros [-> Hin]. split; [reflexivity|].
  apply elem_of_app. right. apply elem_of_app. left. exact Hin.
Qed.

(** The three field parsers one after the other, then the dict. *)
Lemma record_built (title date text_ : Node -> St IO pyval) (html : Node) (io : IO) :
  never_raises title -> never_raises date -> never_raises text_ ->
  exists t d x msgs,
    (title_value <- title html ;;
     publication_date <- date html ;;
     article_text <- text_ html ;;
     ret (record_of title_value publication_date article_text)) io
    = (Returns (record_of t d x), wrote [] msgs io).
Proof.
  intros Htitle Hdate Htext. unfold bind.
  destruct (Htitle html io) as (t & m1 & ->).
  destruct (Hdate html (wrote [] m1 io)) as (d & m2 & ->).
  destruct (Htext html (wrote [] m2 (wrote [] m1 io))) as (x & m3 & ->).
  exists t, d, x, (m1 ++ m2 ++ m3). unfold ret.
  rewrite !wrote_wrote. cbn [app]. rewrite <- ?app_assoc. reflexivity.
Qed.

Lemma rambler_parse_page_spec (iso_to_dmy : pystr -> option pystr)
    (http : Http) (url : pyval) (io : IO) :
  catchable http url = true ->
  exists row msgs,
    Rambler._parse_page iso_to_dmy http url io = (Returns row, wrote [] msgs io)
    /\ page_row http url row msgs.
Proof.
  unfold catchable, page_row, fetch_failure.
  unfold Rambler._parse_page, try_except, session_get, response_text, of_result.
  unfold bind at 1.
  destruct (http url) as [response|e].
  - unfold bind at 1. destruct (text response) as [html|e].
    + intros _.
      destruct (record_built Rambler._parse_title (Rambler._parse_date iso_to_dmy)
                  Rambler._parse_text html io) as (t & d & x & msgs & ->);
        auto using rambler_parse_title_total, rambler_parse_date_total,
          rambler_parse_text_total.
      exists (record_of t d x), msgs. eauto.
    + intros ->. exists (RowDict ∅), [DiagError e].
      unfold bind. rewrite print_wrote. split; [reflexivity|].
      split; [reflexivity|]. apply list_elem_of_singleton. reflexivity.
  - intros ->. exists (RowDict ∅), [DiagError e].
    unfold bind. rewrite print_wrote. split; [reflexivity|].
    split; [reflexivity|]. apply list_elem_of_singleton. reflexivity.
Qed.

Lemma ria_parse_page_spec (findall_date : pystr -> list pystr)
    (http : Http) (url : pyval) (io : IO) :
  catchable http url = true ->
  exists row msgs,
    Ria._parse_page findall_date http url io = (Returns row, wrote [] msgs io)
    /\ page_row http url row msgs.
Proof.
  unfold catchable, page_row, fetch_failure.
  unfold Ria._parse_page, try_except, session_get, response_text, of_result.
  unfold bind at 1.
  destruct (http url) as [response|e].
  - unfold bind at 1. destruct (text response) as [html|e].
    + intros _.
      destruct (record_built Ria._parse_title (Ria._parse_date findall_date)
                  Ria._parse_text html io) as (t & d & x & msgs & ->);
        auto using ria_parse_title_total, ria_parse_date_total,
          ria_parse_text_total.
      exists (record_of t d x), msgs. eauto.
    + intros ->. exists (RowDict ∅), [DiagError e].
      unfold bind. rewrite print_wrote. split; [reflexivity|].
      split; [reflexivity|]. apply list_elem_of_singleton. reflexivity.
  - intros ->. exists (RowDict ∅), [DiagError e].
    unfold bind. rewrite print_wrote. split; [reflexivity|].
    split; [reflexivity|]. apply list_elem_of_singleton. reflexivity.
Qed.

Lemma page_rows_more (http : Http) (urls : list pyval) (rows : list pyrow)
    (before msgs after : list diag) :
  Forall2 (fun url row => page_row http url row msgs) urls rows ->
  Forall2 (fun url row => page_row http url row (before ++ msgs ++ after)) urls rows.
Proof.
  intros Hrows. eapply Forall2_impl; [exact Hrows|].
  intros url row. apply page_row_more.
Qed.

Lemma rambler_parse_data_spec (iso_to_dmy : pystr -> option pystr) (http : Http)
    (urls : list pyval) : forall io,
  forallb (catchable http) urls = true ->
  exists rows msgs,
    Rambler.parse_data iso_to_dmy http urls io = (Returns rows, wrote [] msgs io)
    /\ Forall2 (fun url row => page_row http url row msgs) urls rows.
Proof.
  unfold Rambler.parse_data.
  induction urls as [|url urls IH]; intros io Hok.
  - exists [], []. cbn. rewrite wrote_nothing. split; [reflexivity|constructor].
  - cbn [forallb] in Hok. apply andb_true_iff in Hok as [Hurl Hurls].
    cbn [gather]. unfold bind at 1.
    destruct (rambler_parse_page_spec iso_to_dmy http url io Hurl)
      as (row & m1 & -> & Hrow).
    unfold bind at 1.
    destruct (IH (wrote [] m1 io) Hurls) as (rows & m2 & -> & Hrows).
    exists (row :: rows), (m1 ++ m2). unfold ret. rewrite wrote_wrote.
    split; [reflexivity|]. constructor.
    + apply (page_row_more http url row [] m1 m2). exact Hrow.
    + rewrite <- (app_nil_r m2). apply page_rows_more. exact Hrows.
Qed.

Lemma ria_parse_loop_spec (findall_date : pystr -> list pystr) (http : Http)
    (urls : list pyval) : forall parsed_data last io,
  forallb (catchable http) urls = true ->
  exists rows msgs,
    Ria.parse_loop findall_date http urls parsed_data last io
    = (Returns (parsed_data ++ rows), wrote [] msgs io)
    /\ Forall2 (fun url row => page_row http url row msgs) urls rows.
Proof.
  induction urls as [|url urls IH]; intros parsed_data last io Hok.
  - exists [], []. cbn. rewrite wrote_nothing, app_nil_r.
    split; [reflexivity|constructor].
  - cbn [forallb] in Hok. apply andb_true_iff in Hok as [Hurl Hurls].
    cbn [Ria.parse_loop]. unfold bind at 1.
    destruct (ria_parse_page_spec findall_date http url io Hurl)
      as (row & m1 & -> & Hrow).
    unfold bind at 1. rewrite print_wrote.
    destruct (IH (parsed_data ++ [row]) (last - 1)
                (wrote [] [DiagRemaining (last - 1)] (wrote [] m1 io)) Hurls)
      as (rows & m2 & -> & Hrows).
    exists (row :: rows), (m1 ++ DiagRemaining (last - 1) :: m2).
    rewrite !wrote_wrote, <- !app_assoc. cbn [app].
    split; [reflexivity|]. constructor.
    + apply (page_row_more http url row [] m1 (DiagRemaining (last - 1) :: m2)).
      exact Hrow.
    + apply (page_rows_more http urls rows (m1 ++ [DiagRemaining (last - 1)]) m2 [])
        in Hrows.
      rewrite app_nil_r, <- app_assoc in Hrows. exact Hrows.
Qed.

(** The empty dict is a record like any other to the writer: it has no
    [None] value, and its line is made of empty cells. *)
Lemma rambler_writes_empty_record (fieldnames : list pystr) (io : IO) :
  Rambler.write_data fieldnames [RowDict ∅] io
  = (Returns tt, wrote [fieldnames; List.map (fun _ => []) fieldnames] [] io).
Proof.
  unfold Rambler.write_data, DictWriter.writeheader, bind.
  rewrite write_line_wrote, rambler_for_each_rows by reflexivity.
  rewrite wrote_wrote. reflexivity.
Qed.

(** C4, as amended: when every fetch that fails fails with an [Exception]
    (a network failure, a timeout), rambler's and ria's [parse_data] returns
    one entry for every address, in the order of the addresses: the empty
    dict for an address whose fetch failed, with the error logged, and a
    record with the four fields for every other address.  The batch is not
    cut short. *)
Theorem parse_data_keeps_going_with_empty_records :
  (forall iso_to_dmy http urls io,
     forallb (catchable http) urls = true ->
     exists rows msgs,
       Rambler.parse_data iso_to_dmy http urls io = (Returns rows, wrote [] msgs io)
       /\ List.length rows = List.length urls
       /\ Forall2 (fun url row => page_row http url row msgs) urls rows)
  /\ (forall findall_date http urls io,
     forallb (catchable http) urls = true ->
     exists rows msgs,
       Ria.parse_data findall_date http urls io = (Returns rows, wrote [] msgs io)
       /\ List.length rows = List.length urls
       /\ Forall2 (fun url row => page_row http url row msgs) urls rows).
Proof.
  split.
  - intros iso_to_dmy http urls io Hok.
    destruct (rambler_parse_data_spec iso_to_dmy http urls io Hok)
      as (rows & msgs & Hrun & Hrows).
    exists rows, msgs. split; [exact Hrun|]. split; [|exact Hrows].
    symmetry. apply (Forall2_length _ _ _ Hrows).
  - intros findall_date http urls io Hok. unfold Ria.parse_data.
    destruct (ria_parse_loop_spec findall_date http urls [] (List.length urls) io Hok)
      as (rows & msgs & Hrun & Hrows).
    exists rows, msgs. split; [exact Hrun|]. split; [|exact Hrows].
    symmetry. apply (Forall2_length _ _ _ Hrows).
Qed.

Lemma parse_data_keeps_going_witness :
  exists rows msgs,
    Rambler.parse_data no_date http_down [some_url; VNone] empty_io
    = (Returns rows, wrote [] msgs empty_io)
    /\ List.length rows = List.length [some_url; VNone]
    /\ Forall2 (fun url row => page_row http_down url row msgs) [some_url; VNone] rows.
Proof.
  apply (proj1 parse_data_keeps_going_with_empty_records
           no_date http_down [some_url; VNone] empty_io).
  reflexivity.
Defined.

(** C4, as stated, fails: the address whose fetch fails does get an entry in
    what [parse_data] hands to the writer, the empty dict, and the writer
    puts a line of four empty cells into the file for it; so for rambler
    and for ria. *)
Lemma failed_fetch_leaves_empty_record :
  Rambler.parse_data no_date http_down [some_url] empty_io
  = (Returns [RowDict ∅], {| csv_file := []; console := [DiagError ClientError] |})
  /\ Rambler.write_data Rambler.CSV_HEADERS [RowDict ∅] empty_io
  = (Returns tt,
     {| csv_file := [Rambler.CSV_HEADERS; [[]; []; []; []]]; console := [] |})
  /\ Ria.parse_data no_match http_down [some_url] empty_io
  = (Returns [RowDict ∅],
     {| csv_file := []; console := [DiagError ClientError; DiagRemaining 0] |})
  /\ Ria.write_data Ria.CSV_HEADERS [RowDict ∅] empty_io
  = (Returns tt,
     {| csv_file := [Ria.CSV_HEADERS; [[]; []; []; []]]; console := [] |}).
Proof. repeat split; vm_compute; reflexivity. Qed.

(** The status of an answer is never looked at: the error page of a 500 is
    parsed like an article, here into a record without title and date. *)
Lemma http_500_is_parsed :
  fst (Rambler.parse_data no_date http_500 [some_url] empty_io)
  = Returns [record_of VNone VNone (VStr [])].
Proof. vm_compute. reflexivity. Qed.

(** * Further properties *)

(** ** What the collectors return *)

Lemma append_hrefs_all (hrefs : list pyval) : forall urls,
  append_hrefs urls (List.map Returns hrefs) = (urls ++ hrefs, None).
Proof.
  induction hrefs as [|href hrefs IH]; intros urls; cbn.
  - rewrite app_nil_r. reflexivity.
  - rewrite IH, <- app_assoc. reflexivity.
Qed.

Lemma append_hrefs_until (pre : list pyval) (e : exn) (rest : list (result pyval)) :
  forall urls,
  append_hrefs urls (List.map Returns pre ++ Raises e :: rest) = (urls ++ pre, Some e).
Proof.
  induction pre as [|href pre IH]; intros urls; cbn.
  - rewrite app_nil_r. reflexivity.
  - rewrite IH, <- app_assoc. reflexivity.
Qed.

(** Where rambler's loop stands when it has found the date. *)
Lemma rambler_loop_exit_state (j : nat) : forall (d : Driver) (fuel : nat),
  (forall i, i < j -> rambler_idle_round (timeline d) (clock d) i = true) ->
  seen Rambler.TARGET_DATE (timeline d (clock d + 3 * j)) = true ->
  j < fuel ->
  exists d',
    Rambler.scroll_loop fuel d = Finished (Returns tt) d'
    /\ timeline d' = timeline d
    /\ clock d' = clock d + 3 * j + 1.
Proof.
  induction j as [|j IH]; intros d fuel Hidle Hseen Hfuel.
  - destruct fuel as [|fuel]; [lia|].
    replace (clock d + 3 * 0) with (clock d) in Hseen by lia.
    apply seen_poll in Hseen.
    cbn [Rambler.scroll_loop]. rewrite rambler_oracle_spec.
    unfold current. rewrite Hseen.
    eexists. split; [reflexivity|]. cbn. split; [reflexivity|lia].
  - destruct fuel as [|fuel]; [lia|].
    destruct (rambler_idle_step d fuel) as (d1 & -> & Htl & Hck).
    { apply Hidle. lia. }
    destruct (IH d1 fuel) as (d' & Hrun & Htl' & Hck').
    + intros i Hi. rewrite Htl, Hck, rambler_idle_shift. apply Hidle. lia.
    + rewrite Htl, Hck.
      replace (clock d + 3 + 3 * j) with (clock d + 3 * S j) by lia. exact Hseen.
    + lia.
    + exists d'. split; [exact Hrun|]. split; [congruence|lia].
Qed.

(** X1: rambler's [collect_urls] returns the hrefs of the links that the
    page lists right after the look that found the target date, all of them
    and in document order; an empty list when there is none.  Here the
    navigation succeeds, [j] rounds go by without the date and without an
    exception, and the fuel covers the [j + 1] looks. *)
Theorem rambler_collect_urls_returns_links
    (tl : nat -> Page) (j fuel : nat) (hrefs : list pyval) :
  nav_outcome (tl 0) = None ->
  nav_outcome (tl 1) = None ->
  (forall i, i < j -> rambler_idle_round tl 2 i = true) ->
  seen Rambler.TARGET_DATE (tl (2 + 3 * j)) = true ->
  links_outcome (tl (2 + 3 * j + 1)) = Returns (List.map Returns hrefs) ->
  j < fuel ->
  exists d, Rambler.collect_urls fuel tl = Finished (Returns hrefs) d.
Proof.
  intros H0 H1 Hidle Hseen Hlinks Hfuel.
  unfold Rambler.collect_urls, bind, get, maximize_window, current.
  cbn [new_driver timeline clock]. rewrite H0.
  cbn [of_outcome ret tick new_driver timeline clock]. rewrite H1.
  cbn [of_outcome ret].
  set (d0 := tick EvMaximize _).
  destruct (rambler_loop_exit_state j d0 fuel) as (d1 & -> & Htl & Hck);
    try assumption.
  unfold Rambler.read_links, bind, find_elements, current.
  rewrite Htl, Hck. cbn [d0 tick timeline clock new_driver].
  rewrite Hlinks, append_hrefs_all. cbn [ret app].
  eexists. reflexivity.
Qed.

Lemma rambler_collect_urls_returns_links_witness :
  exists d,
    Rambler.collect_urls 2 (rambler_archive 5)
    = Finished (Returns [VStr (py "https://a/1")]) d.
Proof.
  apply (rambler_collect_urls_returns_links (rambler_archive 5) 1 2
           [VStr (py "https://a/1")]);
    try reflexivity; try lia.
  intros i Hi. assert (i = 0) as -> by lia. reflexivity.
Defined.

(** ** An interrupt ends ria's and rbc's loop quietly *)

Lemma not_keyboard_interrupt (e : exn) :
  isinstance_KeyboardInterrupt e = false -> e <> KeyboardInterrupt.
Proof. intros He ->. discriminate He. Qed.





(** X3: an interrupt that comes while rbc's loop scrolls makes the loop
    return the addresses it holds, none at the start; an interrupt that comes
    while the links are read, after the date was seen, makes it return the
    addresses read before the interrupt. *)
Theorem rbc_interrupt_returns_what_was_gathered :
  (forall fuel st d,
     Rbc.scroll_complete st = false ->
     script_outcome (current d) = Some KeyboardInterrupt ->
     exists d',
       Rbc.scroll_loop (S fuel) st d = Finished (Returns (Rbc.article_urls st)) d')
  /\ (forall fuel st d pre rest,
     Rbc.scroll_complete st = false ->
     scrolls (timeline d (clock d)) = true ->
     seen Rbc.TARGET_DATE (timeline d (clock d + 1)) = true ->
     links_outcome (timeline d (clock d + 2))
       = Returns (List.map Returns pre ++ Raises KeyboardInterrupt :: rest) ->
     exists d',
       Rbc.scroll_loop (S fuel) st d
       = Finished (Returns (Rbc.article_urls st ++ pre)) d').
Proof.
  split.
  - intros fuel st d Hflag Hscript.
    cbn [Rbc.scroll_loop]. rewrite Hflag.
    unfold Rbc.loop_body, Rbc._scroll_to_bottom, execute_script.
    rewrite Hscript. cbn. eexists. reflexivity.
  - intros fuel st d pre rest Hflag Hs Hseen Hlinks.
    replace (clock d + 1) with (S (clock d)) in Hseen by lia.
    replace (clock d + 2) with (S (S (clock d))) in Hlinks by lia.
    apply seen_poll in Hseen. apply scrolls_outcome in Hs.
    cbn [Rbc.scroll_loop]. rewrite Hflag.
    unfold Rbc.loop_body, Rbc._scroll_to_bottom, execute_script, current.
    rewrite Hs. cbn [of_outcome ret].
    unfold Rbc.poll_step. rewrite wait_for_text_spec.
    unfold current at 1. cbn [tick timeline clock]. rewrite Hseen.
    unfold find_elements, current. cbn [tick timeline clock].
    rewrite Hlinks. cbn [Rbc.article_urls]. rewrite append_hrefs_until.
    cbn. eexists. reflexivity.
Qed.

Lemma rbc_interrupt_returns_what_was_gathered_witness :
  exists d',
    Rbc.scroll_loop 1 (rbc_state [VNone])
      (new_driver (fun n => if n <? 1 then blank_page else interrupted_page))
    = Finished (Returns ([VNone] ++ [some_url])) d'.
Proof.
  apply (proj2 rbc_interrupt_returns_what_was_gathered 0 (rbc_state [VNone])
           (new_driver (fun n => if n <? 1 then blank_page else interrupted_page))
           [some_url] [Returns some_url]);
    reflexivity.
Defined.

(** ** ria's loop has no ceiling either *)

Lemma ria_calm_facts (p : Page) :
  ria_calm p = true ->
  script_outcome p = None
  /\ poll Ria.TARGET_DATE p = Returns false
  /\ match button_outcome p with
     | Returns _ => True
     | Raises e => isinstance_WebDriverException e = true
     end
  /\ match click_outcome p with
     | None => True
     | Some e => isinstance_WebDriverException e = true
     end.
Proof.
  unfold ria_calm. rewrite !andb_true_iff. intros [[[Hs Hq] Hb] Hc].
  split; [apply scrolls_outcome; exact Hs|].
  split; [apply quiet_poll; exact Hq|].
  split.
  - destruct (button_outcome p); [exact I|exact Hb].
  - destruct (click_outcome p); [exact Hc|exact I].
Qed.

(** On calm pages [_click_more_button] returns, having moved on by one or
    two commands. *)
Lemma ria_click_more_button_calm (d : Driver) :
  (forall n, ria_calm (timeline d n) = true) ->
  exists d',
    Ria._click_more_button d = (Returns tt, d')
    /\ timeline d' = timeline d.
Proof.
  intros Hcalm.
  destruct (ria_calm_facts _ (Hcalm (clock d))) as (_ & _ & Hb & _).
  destruct (ria_calm_facts _ (Hcalm (S (clock d)))) as (_ & _ & _ & Hc).
  unfold Ria._click_more_button, try_except, bind, Selenium.until,
    Selenium.visibility_of_element_located, try_except, bind,
    find_button_displayed, click, logger_error, ret, current in *.
  destruct (button_outcome (timeline d (clock d))) as [[|]|e]; cbn.
  - destruct (click_outcome (timeline d (S (clock d)))) as [e|]; cbn.
    + rewrite Hc. eexists. split; reflexivity.
    + eexists. split; reflexivity.
  - eexists. split; reflexivity.
  - destruct e; try discriminate Hb; cbn; eexists; split; reflexivity.
Qed.

Lemma ria_calm_round (st : Ria.LoaderState) (d : Driver) :
  (forall n, ria_calm (timeline d n) = true) ->
  exists st' d',
    Ria.loop_body st d = (Continue st', d')
    /\ timeline d' = timeline d
    /\ Ria.scroll_complete st' = Ria.scroll_complete st.
Proof.
  intros Hcalm.
  destruct (ria_calm_facts _ (Hcalm (clock d))) as (Hs & _).
  unfold Ria.loop_body, Ria._scroll_to_bottom, execute_script, current.
  rewrite Hs. cbn [of_outcome ret].
  set (d1 := tick _ d).
  assert (Hcalm1 : forall n, ria_calm (timeline d1 n) = true) by exact Hcalm.
  assert (Hpoll : forall st1 d2, timeline d2 = timeline d ->
            Ria.poll_step st1 d2
            = (Continue st1, tick (EvBodyText (body_outcome (current d2))) d2)).
  { intros st1 d2 Htl. unfold Ria.poll_step. rewrite wait_for_text_spec.
    destruct (ria_calm_facts (current d2)) as (_ & -> & _).
    { unfold current. rewrite Htl. apply Hcalm. }
    reflexivity. }
  unfold Ria.click_step.
  destruct (Ria.button_clicked st).
  - rewrite Hpoll by reflexivity. eexists _, _. repeat split.
  - destruct (ria_click_more_button_calm d1 Hcalm1) as (d2 & -> & Htl).
    rewrite Hpoll by exact Htl. eexists _, _. split; [reflexivity|].
    split; [exact Htl|reflexivity].
Qed.

(** X4: ria's scroll loop has no iteration ceiling either: on pages where
    scripts run, the date never shows and the button gives at most Selenium
    errors, the loop has not ended after any number of rounds. *)
Theorem ria_loop_never_ends_without_date
    (fuel : nat) (st : Ria.LoaderState) (d : Driver) :
  Ria.scroll_complete st = false ->
  (forall n, ria_calm (timeline d n) = true) ->
  finished (Ria.scroll_loop fuel st d) = false.
Proof.
  revert st d. induction fuel as [|fuel IH]; intros st d Hflag Hcalm;
    [reflexivity|].
  cbn [Ria.scroll_loop]. rewrite Hflag.
  destruct (ria_calm_round st d Hcalm) as (st' & d' & -> & Htl & Hflag').
  apply IH; [congruence|]. rewrite Htl. exact Hcalm.
Qed.

Lemma ria_loop_never_ends_witness :
  finished (Ria.scroll_loop 9 Ria.initial (new_driver endless_archive)) = false.
Proof.
  apply (ria_loop_never_ends_without_date 9 Ria.initial (new_driver endless_archive)).
  - reflexivity.
  - intros n. reflexivity.
Defined.

(** ** From a page to a line of the file *)

Lemma headers_agree :
  Ria.CSV_HEADERS = Rambler.CSV_HEADERS /\ Rbc.CSV_HEADERS = Rambler.CSV_HEADERS.
Proof. split; reflexivity. Qed.

Lemma fits_record_of (title publication_date article_text : pyval) :
  fits Rambler.CSV_HEADERS (record_of title publication_date article_text) = true.
Proof.
  unfold fits, record_of. apply bool_decide_eq_true.
  assert (Hkey : forall key, In key Rambler.CSV_HEADERS -> key ∈ Rambler.CSV_HEADERS).
  { intros key. apply list_elem_of_In. }
  apply map_Forall_insert_2; [apply Hkey; cbn; auto|].
  apply map_Forall_insert_2; [apply Hkey; cbn; auto|].
  apply map_Forall_insert_2; [apply Hkey; cbn; auto|].
  apply map_Forall_insert_2; [apply Hkey; cbn; auto|].
  apply map_Forall_empty.
Qed.

Lemma fits_empty_record (fieldnames : list pystr) :
  fits fieldnames (RowDict ∅) = true.
Proof. unfold fits. apply bool_decide_eq_true. apply map_Forall_empty. Qed.

(** A record of [_parse_page] holds a [None] exactly when one of the three
    parsed values is [None]. *)
Lemma holds_None_record_of (title publication_date article_text : pyval) :
  holds_None (record_of title publication_date article_text)
  = is_None title || is_None publication_date || is_None article_text.
Proof.
  unfold holds_None, record_of.
  rewrite <- (negb_involutive (_ || _ || _)). f_equal.
  rewrite !negb_orb. apply Bool.eq_iff_eq_true.
  rewrite bool_decide_eq_true, !andb_true_iff, !negb_true_iff.
  rewrite !map_Forall_insert
    by (rewrite ?lookup_insert_ne by discriminate; apply lookup_empty).
  split.
  - intros (Ht & _ & Hd & Hx & _).
    destruct title, publication_date, article_text; cbn; auto; congruence.
  - intros [[Ht Hd] Hx].
    destruct title, publication_date, article_text; try discriminate.
    repeat split; try discriminate; try apply map_Forall_empty.
Qed.

Lemma rambler_write_data_rows (fieldnames : list pystr) (data : list pyrow) (io : IO) :
  forallb (fits fieldnames) data = true ->
  Rambler.write_data fieldnames data io
  = (Returns tt,
     wrote (fieldnames ::
              flat_map (fun row => if holds_None row then []
                                   else [cells fieldnames row]) data)
           (flat_map (fun row => if holds_None row then [DiagSkipped row]
                                 else []) data) io).
Proof.
  intros Hfits. unfold Rambler.write_data, DictWriter.writeheader, bind.
  rewrite write_line_wrote, rambler_for_each_rows by exact Hfits.
  rewrite wrote_wrote. reflexivity.
Qed.

Lemma logged_wrote (msg : diag) (io : IO) :
  {| csv_file := csv_file io; console := console io ++ [msg] |} = wrote [] [msg] io.
Proof. unfold wrote. rewrite app_nil_r. reflexivity. Qed.

(** What rambler's parsers return, with the cases in which the value is
    [None]. *)
Lemma rambler_parse_title_value (html : Node) (io : IO) :
  exists value,
    Rambler._parse_title html io = (Returns value, io)
    /\ (value = VNone <-> css_first html "h1#headline" = None).
Proof.
  unfold Rambler._parse_title, try_except.
  destruct (css_first html "h1#headline"); cbn; eexists;
    (split; [reflexivity|]); split; congruence.
Qed.

Lemma rambler_parse_date_value (iso_to_dmy : pystr -> option pystr)
    (html : Node) (io : IO) :
  exists value msgs,
    Rambler._parse_date iso_to_dmy html io = (Returns value, wrote [] msgs io)
    /\ (value = VNone <-> css_first html "time" = None).
Proof.
  unfold Rambler._parse_date, try_except, bind, fromisoformat_strftime.
  destruct (css_first html "time") as [element|]; cbn.
  - destruct (attributes_get element "datetime") as [|s]; cbn.
    + eexists _, [_]. rewrite logged_wrote.
      split; [reflexivity|]. split; congruence.
    + destruct (iso_to_dmy s); cbn.
      * eexists _, []. rewrite wrote_nothing.
        split; [reflexivity|]. split; congruence.
      * eexists _, [_]. rewrite logged_wrote.
        split; [reflexivity|]. split; congruence.
  - eexists _, []. rewrite wrote_nothing. split; [reflexivity|]. split; congruence.
Qed.

Lemma rambler_parse_text_value (html : Node) (io : IO) :
  exists s msgs,
    Rambler._parse_text html io = (Returns (VStr s), wrote [] msgs io).
Proof.
  unfold Rambler._parse_text, try_except, bind, css_of.
  destruct (css_first html "._2mfTS"); cbn.
  - eexists _, []. rewrite wrote_nothing. reflexivity.
  - eexists _, [_]. rewrite logged_wrote. reflexivity.
Qed.

(** X5: a rambler page that was fetched gets a line in the file exactly
    when it has both a headline and a [time] element; a page that lacks one
    of them is skipped with a message.  [_parse_page] returns a record [row]
    for the page, and [write_data] given [row] writes the header and then
    the line of [row] in the first case, the header alone and the "skipped"
    message in the second. *)
Theorem rambler_page_written_iff_headline_and_time
    (iso_to_dmy : pystr -> option pystr) (http : Http) (url : pyval)
    (response : Response) (html : Node) (io : IO) :
  http url = Returns response ->
  text response = Returns html ->
  exists row msgs,
    Rambler._parse_page iso_to_dmy http url io = (Returns row, wrote [] msgs io)
    /\ (css_first html "h1#headline" <> None /\ css_first html "time" <> None ->
        forall io',
          Rambler.write_data Rambler.CSV_HEADERS [row] io'
          = (Returns tt,
             wrote [Rambler.CSV_HEADERS; cells Rambler.CSV_HEADERS row] [] io'))
    /\ (css_first html "h1#headline" = None \/ css_first html "time" = None ->
        forall io',
          Rambler.write_data Rambler.CSV_HEADERS [row] io'
          = (Returns tt, wrote [Rambler.CSV_HEADERS] [DiagSkipped row] io')).
Proof.
  intros Hget Htext.
  unfold Rambler._parse_page, try_except, session_get, response_text, of_result.
  unfold bind at 1. rewrite Hget. unfold bind at 1. rewrite Htext.
  unfold bind.
  destruct (rambler_parse_title_value html io) as (t & -> & Ht).
  destruct (rambler_parse_date_value iso_to_dmy html io) as (d & m1 & -> & Hd).
  destruct (rambler_parse_text_value html (wrote [] m1 io)) as (x & m2 & ->).
  unfold ret. rewrite wrote_wrote. cbn [app].
  exists (record_of t d (VStr x)), (m1 ++ m2). split; [reflexivity|].
  assert (Hnone : holds_None (record_of t d (VStr x)) = is_None t || is_None d).
  { rewrite holds_None_record_of. cbn. apply orb_false_r. }
  split.
  - intros [Hhead Htime] io'.
    rewrite rambler_write_data_rows
      by (cbn [forallb]; rewrite fits_record_of; reflexivity).
    cbn [flat_map app]. rewrite Hnone.
    destruct t; [exfalso; apply Hhead, Ht; reflexivity|].
    destruct d; [exfalso; apply Htime, Hd; reflexivity|].
    reflexivity.
  - intros Habsent io'.
    rewrite rambler_write_data_rows
      by (cbn [forallb]; rewrite fits_record_of; reflexivity).
    cbn [flat_map app]. rewrite Hnone.
    assert (Hor : is_None t || is_None d = true).
    { destruct Habsent as [H|H].
      - apply Ht in H. subst t. reflexivity.
      - apply Hd in H. subst d. apply orb_true_r. }
    rewrite Hor. reflexivity.
Qed.

Lemma rambler_page_written_witness :
  exists row msgs,
    Rambler._parse_page same_date
      (http_serving (rambler_article (py "Head") (py "2020-12-03") (py "Text.")))
      some_url empty_io
    = (Returns row, wrote [] msgs empty_io)
    /\ (css_first (rambler_article (py "Head") (py "2020-12-03") (py "Text."))
          "h1#headline" <> None
        /\ css_first (rambler_article (py "Head") (py "2020-12-03") (py "Text."))
             "time" <> None ->
        forall io',
          Rambler.write_data Rambler.CSV_HEADERS [row] io'
          = (Returns tt,
             wrote [Rambler.CSV_HEADERS; cells Rambler.CSV_HEADERS row] [] io'))
    /\ (css_first (rambler_article (py "Head") (py "2020-12-03") (py "Text."))
          "h1#headline" = None
        \/ css_first (rambler_article (py "Head") (py "2020-12-03") (py "Text."))
             "time" = None ->
        forall io',
          Rambler.write_data Rambler.CSV_HEADERS [row] io'
          = (Returns tt, wrote [Rambler.CSV_HEADERS] [DiagSkipped row] io')).
Proof.
  apply (rambler_page_written_iff_headline_and_time same_date
           (http_serving (rambler_article (py "Head") (py "2020-12-03") (py "Text.")))
           some_url
           {| status := 200;
              text := Returns (rambler_article (py "Head") (py "2020-12-03")
                                 (py "Text.")) |});
    reflexivity.
Defined.

(** *** rbc *)

Lemma rbc_join_paragraphs_from (paragraphs : list Node) : forall acc,
  fold_left
    (fun article_text paragraph =>
       article_text ++ re_sub (strip (node_text paragraph)))
    paragraphs acc
  = acc ++ List.concat
             (List.map (fun paragraph => re_sub (strip (node_text paragraph)))
                paragraphs).
Proof.
  induction paragraphs as [|paragraph paragraphs IH]; intros acc; cbn [fold_left].
  - cbn [List.map List.concat]. rewrite app_nil_r. reflexivity.
  - rewrite IH. cbn [List.map List.concat]. rewrite app_assoc. reflexivity.
Qed.

Lemma rbc_parse_text_value (html : Node) (io : IO) :
  Rbc._parse_text html io = (Returns (VStr (rbc_article_text html)), io).
Proof.
  unfold Rbc._parse_text, try_except, rbc_article_text.
  destruct (css_first html Rbc.ARTICLE_BODY_SELECTOR) as [body|]; cbn [ret];
    [|reflexivity].
  unfold Rbc.join_paragraphs. rewrite rbc_join_paragraphs_from. reflexivity.
Qed.

Lemma rbc_parse_page_fetched (iso_to_dmy : pystr -> option pystr) (http : Http)
    (url : pyval) (response : Response) (html : Node) (io : IO) :
  http url = Returns response ->
  text response = Returns html ->
  exists title publication_date msgs,
    Rbc._parse_page iso_to_dmy http url io
    = (Returns (if bool_decide (VStr (rbc_article_text html) = VStr [])
                then RowNone
                else record_of title publication_date
                       (VStr (rbc_article_text html))),
       wrote [] msgs io).
Proof.
  intros Hget Htext.
  unfold Rbc._parse_page, try_except, session_get, response_text, of_result.
  unfold bind at 1. rewrite Hget. unfold bind at 1. rewrite Htext.
  unfold bind.
  destruct (rbc_parse_title_total html io) as (t & m1 & ->).
  destruct (rbc_parse_date_total iso_to_dmy html (wrote [] m1 io)) as (d & m2 & ->).
  rewrite rbc_parse_text_value.
  exists t, d, (m1 ++ m2). rewrite wrote_wrote. cbn [app].
  destruct (bool_decide _); reflexivity.
Qed.

Lemma rbc_write_data_rows (fieldnames : list pystr) (data : list pyrow) (io : IO) :
  forallb (fun row => is_RowNone row || fits fieldnames row) data = true ->
  Rbc.write_data fieldnames data io
  = (Returns tt,
     wrote (fieldnames ::
              flat_map (fun row => if is_RowNone row then []
                                   else [cells fieldnames row]) data)
           (flat_map (fun row => if is_RowNone row then [DiagSkipped row]
                                 else []) data) io).
Proof.
  intros Hfits. unfold Rbc.write_data, DictWriter.writeheader, bind.
  rewrite write_line_wrote, rbc_for_each_rows by exact Hfits.
  rewrite wrote_wrote. reflexivity.
Qed.

Lemma record_of_text (title publication_date article_text : pyval) :
  cells Rambler.CSV_HEADERS (record_of title publication_date article_text) !! 3
  = Some (DictWriter.cell article_text)
  /\ cells Rambler.CSV_HEADERS (record_of title publication_date article_text) !! 1
     = Some str_sberbank.
Proof.
  destruct article_text; split; vm_compute; reflexivity.
Qed.

(** X6: an rbc page that was fetched gets a line in the file exactly when
    its article text is not empty, whatever its title and date are; the text
    is the fourth cell of the line and "Сбербанк" the second.  A page
    without an article body, or with empty paragraphs only, makes
    [_parse_page] return [None], which [write_data] skips with a message. *)
Theorem rbc_page_written_iff_text
    (iso_to_dmy : pystr -> option pystr) (http : Http) (url : pyval)
    (response : Response) (html : Node) (io : IO) :
  http url = Returns response ->
  text response = Returns html ->
  exists row msgs,
    Rbc._parse_page iso_to_dmy http url io = (Returns row, wrote [] msgs io)
    /\ (rbc_article_text html = [] ->
        row = RowNone
        /\ forall io',
             Rbc.write_data Rbc.CSV_HEADERS [row] io'
             = (Returns tt, wrote [Rbc.CSV_HEADERS] [DiagSkipped RowNone] io'))
    /\ (rbc_article_text html <> [] ->
        cells Rbc.CSV_HEADERS row !! 3 = Some (rbc_article_text html)
        /\ cells Rbc.CSV_HEADERS row !! 1 = Some str_sberbank
        /\ forall io',
             Rbc.write_data Rbc.CSV_HEADERS [row] io'
             = (Returns tt, wrote [Rbc.CSV_HEADERS; cells Rbc.CSV_HEADERS row] [] io')).
Proof.
  intros Hget Htext.
  destruct (rbc_parse_page_fetched iso_to_dmy http url response html io Hget Htext)
    as (t & d & msgs & Hrun).
  eexists _, msgs. split; [exact Hrun|].
  split; intros Hempty.
  - rewrite Hempty. rewrite bool_decide_eq_true_2 by reflexivity.
    split; [reflexivity|]. intros io'.
    rewrite rbc_write_data_rows by reflexivity. reflexivity.
  - rewrite bool_decide_eq_false_2 by congruence.
    destruct (record_of_text t d (VStr (rbc_article_text html))) as [H3 H1].
    split; [exact H3|]. split; [exact H1|]. intros io'.
    rewrite rbc_write_data_rows
      by (cbn [forallb is_RowNone record_of orb];
          change Rbc.CSV_HEADERS with Rambler.CSV_HEADERS;
          rewrite fits_record_of; reflexivity).
    reflexivity.
Qed.

Lemma rbc_page_written_witness :
  exists row msgs,
    Rbc._parse_page no_date (http_serving blank_node) some_url empty_io
    = (Returns row, wrote [] msgs empty_io)
    /\ (rbc_article_text blank_node = [] ->
        row = RowNone
        /\ forall io',
             Rbc.write_data Rbc.CSV_HEADERS [row] io'
             = (Returns tt, wrote [Rbc.CSV_HEADERS] [DiagSkipped RowNone] io'))
    /\ (rbc_article_text blank_node <> [] ->
        cells Rbc.CSV_HEADERS row !! 3 = Some (rbc_article_text blank_node)
        /\ cells Rbc.CSV_HEADERS row !! 1 = Some str_sberbank
        /\ forall io',
             Rbc.write_data Rbc.CSV_HEADERS [row] io'
             = (Returns tt, wrote [Rbc.CSV_HEADERS; cells Rbc.CSV_HEADERS row] [] io')).
Proof.
  apply (rbc_page_written_iff_text no_date (http_serving blank_node) some_url
           {| status := 200; text := Returns blank_node |});
    reflexivity.
Defined.

Lemma rbc_page_row_more (http : Http) (url : pyval) (row : pyrow)
    (before msgs after : list diag) :
  rbc_page_row http url row msgs -> rbc_page_row http url row (before ++ msgs ++ after).
Proof.
  unfold rbc_page_row. destruct (fetch_failure http url) as [e|]; [|auto].
  intros [-> Hin]. split; [reflexivity|].
  apply elem_of_app. right. apply elem_of_app. left. exact Hin.
Qed.

Lemma rbc_page_rows_more (http : Http) (urls : list pyval) (rows : list pyrow)
    (before msgs after : list diag) :
  Forall2 (fun url row => rbc_page_row http url row msgs) urls rows ->
  Forall2 (fun url row => rbc_page_row http url row (before ++ msgs ++ after)) urls rows.
Proof.
  intros Hrows. eapply Forall2_impl; [exact Hrows|].
  intros url row. apply rbc_page_row_more.
Qed.

Lemma rbc_parse_page_spec (iso_to_dmy : pystr -> option pystr)
    (http : Http) (url : pyval) (io : IO) :
  catchable http url = true ->
  exists row msgs,
    Rbc._parse_page iso_to_dmy http url io = (Returns row, wrote [] msgs io)
    /\ rbc_page_row http url row msgs.
Proof.
  unfold catchable, rbc_page_row, fetch_failure.
  destruct (http url) as [response|e] eqn:Hget.
  - destruct (text response) as [html|e] eqn:Htext.
    + intros _.
      destruct (rbc_parse_page_fetched iso_to_dmy http url response html io Hget Htext)
        as (t & d & msgs & ->).
      eexists _, msgs. split; [reflexivity|].
      destruct (bool_decide _); [left; reflexivity|right; eauto].
    + intros He. exists (RowDict ∅), [DiagError e].
      unfold Rbc._parse_page, try_except, session_get, response_text, of_result.
      unfold bind at 1. rewrite Hget. unfold bind at 1. rewrite Htext, He.
      unfold bind. rewrite print_wrote. split; [reflexivity|].
      split; [reflexivity|]. apply list_elem_of_singleton. reflexivity.
  - intros He. exists (RowDict ∅), [DiagError e].
    unfold Rbc._parse_page, try_except, session_get, response_text, of_result.
    unfold bind at 1. rewrite Hget, He.
    unfold bind. rewrite print_wrote. split; [reflexivity|].
    split; [reflexivity|]. apply list_elem_of_singleton. reflexivity.
Qed.

Lemma rbc_parse_loop_spec (iso_to_dmy : pystr -> option pystr) (http : Http)
    (urls : list pyval) : forall parsed_data last io,
  forallb (catchable http) urls = true ->
  exists rows msgs,
    Rbc.parse_loop iso_to_dmy http urls parsed_data last io
    = (Returns (parsed_data ++ rows), wrote [] msgs io)
    /\ Forall2 (fun url row => rbc_page_row http url row msgs) urls rows.
Proof.
  induction urls as [|url urls IH]; intros parsed_data last io Hok.
  - exists [], []. cbn. rewrite wrote_nothing, app_nil_r.
    split; [reflexivity|constructor].
  - cbn [forallb] in Hok. apply andb_true_iff in Hok as [Hurl Hurls].
    cbn [Rbc.parse_loop]. unfold bind at 1.
    destruct (rbc_parse_page_spec iso_to_dmy http url io Hurl)
      as (row & m1 & -> & Hrow).
    unfold bind at 1. rewrite print_wrote.
    destruct (IH (parsed_data ++ [row]) (last - 1)
                (wrote [] [DiagRemaining (last - 1)] (wrote [] m1 io)) Hurls)
      as (rows & m2 & -> & Hrows).
    exists (row :: rows), (m1 ++ DiagRemaining (last - 1) :: m2).
    rewrite !wrote_wrote, <- !app_assoc. cbn [app].
    split; [reflexivity|]. constructor.
    + apply (rbc_page_row_more http url row [] m1 (DiagRemaining (last - 1) :: m2)).
      exact Hrow.
    + apply (rbc_page_rows_more http urls rows (m1 ++ [DiagRemaining (last - 1)]) m2 [])
        in Hrows.
      rewrite app_nil_r, <- app_assoc in Hrows. exact Hrows.
Qed.

(** X7: when every fetch that fails fails with an [Exception], rbc's
    [parse_data] returns one entry for every address, in the order of the
    addresses: the empty dict for an address whose fetch failed, with the
    error logged, and [None] or a record with the four fields for every
    other address. *)
Theorem rbc_parse_data_one_entry_per_address
    (iso_to_dmy : pystr -> option pystr) (http : Http) (urls : list pyval) (io : IO) :
  forallb (catchable http) urls = true ->
  exists rows msgs,
    Rbc.parse_data iso_to_dmy http urls io = (Returns rows, wrote [] msgs io)
    /\ List.length rows = List.length urls
    /\ Forall2 (fun url row => rbc_page_row http url row msgs) urls rows.
Proof.
  intros Hok. unfold Rbc.parse_data.
  destruct (rbc_parse_loop_spec iso_to_dmy http urls [] (List.length urls) io Hok)
    as (rows & msgs & Hrun & Hrows).
  exists rows, msgs. split; [exact Hrun|]. split; [|exact Hrows].
  symmetry. apply (Forall2_length _ _ _ Hrows).
Qed.

Lemma rbc_parse_data_witness :
  exists rows msgs,
    Rbc.parse_data no_date http_down [some_url; VNone] empty_io
    = (Returns rows, wrote [] msgs empty_io)
    /\ List.length rows = List.length [some_url; VNone]
    /\ Forall2 (fun url row => rbc_page_row http_down url row msgs)
         [some_url; VNone] rows.
Proof.
  apply (rbc_parse_data_one_entry_per_address no_date http_down
           [some_url; VNone] empty_io).
  reflexivity.
Defined.

(** ** Parsing and writing together *)

Lemma lines_at_most (A : Type) (keep : pyrow -> bool) (line : pyrow -> A)
    (rows : list pyrow) :
  List.length (flat_map (fun row => if keep row then [] else [line row]) rows)
  <= List.length rows.
Proof.
  induction rows as [|row rows IH]; cbn; [lia|].
  destruct (keep row); cbn; lia.
Qed.

Lemma page_rows_fit (http : Http) (msgs : list diag) (urls : list pyval)
    (rows : list pyrow) :
  Forall2 (fun url row => page_row http url row msgs) urls rows ->
  forallb (fits Rambler.CSV_HEADERS) rows = true.
Proof.
  induction 1 as [|url row urls rows Hrow _ IH]; [reflexivity|].
  cbn [forallb]. rewrite IH, andb_true_r.
  unfold page_row in Hrow. destruct (fetch_failure http url).
  - destruct Hrow as [-> _]. apply fits_empty_record.
  - destruct Hrow as (t & d & x & ->). apply fits_record_of.
Qed.

Lemma rbc_page_rows_fit (http : Http) (msgs : list diag) (urls : list pyval)
    (rows : list pyrow) :
  Forall2 (fun url row => rbc_page_row http url row msgs) urls rows ->
  forallb (fun row => is_RowNone row || fits Rambler.CSV_HEADERS row) rows = true.
Proof.
  induction 1 as [|url row urls rows Hrow _ IH]; [reflexivity|].
  cbn [forallb]. rewrite IH, andb_true_r.
  unfold rbc_page_row in Hrow. destruct (fetch_failure http url).
  - destruct Hrow as [-> _]. reflexivity.
  - destruct Hrow as [->|(t & d & x & ->)]; [reflexivity|].
    cbn [is_RowNone record_of orb]. apply fits_record_of.
Qed.

(** X8: parsing a list of addresses and writing what comes of it, as
    [main] does, never raises as long as every fetch that fails fails with
    an [Exception]: no record of [_parse_page] has a key that is no field
    name, and rambler's and ria's never give a [None] row.  The file gets
    the header and then at most one line for every address; what it held
    before stays. *)
Theorem parse_then_write_never_raises :
  (forall iso_to_dmy http urls io,
     forallb (catchable http) urls = true ->
     exists lines msgs,
       (parsed_data <- Rambler.parse_data iso_to_dmy http urls ;;
        Rambler.write_data Rambler.CSV_HEADERS parsed_data) io
       = (Returns tt, wrote (Rambler.CSV_HEADERS :: lines) msgs io)
       /\ List.length lines <= List.length urls)
  /\ (forall findall_date http urls io,
     forallb (catchable http) urls = true ->
     exists lines msgs,
       (parsed_data <- Ria.parse_data findall_date http urls ;;
        Ria.write_data Ria.CSV_HEADERS parsed_data) io
       = (Returns tt, wrote (Ria.CSV_HEADERS :: lines) msgs io)
       /\ List.length lines <= List.length urls)
  /\ (forall iso_to_dmy http urls io,
     forallb (catchable http) urls = true ->
     exists lines msgs,
       (parsed_data <- Rbc.parse_data iso_to_dmy http urls ;;
        Rbc.write_data Rbc.CSV_HEADERS parsed_data) io
       = (Returns tt, wrote (Rbc.CSV_HEADERS :: lines) msgs io)
       /\ List.length lines <= List.length urls).
Proof.
  split; [|split].
  - intros iso_to_dmy http urls io Hok. unfold bind.
    destruct (rambler_parse_data_spec iso_to_dmy http urls io Hok)
      as (rows & m1 & -> & Hrows).
    rewrite rambler_write_data_rows by exact (page_rows_fit _ _ _ _ Hrows).
    rewrite wrote_wrote. cbn [app]. eexists _, _. split; [reflexivity|].
    rewrite (Forall2_length _ _ _ Hrows). apply lines_at_most.
  - intros findall_date http urls io Hok. unfold bind, Ria.parse_data.
    destruct (ria_parse_loop_spec findall_date http urls [] (List.length urls) io Hok)
      as (rows & m1 & -> & Hrows).
    cbn [app]. rewrite ria_write_data_rambler.
    change Ria.CSV_HEADERS with Rambler.CSV_HEADERS.
    rewrite rambler_write_data_rows by exact (page_rows_fit _ _ _ _ Hrows).
    rewrite wrote_wrote. cbn [app]. eexists _, _. split; [reflexivity|].
    rewrite (Forall2_length _ _ _ Hrows). apply lines_at_most.
  - intros iso_to_dmy http urls io Hok. unfold bind, Rbc.parse_data.
    destruct (rbc_parse_loop_spec iso_to_dmy http urls [] (List.length urls) io Hok)
      as (rows & m1 & -> & Hrows).
    cbn [app]. change Rbc.CSV_HEADERS with Rambler.CSV_HEADERS.
    rewrite rbc_write_data_rows by exact (rbc_page_rows_fit _ _ _ _ Hrows).
    rewrite wrote_wrote. cbn [app]. eexists _, _. split; [reflexivity|].
    rewrite (Forall2_length _ _ _ Hrows). apply lines_at_most.
Qed.

Lemma parse_then_write_witness :
  exists lines msgs,
    (parsed_data <- Rambler.parse_data same_date
                      (http_serving (rambler_article (py "Head") (py "2020-12-03")
                                       (py "Text.")))
                      [some_url; some_url] ;;
     Rambler.write_data Rambler.CSV_HEADERS parsed_data) empty_io
    = (Returns tt, wrote (Rambler.CSV_HEADERS :: lines) msgs empty_io)
    /\ List.length lines <= List.length [some_url; some_url].
Proof.
  apply (proj1 parse_then_write_never_raises same_date
           (http_serving (rambler_article (py "Head") (py "2020-12-03") (py "Text.")))
           [some_url; some_url] empty_io).
  reflexivity.
Defined.

(** ** Records the writer cannot take *)

Lemma for_each_app {S A} (body : A -> St S unit) (l l' : list A) (s : S) :
  for_each (l ++ l') body s
  = match for_each l body s with
    | (Returns _, s') => for_each l' body s'
    | (Raises e, s') => (Raises e, s')
    end.
Proof.
  revert s. induction l as [|a l IH]; intros s; cbn [app for_each].
  - reflexivity.
  - unfold bind. destruct (body a s) as [[u|e] s']; [apply IH|reflexivity].
Qed.

(** X9: rambler's (and ria's) [write_data] stops at the first record it
    cannot take and lets the exception out: [ValueError] for a dict with a
    key that is no field name (unless the dict holds a [None], in which case
    it is skipped like any other), [AttributeError] for a record that is
    [None].  The header and the lines of the records before it are in the
    file by then and stay there; the records after it are not written. *)
Theorem write_data_stops_at_bad_record :
  (forall fieldnames good fields rest io,
     forallb (fits fieldnames) good = true ->
     fits fieldnames (RowDict fields) = false ->
     holds_None (RowDict fields) = false ->
     Rambler.write_data fieldnames (good ++ RowDict fields :: rest) io
     = (Raises ValueError,
        wrote (fieldnames :: rambler_lines fieldnames good) (rambler_skips good) io))
  /\ (forall fieldnames good rest io,
     forallb (fits fieldnames) good = true ->
     Rambler.write_data fieldnames (good ++ RowNone :: rest) io
     = (Raises AttributeError,
        wrote (fieldnames :: rambler_lines fieldnames good) (rambler_skips good) io))
  /\ (forall fieldnames fields io,
     fits fieldnames (RowDict fields) = false ->
     holds_None (RowDict fields) = true ->
     Rambler.write_data fieldnames [RowDict fields] io
     = (Returns tt, wrote [fieldnames] [DiagSkipped (RowDict fields)] io)).
Proof.
  split; [|split].
  - intros fieldnames good fields rest io Hgood Hfits Hnone.
    unfold Rambler.write_data, DictWriter.writeheader, bind.
    rewrite write_line_wrote, for_each_app.
    rewrite rambler_for_each_rows by exact Hgood.
    cbn [for_each]. unfold bind. cbn [Rambler.write_row].
    rewrite all_not_None_holds_None, Hnone. cbn [negb].
    unfold DictWriter.writerow. rewrite keys_check_fits, Hfits.
    unfold raise. rewrite wrote_wrote. reflexivity.
  - intros fieldnames good rest io Hgood.
    unfold Rambler.write_data, DictWriter.writeheader, bind.
    rewrite write_line_wrote, for_each_app.
    rewrite rambler_for_each_rows by exact Hgood.
    cbn [for_each]. unfold bind. cbn [Rambler.write_row].
    unfold raise. rewrite wrote_wrote. reflexivity.
  - intros fieldnames fields io Hfits Hnone.
    unfold Rambler.write_data, DictWriter.writeheader, bind.
    rewrite write_line_wrote. cbn [for_each]. unfold bind.
    cbn [Rambler.write_row].
    rewrite all_not_None_holds_None, Hnone. cbn [negb].
    rewrite print_wrote. unfold ret. rewrite !wrote_wrote. reflexivity.
Qed.

Lemma write_data_stops_witness :
  Rambler.write_data Rambler.CSV_HEADERS
    ([full_record] ++ RowDict stray_fields :: [full_record]) empty_io
  = (Raises ValueError,
     wrote (Rambler.CSV_HEADERS :: rambler_lines Rambler.CSV_HEADERS [full_record])
       (rambler_skips [full_record]) empty_io).
Proof.
  apply (proj1 write_data_stops_at_bad_record Rambler.CSV_HEADERS
           [full_record] stray_fields [full_record] empty_io);
    vm_compute; reflexivity.
Defined.

(** ** The date of an article *)

(** X10: with a [time] element on the page, rambler's and rbc's
    [_parse_date] never return [None]: without a [datetime] attribute they
    log a [TypeError] and return the empty string, with one that is no ISO
    date they log a [ValueError] and return the empty string, and otherwise
    they return the converted date and log nothing.  The two functions are
    the same. *)
Theorem parse_date_with_time_element
    (iso_to_dmy : pystr -> option pystr) (html element : Node) (io : IO) :
  css_first html "time" = Some element ->
  (attributes_get element "datetime" = VNone ->
   Rambler._parse_date iso_to_dmy html io
   = (Returns (VStr []), wrote [] [DiagError TypeError] io))
  /\ (forall s, attributes_get element "datetime" = VStr s ->
      iso_to_dmy s = None ->
      Rambler._parse_date iso_to_dmy html io
      = (Returns (VStr []), wrote [] [DiagError ValueError] io))
  /\ (forall s formatted, attributes_get element "datetime" = VStr s ->
      iso_to_dmy s = Some formatted ->
      Rambler._parse_date iso_to_dmy html io = (Returns (VStr formatted), io))
  /\ Rbc._parse_date iso_to_dmy html io = Rambler._parse_date iso_to_dmy html io.
Proof.
  intros Helement.
  assert (Hsame : Rbc._parse_date iso_to_dmy html io
                  = Rambler._parse_date iso_to_dmy html io) by reflexivity.
  unfold Rambler._parse_date, try_except, bind, fromisoformat_strftime in *.
  rewrite Helement in *.
  split; [|split; [|split]].
  - intros ->. cbn. rewrite logged_wrote. reflexivity.
  - intros s -> ->. cbn. rewrite logged_wrote. reflexivity.
  - intros s formatted -> ->. reflexivity.
  - exact Hsame.
Qed.

Lemma parse_date_with_time_element_witness :
  Rambler._parse_date no_date (page_with_time ∅) empty_io
  = (Returns (VStr []), wrote [] [DiagError TypeError] empty_io).
Proof.
  apply (proj1 (parse_date_with_time_element no_date (page_with_time ∅)
                  (MkNode [] ∅ (fun _ => [])) empty_io eq_refl)).
  reflexivity.
Defined.

(** X11: with a date line on the page, ria's [_parse_date] returns [None]
    when the line is blank, the empty string and a logged [IndexError] when
    the line holds no date, and the first date found otherwise. *)
Theorem ria_parse_date_with_date_line
    (findall_date : pystr -> list pystr) (html element : Node) (io : IO) :
  css_first html ".article__info-valign" = Some element ->
  (strip (node_text element) = [] ->
   Ria._parse_date findall_date html io = (Returns VNone, io))
  /\ (strip (node_text element) <> [] ->
      findall_date (strip (node_text element)) = [] ->
      Ria._parse_date findall_date html io
      = (Returns (VStr []), wrote [] [DiagError IndexError] io))
  /\ (forall first others,
      strip (node_text element) <> [] ->
      findall_date (strip (node_text element)) = first :: others ->
      Ria._parse_date findall_date html io = (Returns (VStr first), io)).
Proof.
  intros Helement.
  unfold Ria._parse_date, try_except, bind, text_of, index.
  rewrite Helement. cbn [ret].
  split; [|split].
  - intros ->. reflexivity.
  - intros Hline ->.
    destruct (strip (node_text element)); [contradiction|].
    cbn. rewrite logged_wrote. reflexivity.
  - intros first others Hline ->.
    destruct (strip (node_text element)); [contradiction|]. reflexivity.
Qed.

Lemma ria_parse_date_with_date_line_witness :
  Ria._parse_date no_match (page_with_date_line (py " 12:00 ")) empty_io
  = (Returns (VStr []), wrote [] [DiagError IndexError] empty_io).
Proof.
  apply (proj1 (proj2 (ria_parse_date_with_date_line no_match
                         (page_with_date_line (py " 12:00 "))
                         (leaf (py " 12:00 ")) empty_io eq_refl))).
  - vm_compute. discriminate.
  - reflexivity.
Defined.

(** ** The text of an article *)

Lemma rambler_join_paragraphs_from (paragraphs : list Node) : forall acc,
  fold_left
    (fun article_text paragraph =>
       if 0 <? List.length (node_text paragraph)
       then article_text ++ re_sub (strip (node_text paragraph))
       else article_text)
    paragraphs acc
  = acc ++ List.concat
             (List.map (fun paragraph => re_sub (strip (node_text paragraph)))
                paragraphs).
Proof.
  induction paragraphs as [|paragraph paragraphs IH]; intros acc; cbn [fold_left].
  - cbn [List.map List.concat]. rewrite app_nil_r. reflexivity.
  - rewrite IH. cbn [List.map List.concat].
    destruct (node_text paragraph) as [|c text].
    + change (re_sub (strip [])) with (@nil N). rewrite app_nil_l. reflexivity.
    + change (0 <? List.length (c :: text)) with true. cbv iota.
      rewrite app_assoc. reflexivity.
Qed.

(** X12: rambler and rbc build the article text in the same way: the texts
    of the paragraphs, each stripped and with its whitespace runs replaced
    by blanks, put together in document order with nothing in between.
    rambler's test for an empty paragraph makes no difference. *)
Theorem join_paragraphs_is_concat (paragraphs : list Node) :
  Rambler.join_paragraphs paragraphs
  = List.concat (List.map (fun paragraph => re_sub (strip (node_text paragraph)))
                   paragraphs)
  /\ Rbc.join_paragraphs paragraphs = Rambler.join_paragraphs paragraphs.
Proof.
  unfold Rambler.join_paragraphs, Rbc.join_paragraphs.
  rewrite rambler_join_paragraphs_from, rbc_join_paragraphs_from.
  split; reflexivity.
Qed.

Lemma re_sub_from_plain (s : pystr) : forall in_run,
  Forall (fun c => c = 32%N \/ plain c = true) (re_sub_from in_run s)
  /\ List.length (re_sub_from in_run s) <= List.length s.
Proof.
  induction s as [|c s IH]; intros in_run; cbn [re_sub_from List.length].
  - split; [constructor|lia].
  - destruct (isspace c) eqn:Hspace.
    + destruct in_run.
      * destruct (IH true) as [Hall Hlen]. split; [exact Hall|lia].
      * destruct (IH true) as [Hall Hlen]. cbn [List.length].
        split; [constructor; [left; reflexivity|exact Hall]|lia].
    + destruct (c =? 8203)%N eqn:Hzw; destruct (IH false) as [Hall Hlen];
        cbn [List.length].
      * split; [constructor; [left; reflexivity|exact Hall]|lia].
      * split; [|lia]. constructor; [|exact Hall].
        right. unfold plain. rewrite Hspace, Hzw. reflexivity.
Qed.

Lemma re_sub_from_fixes_plain (s : pystr) : forall in_run,
  forallb plain s = true -> re_sub_from in_run s = s.
Proof.
  induction s as [|c s IH]; intros in_run; cbn [forallb re_sub_from];
    [reflexivity|].
  rewrite andb_true_iff. unfold plain at 1. rewrite andb_true_iff, !negb_true_iff.
  intros [[-> ->] Hs]. rewrite IH by exact Hs. reflexivity.
Qed.

(** X13: the substitution that cleans a paragraph leaves no whitespace
    character but the blank and no zero-width space in the text, never makes
    the text longer, and changes nothing in a text that has neither. *)
Theorem re_sub_leaves_blanks_only (s : pystr) :
  Forall (fun c => c = 32%N \/ plain c = true) (re_sub s)
  /\ List.length (re_sub s) <= List.length s
  /\ (forallb plain s = true -> re_sub s = s).
Proof.
  unfold re_sub. destruct (re_sub_from_plain s false) as [Hall Hlen].
  split; [exact Hall|]. split; [exact Hlen|]. apply re_sub_from_fixes_plain.
Qed.

Lemma re_sub_leaves_blanks_only_witness :
  re_sub (py "Sber") = py "Sber".
Proof.
  apply (proj2 (proj2 (re_sub_leaves_blanks_only (py "Sber")))). reflexivity.
Defined.

(** ** The count of pages left *)

Lemma remaining_counts_app (m1 m2 : list diag) :
  remaining_counts (m1 ++ m2) = remaining_counts m1 ++ remaining_counts m2.
Proof. unfold remaining_counts. apply flat_map_app. Qed.

Lemma errors_unchanged (value : pyval) (io : IO) :
  exists value' msgs,
    (Returns value, io) = (Returns value', wrote [] msgs io)
    /\ remaining_counts msgs = [].
Proof. exists value, []. rewrite wrote_nothing. split; reflexivity. Qed.

Lemma errors_logged (value : pyval) (e : exn) (io : IO) :
  exists value' msgs,
    (Returns value,
     {| csv_file := csv_file io; console := console io ++ [DiagError e] |})
    = (Returns value', wrote [] msgs io)
    /\ remaining_counts msgs = [].
Proof. exists value, [DiagError e]. rewrite logged_wrote. split; reflexivity. Qed.

Lemma ria_parse_title_errors : logs_errors_only Ria._parse_title.
Proof.
  intros html io. unfold Ria._parse_title, try_except.
  destruct (css_first html ".article__title"); cbn; apply errors_unchanged.
Qed.

Lemma ria_parse_date_errors (findall_date : pystr -> list pystr) :
  logs_errors_only (Ria._parse_date findall_date).
Proof.
  intros html io.
  unfold Ria._parse_date, try_except, bind, text_of, index.
  destruct (css_first html ".article__info-valign") as [element|]; cbn;
    [|apply errors_logged].
  destruct (List.length (strip (node_text element))); cbn;
    [apply errors_unchanged|].
  destruct (findall_date (strip (node_text element)) !! 0); cbn;
    [apply errors_unchanged|apply errors_logged].
Qed.

Lemma ria_parse_text_errors : logs_errors_only Ria._parse_text.
Proof.
  intros html io. unfold Ria._parse_text, try_except, bind, css_of, index.
  destruct (css_first html ".layout-article__main-over") as [block|]; cbn;
    [|apply errors_logged].
  destruct (split_once 46 _ !! 1); cbn;
    [apply errors_unchanged|apply errors_logged].
Qed.

Lemma rbc_parse_title_errors : logs_errors_only Rbc._parse_title.
Proof.
  intros html io. unfold Rbc._parse_title, try_except.
  destruct (css_first html Rbc.HEADLINE_SELECTOR); cbn; apply errors_unchanged.
Qed.

Lemma rbc_parse_date_errors (iso_to_dmy : pystr -> option pystr) :
  logs_errors_only (Rbc._parse_date iso_to_dmy).
Proof.
  intros html io.
  unfold Rbc._parse_date, try_except, bind, fromisoformat_strftime.
  destruct (css_first html "time") as [element|]; cbn; [|apply errors_unchanged].
  destruct (attributes_get element "datetime") as [|s]; cbn; [apply errors_logged|].
  destruct (iso_to_dmy s); cbn; [apply errors_unchanged|apply errors_logged].
Qed.

Lemma rbc_parse_text_errors : logs_errors_only Rbc._parse_text.
Proof.
  intros html io. rewrite rbc_parse_text_value. apply errors_unchanged.
Qed.

(** [_parse_page] puts no "pages left" message on the console. *)
Lemma ria_parse_page_errors (findall_date : pystr -> list pystr)
    (http : Http) (url : pyval) (io : IO) :
  catchable http url = true ->
  exists row msgs,
    Ria._parse_page findall_date http url io = (Returns row, wrote [] msgs io)
    /\ remaining_counts msgs = [].
Proof.
  unfold catchable, fetch_failure.
  unfold Ria._parse_page, try_except, session_get, response_text, of_result.
  unfold bind at 1.
  destruct (http url) as [response|e].
  - unfold bind at 1. destruct (text response) as [html|e].
    + intros _. unfold bind.
      destruct (ria_parse_title_errors html io) as (t & m1 & -> & H1).
      destruct (ria_parse_date_errors findall_date html (wrote [] m1 io))
        as (d & m2 & -> & H2).
      destruct (ria_parse_text_errors html (wrote [] m2 (wrote [] m1 io)))
        as (x & m3 & -> & H3).
      unfold ret. rewrite !wrote_wrote. cbn [app].
      eexists _, _. split; [reflexivity|].
      rewrite !remaining_counts_app, H1, H2, H3. reflexivity.
    + intros ->. unfold bind. rewrite print_wrote.
      eexists _, _. split; reflexivity.
  - intros ->. unfold bind. rewrite print_wrote.
    eexists _, _. split; reflexivity.
Qed.

Lemma rbc_parse_page_errors (iso_to_dmy : pystr -> option pystr)
    (http : Http) (url : pyval) (io : IO) :
  catchable http url = true ->
  exists row msgs,
    Rbc._parse_page iso_to_dmy http url io = (Returns row, wrote [] msgs io)
    /\ remaining_counts msgs = [].
Proof.
  unfold catchable, fetch_failure.
  unfold Rbc._parse_page, try_except, session_get, response_text, of_result.
  unfold bind at 1.
  destruct (http url) as [response|e].
  - unfold bind at 1. destruct (text response) as [html|e].
    + intros _. unfold bind.
      destruct (rbc_parse_title_errors html io) as (t & m1 & -> & H1).
      destruct (rbc_parse_date_errors iso_to_dmy html (wrote [] m1 io))
        as (d & m2 & -> & H2).
      destruct (rbc_parse_text_errors html (wrote [] m2 (wrote [] m1 io)))
        as (x & m3 & -> & H3).
      unfold ret. rewrite !wrote_wrote. cbn [app].
      destruct (bool_decide _); (eexists _, _; split; [reflexivity|]);
        rewrite !remaining_counts_app, H1, H2, H3; reflexivity.
    + intros ->. unfold bind. rewrite print_wrote.
      eexists _, _. split; reflexivity.
  - intros ->. unfold bind. rewrite print_wrote.
    eexists _, _. split; reflexivity.
Qed.

Lemma ria_parse_loop_countdown (findall_date : pystr -> list pystr) (http : Http)
    (urls : list pyval) : forall parsed_data last io,
  forallb (catchable http) urls = true ->
  exists rows msgs,
    Ria.parse_loop findall_date http urls parsed_data last io
    = (Returns rows, wrote [] msgs io)
    /\ remaining_counts msgs = countdown last (List.length urls).
Proof.
  induction urls as [|url urls IH]; intros parsed_data last io Hok.
  - exists parsed_data, []. cbn. rewrite wrote_nothing. split; reflexivity.
  - cbn [forallb] in Hok. apply andb_true_iff in Hok as [Hurl Hurls].
    cbn [Ria.parse_loop]. unfold bind at 1.
    destruct (ria_parse_page_errors findall_date http url io Hurl)
      as (row & m1 & -> & H1).
    unfold bind at 1. rewrite print_wrote.
    destruct (IH (parsed_data ++ [row]) (last - 1)
                (wrote [] [DiagRemaining (last - 1)] (wrote [] m1 io)) Hurls)
      as (rows & m2 & -> & H2).
    rewrite !wrote_wrote. eexists _, _. split; [reflexivity|].
    rewrite !remaining_counts_app, H1, H2. reflexivity.
Qed.

Lemma rbc_parse_loop_countdown (iso_to_dmy : pystr -> option pystr) (http : Http)
    (urls : list pyval) : forall parsed_data last io,
  forallb (catchable http) urls = true ->
  exists rows msgs,
    Rbc.parse_loop iso_to_dmy http urls parsed_data last io
    = (Returns rows, wrote [] msgs io)
    /\ remaining_counts msgs = countdown last (List.length urls).
Proof.
  induction urls as [|url urls IH]; intros parsed_data last io Hok.
  - exists parsed_data, []. cbn. rewrite wrote_nothing. split; reflexivity.
  - cbn [forallb] in Hok. apply andb_true_iff in Hok as [Hurl Hurls].
    cbn [Rbc.parse_loop]. unfold bind at 1.
    destruct (rbc_parse_page_errors iso_to_dmy http url io Hurl)
      as (row & m1 & -> & H1).
    unfold bind at 1. rewrite print_wrote.
    destruct (IH (parsed_data ++ [row]) (last - 1)
                (wrote [] [DiagRemaining (last - 1)] (wrote [] m1 io)) Hurls)
      as (rows & m2 & -> & H2).
    rewrite !wrote_wrote. eexists _, _. split; [reflexivity|].
    rewrite !remaining_counts_app, H1, H2. reflexivity.
Qed.

Lemma countdown_rev_seq (k : nat) : forall m,
  countdown (m + k) k = rev (seq m k).
Proof.
  induction k as [|k IH]; intros m; [reflexivity|].
  rewrite seq_S, rev_app_distr. cbn [countdown rev app].
  replace (m + S k - 1) with (m + k) by lia.
  rewrite IH. reflexivity.
Qed.

(** X14: ria's and rbc's [parse_data] report the pages left after every
    address, the fetch of which may have failed: for [n] addresses the
    numbers printed are [n - 1], [n - 2], ..., [0], in this order, and
    nothing else on the console is a "pages left" message. *)
Theorem parse_data_counts_down :
  (forall findall_date http urls io,
     forallb (catchable http) urls = true ->
     exists rows msgs,
       Ria.parse_data findall_date http urls io = (Returns rows, wrote [] msgs io)
       /\ remaining_counts msgs = rev (seq 0 (List.length urls)))
  /\ (forall iso_to_dmy http urls io,
     forallb (catchable http) urls = true ->
     exists rows msgs,
       Rbc.parse_data iso_to_dmy http urls io = (Returns rows, wrote [] msgs io)
       /\ remaining_counts msgs = rev (seq 0 (List.length urls))).
Proof.
  split.
  - intros findall_date http urls io Hok. unfold Ria.parse_data.
    destruct (ria_parse_loop_countdown findall_date http urls []
                (List.length urls) io Hok) as (rows & msgs & Hrun & Hcount).
    exists rows, msgs. split; [exact Hrun|].
    rewrite Hcount. apply (countdown_rev_seq (List.length urls) 0).
  - intros iso_to_dmy http urls io Hok. unfold Rbc.parse_data.
    destruct (rbc_parse_loop_countdown iso_to_dmy http urls []
                (List.length urls) io Hok) as (rows & msgs & Hrun & Hcount).
    exists rows, msgs. split; [exact Hrun|].
    rewrite Hcount. apply (countdown_rev_seq (List.length urls) 0).
Qed.

Lemma parse_data_counts_down_witness :
  exists rows msgs,
    Ria.parse_data no_match http_down [some_url; VNone; some_url] empty_io
    = (Returns rows, wrote [] msgs empty_io)
    /\ remaining_counts msgs = rev (seq 0 (List.length [some_url; VNone; some_url])).
Proof.
  apply (proj1 parse_data_counts_down no_match http_down
           [some_url; VNone; some_url] empty_io).
  reflexivity.
Defined.

(** ** ria: from a page to a line of the file *)

Lemma ria_parse_title_value (html : Node) (io : IO) :
  exists value,
    Ria._parse_title html io = (Returns value, io)
    /\ (value = VNone <-> css_first html ".article__title" = None).
Proof.
  unfold Ria._parse_title, try_except.
  destruct (css_first html ".article__title"); cbn; eexists;
    (split; [reflexivity|]); split; congruence.
Qed.

Lemma ria_parse_date_value (findall_date : pystr -> list pystr)
    (html : Node) (io : IO) :
  exists value msgs,
    Ria._parse_date findall_date html io = (Returns value, wrote [] msgs io)
    /\ (value = VNone <->
        exists element,
          css_first html ".article__info-valign" = Some element
          /\ strip (node_text element) = []).
Proof.
  unfold Ria._parse_date, try_except, bind, text_of, index.
  destruct (css_first html ".article__info-valign") as [element|]; cbn.
  - destruct (strip (node_text element)) as [|c line] eqn:Hline; cbn.
    + eexists _, []. rewrite wrote_nothing. split; [reflexivity|].
      split; [|reflexivity]. intros _. exists element. rewrite Hline. auto.
    + destruct (findall_date (c :: line) !! 0); cbn.
      * eexists _, []. rewrite wrote_nothing. split; [reflexivity|].
        split; [discriminate|]. intros (element' & [= <-] & Hblank).
        rewrite Hline in Hblank. discriminate.
      * eexists _, [_]. rewrite logged_wrote. split; [reflexivity|].
        split; [discriminate|]. intros (element' & [= <-] & Hblank).
        rewrite Hline in Hblank. discriminate.
  - eexists _, [_]. rewrite logged_wrote. split; [reflexivity|].
    split; [discriminate|]. intros (element & Hsome & _). discriminate.
Qed.

Lemma ria_parse_text_value (html : Node) (io : IO) :
  exists s msgs,
    Ria._parse_text html io = (Returns (VStr s), wrote [] msgs io).
Proof.
  unfold Ria._parse_text, try_except, bind, css_of, index.
  destruct (css_first html ".layout-article__main-over") as [block|]; cbn.
  - destruct (split_once 46 _ !! 1); cbn.
    + eexists _, []. rewrite wrote_nothing. reflexivity.
    + eexists _, [_]. rewrite logged_wrote. reflexivity.
  - eexists _, [_]. rewrite logged_wrote. reflexivity.
Qed.

(** X15: a ria page that was fetched is skipped by the writer, with a
    message, exactly when it has no title element or its date line is there
    but blank; every other page gets a line, a page without any date line
    included (its date cell is empty). *)
Theorem ria_page_written_unless_no_title_or_blank_date
    (findall_date : pystr -> list pystr) (http : Http) (url : pyval)
    (response : Response) (html : Node) (io : IO) :
  http url = Returns response ->
  text response = Returns html ->
  exists row msgs,
    Ria._parse_page findall_date http url io = (Returns row, wrote [] msgs io)
    /\ (css_first html ".article__title" <> None
        /\ (forall element,
              css_first html ".article__info-valign" = Some element ->
              strip (node_text element) <> []) ->
        forall io',
          Ria.write_data Ria.CSV_HEADERS [row] io'
          = (Returns tt, wrote [Ria.CSV_HEADERS; cells Ria.CSV_HEADERS row] [] io'))
    /\ (css_first html ".article__title" = None
        \/ (exists element,
              css_first html ".article__info-valign" = Some element
              /\ strip (node_text element) = []) ->
        forall io',
          Ria.write_data Ria.CSV_HEADERS [row] io'
          = (Returns tt, wrote [Ria.CSV_HEADERS] [DiagSkipped row] io')).
Proof.
  intros Hget Htext.
  unfold Ria._parse_page, try_except, session_get, response_text, of_result.
  unfold bind at 1. rewrite Hget. unfold bind at 1. rewrite Htext.
  unfold bind.
  destruct (ria_parse_title_value html io) as (t & -> & Ht).
  destruct (ria_parse_date_value findall_date html io) as (d & m1 & -> & Hd).
  destruct (ria_parse_text_value html (wrote [] m1 io)) as (x & m2 & ->).
  unfold ret. rewrite wrote_wrote. cbn [app].
  exists (record_of t d (VStr x)), (m1 ++ m2). split; [reflexivity|].
  assert (Hnone : holds_None (record_of t d (VStr x)) = is_None t || is_None d).
  { rewrite holds_None_record_of. cbn. apply orb_false_r. }
  rewrite ria_write_data_rambler. change Ria.CSV_HEADERS with Rambler.CSV_HEADERS.
  split.
  - intros [Htitle Hline] io'.
    rewrite rambler_write_data_rows
      by (cbn [forallb]; rewrite fits_record_of; reflexivity).
    cbn [flat_map app]. rewrite Hnone.
    destruct t; [exfalso; apply Htitle, Ht; reflexivity|].
    destruct d; [|reflexivity].
    exfalso. destruct (proj1 Hd eq_refl) as (element & Hsome & Hblank).
    exact (Hline element Hsome Hblank).
  - intros Habsent io'.
    rewrite rambler_write_data_rows
      by (cbn [forallb]; rewrite fits_record_of; reflexivity).
    cbn [flat_map app]. rewrite Hnone.
    assert (Hor : is_None t || is_None d = true).
    { destruct Habsent as [H|H].
      - apply Ht in H. subst t. reflexivity.
      - apply Hd in H. subst d. apply orb_true_r. }
    rewrite Hor. reflexivity.
Qed.

Lemma ria_page_written_witness :
  exists row msgs,
    Ria._parse_page whole_match
      (http_serving (ria_full_article (py "Title") (py "   ") (py "Intro. Body.")))
      some_url empty_io
    = (Returns row, wrote [] msgs empty_io)
    /\ (css_first (ria_full_article (py "Title") (py "   ") (py "Intro. Body."))
          ".article__title" <> None
        /\ (forall element,
              css_first (ria_full_article (py "Title") (py "   ") (py "Intro. Body."))
                ".article__info-valign" = Some element ->
              strip (node_text element) <> []) ->
        forall io',
          Ria.write_data Ria.CSV_HEADERS [row] io'
          = (Returns tt, wrote [Ria.CSV_HEADERS; cells Ria.CSV_HEADERS row] [] io'))
    /\ (css_first (ria_full_article (py "Title") (py "   ") (py "Intro. Body."))
          ".article__title" = None
        \/ (exists element,
              css_first (ria_full_article (py "Title") (py "   ") (py "Intro. Body."))
                ".article__info-valign" = Some element
              /\ strip (node_text element) = []) ->
        forall io',
          Ria.write_data Ria.CSV_HEADERS [row] io'
          = (Returns tt, wrote [Ria.CSV_HEADERS] [DiagSkipped row] io')).
Proof.
  apply (ria_page_written_unless_no_title_or_blank_date whole_match
           (http_serving (ria_full_article (py "Title") (py "   ") (py "Intro. Body.")))
           some_url
           {| status := 200;
              text := Returns (ria_full_article (py "Title") (py "   ")
                                 (py "Intro. Body.")) |});
    reflexivity.
Defined.

(** ** What rbc's collector returns *)

Lemma rbc_loop_returns_links (j : nat) :
  forall (st : Rbc.LoaderState) (d : Driver) (fuel : nat) (hrefs : list pyval),
  Rbc.scroll_complete st = false ->
  (forall i, i < j -> rbc_idle_round (timeline d) (clock d) i = true) ->
  scrolls (timeline d (clock d + 2 * j)) = true ->
  seen Rbc.TARGET_DATE (timeline d (clock d + 2 * j + 1)) = true ->
  links_outcome (timeline d (clock d + 2 * j + 2)) = Returns (List.map Returns hrefs) ->
  j < fuel ->
  exists d',
    Rbc.scroll_loop fuel st d = Finished (Returns (Rbc.article_urls st ++ hrefs)) d'.
Proof.
  induction j as [|j IH]; intros st d fuel hrefs Hflag Hidle Hs Hseen Hlinks Hfuel.
  - destruct fuel as [|fuel]; [lia|].
    replace (clock d + 2 * 0) with (clock d) in Hs by lia.
    replace (clock d + 2 * 0 + 1) with (S (clock d)) in Hseen by lia.
    replace (clock d + 2 * 0 + 2) with (S (S (clock d))) in Hlinks by lia.
    apply seen_poll in Hseen. apply scrolls_outcome in Hs.
    cbn [Rbc.scroll_loop]. rewrite Hflag.
    unfold Rbc.loop_body, Rbc._scroll_to_bottom, execute_script, current.
    rewrite Hs. cbn [of_outcome ret].
    unfold Rbc.poll_step. rewrite wait_for_text_spec.
    unfold current at 1. cbn [tick timeline clock]. rewrite Hseen.
    unfold find_elements, current. cbn [tick timeline clock].
    rewrite Hlinks. cbn [Rbc.article_urls]. rewrite append_hrefs_all.
    cbn. eexists. reflexivity.
  - destruct fuel as [|fuel]; [lia|].
    destruct (rbc_idle_step st d fuel Hflag) as (d1 & -> & Htl & Hck).
    { apply Hidle. lia. }
    apply IH; try assumption.
    + intros i Hi. rewrite Htl, Hck, rbc_idle_shift. apply Hidle. lia.
    + rewrite Htl, Hck.
      replace (clock d + 2 + 2 * j) with (clock d + 2 * S j) by lia. exact Hs.
    + rewrite Htl, Hck.
      replace (clock d + 2 + 2 * j + 1) with (clock d + 2 * S j + 1) by lia.
      exact Hseen.
    + rewrite Htl, Hck.
      replace (clock d + 2 + 2 * j + 2) with (clock d + 2 * S j + 2) by lia.
      exact Hlinks.
    + lia.
Qed.

(** X16: rbc's [collect_urls] returns the addresses of the items that the
    page lists right after the look that found the target date, all of them
    and in document order.  Here the navigation succeeds, [j] rounds go by
    without the date and without an exception, and the fuel covers the
    [j + 1] rounds. *)
Theorem rbc_collect_urls_returns_links
    (tl : nat -> Page) (j fuel : nat) (hrefs : list pyval) :
  nav_outcome (tl 0) = None ->
  nav_outcome (tl 1) = None ->
  (forall i, i < j -> rbc_idle_round tl 2 i = true) ->
  scrolls (tl (2 + 2 * j)) = true ->
  seen Rbc.TARGET_DATE (tl (2 + 2 * j + 1)) = true ->
  links_outcome (tl (2 + 2 * j + 2)) = Returns (List.map Returns hrefs) ->
  j < fuel ->
  exists d, Rbc.collect_urls fuel tl = Finished (Returns hrefs) d.
Proof.
  intros H0 H1 Hidle Hs Hseen Hlinks Hfuel.
  unfold Rbc.collect_urls, bind, get, maximize_window, current.
  cbn [new_driver timeline clock]. rewrite H0.
  cbn [of_outcome ret tick new_driver timeline clock]. rewrite H1.
  cbn [of_outcome ret].
  set (d0 := tick EvMaximize _).
  destruct (rbc_loop_returns_links j Rbc.initial d0 fuel hrefs) as (d1 & ->);
    try assumption; try reflexivity.
  eexists. reflexivity.
Qed.

Lemma rbc_collect_urls_returns_links_witness :
  exists d,
    Rbc.collect_urls 2 (rbc_archive 5)
    = Finished (Returns [VStr (py "https://b/1")]) d.
Proof.
  apply (rbc_collect_urls_returns_links (rbc_archive 5) 1 2
           [VStr (py "https://b/1")]);
    try reflexivity; try lia.
  intros i Hi. assert (i = 0) as -> by lia. reflexivity.
Defined.
